(** * check_for_xxx: a shallow embedding of the pre-commit debug-marker hook

    The development follows [src/precommit_hooks/check_for_xxx.py]:
    - [Py]: the Python [str] and [int] built-ins the hook calls;
    - [Difflib]: [difflib.unified_diff] as the hook calls it
      ([SequenceMatcher] with the default [autojunk], [n=0], [lineterm=""]);
    - [Hook]: [parse_line_number], [collect_errors], [read_blob], [main].

    A Python [str] is modelled by [string]; its characters are the code
    points U+0000..U+00FF.  A Python [int] is [Z]; list indices and lengths
    are [nat].  Generators are modelled by the list of what they yield.
    What [git] supplies to [main], the entries of the index diff with their
    blobs, is an argument of [Hook.main]. *)

From Stdlib Require Import ZArith Ascii String DecimalString DecimalZ Lia.
From stdpp Require Import base option list gmap strings sorting.

(** ** Outcomes of a Python call *)

Inductive exn : Type :=
| ValueError (msg : string).

(** [OutOfFuel] is the outcome of a loop cut by its bound.  The one bound
    used below, that of the queue loop of [get_matching_blocks], is shown
    sufficient in [matching_loop_total]: no call ends in [OutOfFuel]. *)
Inductive result (A : Type) : Type :=
| Ok (a : A)
| Raise (e : exn)
| OutOfFuel.
Arguments Ok {A} a.
Arguments Raise {A} e.
Arguments OutOfFuel {A}.

Definition bind {A B : Type} (r : result A) (k : A → result B) : result B :=
  match r with
  | Ok a => k a
  | Raise e => Raise e
  | OutOfFuel => OutOfFuel
  end.

Notation "x ←! r ; k" := (bind r (fun x => k))
  (at level 100, r at next level, right associativity, only parsing).

(** A [for] loop whose body may raise. *)
Fixpoint for_each {S X : Type} (body : S → X → result S) (s : S) (xs : list X)
  : result S :=
  match xs with
  | [] => Ok s
  | x :: xs' => s' ←! body s x; for_each body s' xs'
  end.

(** ** Python built-ins *)

Module Py.

Definition ord (c : ascii) : nat := nat_of_ascii c.

Definition between (lo hi n : nat) : bool := (lo <=? n) && (n <=? hi).

(** [str.isspace] on one character. *)
Definition isspace (c : ascii) : bool :=
  between 9 13 (ord c) || between 28 32 (ord c)
  || (ord c =? 133) || (ord c =? 160).

(** The line boundaries of [str.splitlines]. *)
Definition is_linebreak (c : ascii) : bool :=
  between 10 13 (ord c) || between 28 30 (ord c) || (ord c =? 133).

(** The whitespace [int] accepts around a literal. *)
Definition int_space (c : ascii) : bool :=
  between 9 13 (ord c) || (ord c =? 32) || (ord c =? 133) || (ord c =? 160).

Definition is_digit (c : ascii) : bool := between 48 57 (ord c).

(** [str.lower] on one character. *)
Definition lower_char (c : ascii) : ascii :=
  if between 65 90 (ord c) || between 192 214 (ord c) || between 216 222 (ord c)
  then ascii_of_nat (ord c + 32)
  else c.

Fixpoint lower (s : string) : string :=
  match s with
  | EmptyString => EmptyString
  | String c s' => String (lower_char c) (lower s')
  end.

(** [s.startswith(p)] *)
Fixpoint startswith (s p : string) {struct p} : bool :=
  match p, s with
  | EmptyString, _ => true
  | String _ _, EmptyString => false
  | String c p', String d s' => Ascii.eqb c d && startswith s' p'
  end.

(** [needle in hay] *)
Fixpoint contains (needle hay : string) : bool :=
  startswith hay needle
  || match hay with
     | EmptyString => false
     | String _ hay' => contains needle hay'
     end.

(** [s.split(sep)] for a separator of one character. *)
Fixpoint split (sep : ascii) (s : string) : list string :=
  match s with
  | EmptyString => [EmptyString]
  | String c s' =>
      if Ascii.eqb c sep then EmptyString :: split sep s'
      else match split sep s' with
           | [] => [String c EmptyString]
           | w :: ws => String c w :: ws
           end
  end.

(** [s.splitlines()]: a carriage return followed by a line feed is one
    boundary, and a final boundary opens no further line. *)
Fixpoint splitlines (s : string) : list string :=
  match s with
  | EmptyString => []
  | String c s' =>
      if is_linebreak c then
        match s' with
        | String d s'' =>
            if (ord c =? 13) && (ord d =? 10)
            then EmptyString :: splitlines s''
            else EmptyString :: splitlines s'
        | EmptyString => [EmptyString]
        end
      else match splitlines s' with
           | [] => [String c EmptyString]
           | l :: ls => String c l :: ls
           end
  end.

Fixpoint lstrip_with (sp : ascii → bool) (s : string) : string :=
  match s with
  | EmptyString => EmptyString
  | String c s' => if sp c then lstrip_with sp s' else s
  end.

Fixpoint rstrip_with (sp : ascii → bool) (s : string) : string :=
  match s with
  | EmptyString => EmptyString
  | String c s' =>
      match rstrip_with sp s' with
      | EmptyString => if sp c then EmptyString else String c EmptyString
      | r => String c r
      end
  end.

(** Every character of [s] satisfies [p]. *)
Fixpoint all_chars (p : ascii → bool) (s : string) : bool :=
  match s with
  | EmptyString => true
  | String c s' => p c && all_chars p s'
  end.

(** [s.strip()] *)
Definition strip (s : string) : string := rstrip_with isspace (lstrip_with isspace s).

(** Underscores of an integer literal: each one stands between two digits.
    Returns the digits. *)
Fixpoint drop_underscores (after_digit : bool) (s : string) : option string :=
  match s with
  | EmptyString => if after_digit then Some EmptyString else None
  | String c s' =>
      if is_digit c then String c <$> drop_underscores true s'
      else if Ascii.eqb c "_" then
        if after_digit then drop_underscores false s' else None
      else None
  end.

Definition int_literal (s : string) : option Z :=
  digits ← drop_underscores false s;
  d ← NilEmpty.uint_of_string digits;
  Some (Z.of_uint d).

(** [int(s)] in base 10: surrounding whitespace, an optional sign, digits.
    The message of the [ValueError] is kept without the quoted literal. *)
Definition int (s : string) : result Z :=
  let t := rstrip_with int_space (lstrip_with int_space s) in
  let r := match t with
           | String "+" u => int_literal u
           | String "-" u => Z.opp <$> int_literal u
           | _ => int_literal t
           end in
  match r with
  | Some z => Ok z
  | None => Raise (ValueError "invalid literal for int() with base 10")
  end.

(** [str(z)], which is also what [format] and f-strings print for an [int]. *)
Definition str_of_int (z : Z) : string := NilZero.string_of_int (Z.to_int z).

End Py.

(** ** difflib *)

Module Difflib.

(** [Match(a, b, size)] *)
Definition block : Type := nat * nat * nat.

(** Tuples are ordered lexicographically; this is the order of
    [matching_blocks.sort()]. *)
Definition block_le (x y : block) : Prop :=
  let '(i1, j1, k1) := x in
  let '(i2, j2, k2) := y in
  i1 < i2 ∨ (i1 = i2 ∧ (j1 < j2 ∨ (j1 = j2 ∧ k1 ≤ k2))).

#[global] Instance block_le_dec : RelDecision block_le.
Proof. intros [[i1 j1] k1] [[i2 j2] k2]. unfold block_le. apply _. Defined.

Inductive tag : Type := replace | delete | insert | equal.

Definition is_equal (t : tag) : bool :=
  match t with equal => true | _ => false end.

(** [(tag, i1, i2, j1, j2)] *)
Definition opcode : Type := tag * nat * nat * nat * nat.

(** *** SequenceMatcher(None, a, b) *)
Section SequenceMatcher.

Variables a b : list string.

(** [__chain_b], first loop: [b2j.setdefault(elt, []).append(i)] for the
    elements of [b] from index [i] on. *)
Fixpoint chain (i : nat) (elts : list string) (b2j : gmap string (list nat))
  : gmap string (list nat) :=
  match elts with
  | [] => b2j
  | elt :: elts' =>
      chain (S i) elts' (<[elt := default [] (b2j !! elt) ++ [i]]> b2j)
  end.

(** [isjunk] is [None]: no element is junk. *)
Definition bjunk : gset string := ∅.

Definition isbjunk (x : string) : bool := bool_decide (x ∈ bjunk).

(** [__chain_b]: with [autojunk] and at least 200 elements, the elements
    that occur more than [n // 100 + 1] times are purged from [b2j]. *)
Definition b2j : gmap string (list nat) :=
  let all := chain 0 b ∅ in
  let n := length b in
  if 200 <=? n then
    let ntest := n / 100 + 1 in
    filter (λ kv : string * list nat, ¬ (ntest < length kv.2)) all
  else all.

(** [j2len.get(j-1, 0)]; no key is negative. *)
Definition j2lenget_pred (j2len : gmap nat nat) (j : nat) : nat :=
  match j with
  | 0 => 0
  | S j' => default 0 (j2len !! j')
  end.

(** The inner loop of [find_longest_match] over [b2j.get(a[i], nothing)].
    [i-k+1] is written [i+1-k]: [k] never exceeds [i-alo+1]
    ([scan_row_bounds]). *)
Fixpoint scan_row (i blo bhi : nat) (j2len : gmap nat nat) (js : list nat)
    (newj2len : gmap nat nat) (best : block) : gmap nat nat * block :=
  match js with
  | [] => (newj2len, best)
  | j :: js' =>
      if j <? blo then scan_row i blo bhi j2len js' newj2len best
      else if bhi <=? j then (newj2len, best)
      else
        let k := j2lenget_pred j2len j + 1 in
        let best' := if best.2 <? k then (i + 1 - k, j + 1 - k, k) else best in
        scan_row i blo bhi j2len js' (<[j := k]> newj2len) best'
  end.

(** [b2j.get(a[i], nothing)]; [i] is always below [len(a)]. *)
Definition candidates (i : nat) : list nat :=
  match a !! i with
  | Some x => default [] (b2j !! x)
  | None => []
  end.

(** The outer loop [for i in range(alo, ahi)]. *)
Fixpoint scan_rows (rows : list nat) (blo bhi : nat) (j2len : gmap nat nat)
    (best : block) : block :=
  match rows with
  | [] => best
  | i :: rows' =>
      let '(newj2len, best') := scan_row i blo bhi j2len (candidates i) ∅ best in
      scan_rows rows' blo bhi newj2len best'
  end.

(** [p(b[j]) and a[i] == b[j]] *)
Definition same_at (p : string → bool) (i j : nat) : bool :=
  match a !! i, b !! j with
  | Some x, Some y => p y && bool_decide (x = y)
  | _, _ => false
  end.

(** [while besti > alo and bestj > blo and p(b[bestj-1]) and
    a[besti-1] == b[bestj-1]] *)
Fixpoint extend_left (p : string → bool) (alo blo besti bestj bestsize : nat)
  : block :=
  match besti, bestj with
  | S i', S j' =>
      if (alo <? besti) && (blo <? bestj) && same_at p i' j'
      then extend_left p alo blo i' j' (S bestsize)
      else (besti, bestj, bestsize)
  | _, _ => (besti, bestj, bestsize)
  end.

(** [while besti+bestsize < ahi and bestj+bestsize < bhi and
    p(b[bestj+bestsize]) and a[besti+bestsize] == b[bestj+bestsize]];
    [steps] bounds the iterations, and [ahi - (besti+bestsize)] is enough
    since the guard fails once [besti+bestsize] reaches [ahi]. *)
Fixpoint extend_right (p : string → bool) (ahi bhi besti bestj : nat)
    (steps bestsize : nat) : nat :=
  match steps with
  | 0 => bestsize
  | S steps' =>
      if (besti + bestsize <? ahi) && (bestj + bestsize <? bhi)
         && same_at p (besti + bestsize) (bestj + bestsize)
      then extend_right p ahi bhi besti bestj steps' (S bestsize)
      else bestsize
  end.

Definition find_longest_match (alo ahi blo bhi : nat) : block :=
  let '(besti, bestj, bestsize) :=
    scan_rows (seq alo (ahi - alo)) blo bhi ∅ (alo, blo, 0) in
  let notjunk := λ y, negb (isbjunk y) in
  let '(besti, bestj, bestsize) :=
    extend_left notjunk alo blo besti bestj bestsize in
  let bestsize :=
    extend_right notjunk ahi bhi besti bestj (ahi - (besti + bestsize)) bestsize in
  let '(besti, bestj, bestsize) :=
    extend_left isbjunk alo blo besti bestj bestsize in
  let bestsize :=
    extend_right isbjunk ahi bhi besti bestj (ahi - (besti + bestsize)) bestsize in
  (besti, bestj, bestsize).

(** The [while queue] loop of [get_matching_blocks].  The head of [queue]
    is the last element of the Python list, the one [queue.pop()] takes. *)
Fixpoint matching_loop (fuel : nat) (queue : list (nat * nat * nat * nat))
    (matching_blocks : list block) : option (list block) :=
  match queue with
  | [] => Some matching_blocks
  | (alo, ahi, blo, bhi) :: queue' =>
      match fuel with
      | 0 => None
      | S fuel' =>
          let '(i, j, k) := find_longest_match alo ahi blo bhi in
          if k =? 0 then matching_loop fuel' queue' matching_blocks
          else
            let q1 := if (alo <? i) && (blo <? j)
                      then (alo, i, blo, j) :: queue' else queue' in
            let q2 := if (i + k <? ahi) && (j + k <? bhi)
                      then (i + k, ahi, j + k, bhi) :: q1 else q1 in
            matching_loop fuel' q2 (matching_blocks ++ [(i, j, k)])
      end
  end.

(** The loop that collapses adjacent equal blocks. *)
Fixpoint merge_adjacent (i1 j1 k1 : nat) (blocks non_adjacent : list block)
  : list block :=
  let flush := if k1 =? 0 then non_adjacent else non_adjacent ++ [(i1, j1, k1)] in
  match blocks with
  | [] => flush
  | (i2, j2, k2) :: blocks' =>
      if (i1 + k1 =? i2) && (j1 + k1 =? j2)
      then merge_adjacent i1 j1 (k1 + k2) blocks' non_adjacent
      else merge_adjacent i2 j2 k2 blocks' flush
  end.

(** Iterations granted to the [while queue] loop. *)
Definition matching_fuel : nat := 2 * length a + 1.

Definition get_matching_blocks : option (list block) :=
  let la := length a in
  let lb := length b in
  matching_blocks ← matching_loop matching_fuel [(0, la, 0, lb)] [];
  Some (merge_adjacent 0 0 0 (merge_sort block_le matching_blocks) []
        ++ [(la, lb, 0)]).

(** The loop of [get_opcodes]. *)
Fixpoint opcodes_loop (i j : nat) (blocks : list block) (answer : list opcode)
  : list opcode :=
  match blocks with
  | [] => answer
  | (ai, bj, size) :: blocks' =>
      let answer1 :=
        if (i <? ai) && (j <? bj) then answer ++ [(replace, i, ai, j, bj)]
        else if i <? ai then answer ++ [(delete, i, ai, j, bj)]
        else if j <? bj then answer ++ [(insert, i, ai, j, bj)]
        else answer in
      let i' := ai + size in
      let j' := bj + size in
      let answer2 :=
        if size =? 0 then answer1 else answer1 ++ [(equal, ai, i', bj, j')] in
      opcodes_loop i' j' blocks' answer2
  end.

Definition get_opcodes : option (list opcode) :=
  blocks ← get_matching_blocks;
  Some (opcodes_loop 0 0 blocks []).

End SequenceMatcher.

(** *** get_grouped_opcodes *)

(** [codes[0] = tag, max(i1, i2-n), i2, max(j1, j2-n), j2] when the first
    tag is ['equal'] *)
Definition fix_first (n : nat) (codes : list opcode) : list opcode :=
  match codes with
  | (equal, i1, i2, j1, j2) :: codes' =>
      (equal, max i1 (i2 - n), i2, max j1 (j2 - n), j2) :: codes'
  | _ => codes
  end.

(** [codes[-1] = tag, i1, min(i2, i1+n), j1, min(j2, j1+n)] when the last
    tag is ['equal'] *)
Fixpoint fix_last (n : nat) (codes : list opcode) : list opcode :=
  match codes with
  | [] => []
  | [(equal, i1, i2, j1, j2)] => [(equal, i1, min i2 (i1 + n), j1, min j2 (j1 + n))]
  | c :: codes' => c :: fix_last n codes'
  end.

(** The generator loop; the result lists the groups it yields. *)
Fixpoint group_loop (n : nat) (codes group : list opcode) : list (list opcode) :=
  match codes with
  | [] =>
      match group with
      | [] => []
      | [(equal, _, _, _, _)] => []
      | _ => [group]
      end
  | (tg, i1, i2, j1, j2) :: codes' =>
      if is_equal tg && (n + n <? i2 - i1) then
        (group ++ [(tg, i1, min i2 (i1 + n), j1, min j2 (j1 + n))])
        :: group_loop n codes' [(tg, max i1 (i2 - n), i2, max j1 (j2 - n), j2)]
      else group_loop n codes' (group ++ [(tg, i1, i2, j1, j2)])
  end.

Definition get_grouped_opcodes (a b : list string) (n : nat)
  : option (list (list opcode)) :=
  codes ← get_opcodes a b;
  let codes := match codes with [] => [(equal, 0, 1, 0, 1)] | _ => codes end in
  Some (group_loop n (fix_last n (fix_first n codes)) []).

(** *** unified_diff *)

Definition _format_range_unified (start stop : Z) : string :=
  let beginning := (start + 1)%Z in
  let length := (stop - start)%Z in
  if (length =? 1)%Z then Py.str_of_int beginning
  else
    let beginning := if (length =? 0)%Z then (beginning - 1)%Z else beginning in
    Py.str_of_int beginning +:+ "," +:+ Py.str_of_int length.

(** [a[i1:i2]] *)
Definition slice (l : list string) (i1 i2 : nat) : list string :=
  take (i2 - i1) (drop i1 l).

(** The lines of one opcode. *)
Definition opcode_lines (a b : list string) (c : opcode) : list string :=
  let '(tg, i1, i2, j1, j2) := c in
  match tg with
  | equal => (λ line, " " +:+ line) <$> slice a i1 i2
  | replace =>
      ((λ line, "-" +:+ line) <$> slice a i1 i2)
      ++ ((λ line, "+" +:+ line) <$> slice b j1 j2)
  | delete => (λ line, "-" +:+ line) <$> slice a i1 i2
  | insert => (λ line, "+" +:+ line) <$> slice b j1 j2
  end.

(** The hunk header and the lines of one group; a group is never empty. *)
Definition group_lines (a b : list string) (lineterm : string)
    (group : list opcode) : list string :=
  let first := default (equal, 0, 0, 0, 0) (head group) in
  let last := default (equal, 0, 0, 0, 0) (last group) in
  let '(_, i1, _, j1, _) := first in
  let '(_, _, i2, _, j2) := last in
  let file1_range := _format_range_unified (Z.of_nat i1) (Z.of_nat i2) in
  let file2_range := _format_range_unified (Z.of_nat j1) (Z.of_nat j2) in
  ("@@ -" +:+ file1_range +:+ " +" +:+ file2_range +:+ " @@" +:+ lineterm)
  :: concat (opcode_lines a b <$> group).

(** [unified_diff(a, b, n=n, lineterm=lineterm)] with the file names and
    dates left at their default, the empty string.  The generator is
    modelled by the list of the lines it yields. *)
Definition unified_diff (a b : list string) (n : nat) (lineterm : string)
  : option (list string) :=
  groups ← get_grouped_opcodes a b n;
  match groups with
  | [] => Some []
  | _ =>
      Some (("--- " +:+ lineterm) :: ("+++ " +:+ lineterm)
            :: concat (group_lines a b lineterm <$> groups))
  end.

End Difflib.

(** ** The hook *)

Module Hook.

Definition parse_line_number (line : string) : result Z :=
  if negb (Py.startswith line "@@") then
    Raise (ValueError "Not a unified-diff header")
  else
    let parts := Py.split " " line in
    if negb (length parts =? 4) then
      Raise (ValueError "Not a unified-diff header")
    else
      Py.int (default "" (head (Py.split "," (default "" (parts !! 2))))).

(** The variables the loop of [collect_errors] updates. *)
Record state : Type := State { line_number : Z; errors : list string }.

Definition message (filename : string) (line_number : Z) : string :=
  "Debug marker detected at " +:+ filename +:+ ":" +:+ Py.str_of_int line_number.

(** One iteration of [for line in diff_result]. *)
Definition body (filename : string) (st : state) (line : string) : result state :=
  line_number ←! (if Py.startswith line "@@" then parse_line_number line
                  else Ok (line_number st));
  if negb (Py.startswith line "+") || String.eqb (Py.strip line) "+++" then
    Ok (State line_number (errors st))
  else
    let errors :=
      if Py.contains "# xxx" (Py.lower line)
      then errors st ++ [message filename line_number]
      else errors st in
    let line_number :=
      if Py.startswith line "+" then (line_number + 1)%Z else line_number in
    Ok (State line_number errors).

Definition scan (filename : string) (diff_result : list string) : result (list string) :=
  st ←! for_each (body filename) (State 1 []) diff_result;
  Ok (errors st).

Definition collect_errors (filename data_a data_b : string) : result (list string) :=
  match Difflib.unified_diff (Py.splitlines data_b) (Py.splitlines data_a) 0 "" with
  | None => OutOfFuel
  | Some diff_result => scan filename diff_result
  end.

(** *** Line attribution

    The loop of [collect_errors] with the marker test taken out: it lists,
    for every line that reaches the test, the counter at that moment and
    the line without its leading ["+"].  [scan_attribute] relates it to
    the loop itself. *)

Definition tail_of (line : string) : string :=
  match line with
  | EmptyString => EmptyString
  | String _ text => text
  end.

Definition attribute_body (st : Z * list (Z * string)) (line : string)
  : result (Z * list (Z * string)) :=
  line_number ←! (if Py.startswith line "@@" then parse_line_number line
                  else Ok st.1);
  if negb (Py.startswith line "+") || String.eqb (Py.strip line) "+++" then
    Ok (line_number, st.2)
  else
    Ok (if Py.startswith line "+" then (line_number + 1)%Z else line_number,
        st.2 ++ [(line_number, tail_of line)]).

Definition attribute (diff_result : list string) : result (list (Z * string)) :=
  st ←! for_each attribute_body (1%Z, []) diff_result;
  Ok st.2.

(** The marker test on the text of an added line. *)
Definition has_marker (text : string) : bool :=
  Py.contains "# xxx" (Py.lower text).

(** Line attribution of the two versions of a file, as [collect_errors]
    takes them. *)
Definition attributed_lines (data_a data_b : string) : result (list (Z * string)) :=
  match Difflib.unified_diff (Py.splitlines data_b) (Py.splitlines data_a) 0 "" with
  | None => OutOfFuel
  | Some diff_result => attribute diff_result
  end.

(** *** main *)

(** A blob of the object database: its hash and its data read as UTF-8
    ([None] when the data does not decode). *)
Record Blob : Type := { binsha : string; decoded : option string }.

(** One entry of [repo.index.diff(against)], the diff from the index to
    the commit [against]: [a_blob] is the blob staged in the index,
    [b_blob] that of the commit, each [None] when that side has no such
    file. *)
Record Diff : Type :=
  { a_blob : option Blob; b_blob : option Blob; b_path : option string }.

Definition read_blob (blob : option Blob) : string :=
  match blob with
  | None => ""
  | Some bl => default "" (decoded bl)
  end.

(** [diff.a_blob == diff.b_blob]: objects are compared by hash. *)
Definition blob_eqb (x y : option Blob) : bool :=
  match x, y with
  | None, None => true
  | Some u, Some v => String.eqb (binsha u) (binsha v)
  | _, _ => false
  end.

(** One iteration of [for diff in diff_result]. *)
Definition main_body (errors : list string) (diff : Diff) : result (list string) :=
  if blob_eqb (a_blob diff) (b_blob diff) || negb (bool_decide (is_Some (b_blob diff)))
  then Ok errors
  else
    let data_a := read_blob (a_blob diff) in
    let data_b := read_blob (b_blob diff) in
    found ←! collect_errors (default "" (b_path diff)) data_a data_b;
    Ok (errors ++ found).

(** [main], from the entries of the index diff on: the lines printed on
    standard output and the value returned.  The calls into [git] before
    the loop ([Repo], [rev_parse] and its [except] clause, [index.diff])
    are outside the embedding, and so is any exception they raise. *)
Definition main (diff_result : list Diff) : result (list string * Z) :=
  errors ←! for_each main_body [] diff_result;
  match errors with
  | [] => Ok ([], 0%Z)
  | _ => Ok (errors, 1%Z)
  end.

End Hook.

(** ** Notions of the specification *)

Module Spec.

(** A case-insensitive occurrence of the marker: some substring of [text]
    equals ["# xxx"] once lowered. *)
Definition marker_occurs (text : string) : Prop :=
  ∃ pre u post, text = pre +:+ u +:+ post ∧ Py.lower u = "# xxx".

(** The marker scanner applied to attributed lines. *)
Fixpoint report (filename : string) (pairs : list (Z * string)) : list string :=
  match pairs with
  | [] => []
  | (n, text) :: pairs' =>
      if Hook.has_marker text
      then Hook.message filename n :: report filename pairs'
      else report filename pairs'
  end.

(** A non-empty string of decimal digits. *)
Definition is_decimal (s : string) : bool :=
  match s with
  | EmptyString => false
  | _ => Py.all_chars Py.is_digit s
  end.

(** The shapes [+<int>] and [+<int>,<int>] of the third token of a hunk
    header. *)
Definition plus_int_form (token : string) : bool :=
  match token with
  | String "+" rest =>
      match Py.split "," rest with
      | [start] => is_decimal start
      | [start; count] => is_decimal start && is_decimal count
      | _ => false
      end
  | _ => false
  end.

(** The part of a token before its first comma, [token.split(",")[0]]. *)
Definition before_comma (token : string) : string :=
  default "" (head (Py.split "," token)).

(** The diff line of an added line. *)
Definition added (text : string) : string := String "+" text.

(** The test that makes the loop pass over a line starting with ["+"]. *)
Definition skipped (line : string) : bool := String.eqb (Py.strip line) "+++".

(** The number of skipped lines among the first [i] added lines. *)
Definition skipped_before (i : nat) (texts : list string) : nat :=
  length (List.filter (λ text, skipped (added text)) (take i texts)).

(** Texts numbered consecutively from [start]. *)
Fixpoint number_from (start : Z) (texts : list string) : list (Z * string) :=
  match texts with
  | [] => []
  | text :: texts' => (start, text) :: number_from (start + 1) texts'
  end.

(** A hunk of a diff: its header line and the lines that follow it. *)
Record hunk : Type := Hunk { header : string; lines : list string }.

Definition hunk_lines (h : hunk) : list string := header h :: lines h.

(** The texts of the added lines of a hunk. *)
Definition additions (h : hunk) : list string :=
  Hook.tail_of <$> List.filter (λ line, Py.startswith line "+") (lines h).

(** The new-start of a hunk, as [parse_line_number] reads it. *)
Definition new_start (h : hunk) : Z :=
  match Hook.parse_line_number (header h) with
  | Ok n => n
  | _ => 0
  end.


(** A hunk as a diff engine writes it: a header that parses, followed by
    lines that are no headers. *)
Definition hunk_ok (h : hunk) : Prop :=
  Py.startswith (header h) "@@" = true
  ∧ (∃ n, Hook.parse_line_number (header h) = Ok n)
  ∧ Forall (λ line, Py.startswith line "@@" = false) (lines h).


(** The added lines of a run of diff lines that the loop does not pass
    over, without their leading ["+"]. *)
Definition kept (lines : list string) : list string :=
  Hook.tail_of
  <$> List.filter (λ line, Py.startswith line "+" && negb (skipped line)) lines.

End Spec.

(** ** Invariants of the diff engine

    The predicates the proofs below maintain over the loops of [Difflib]. *)

Module Inv.

(** A character other than [sep]. *)
Definition differs (sep c : ascii) : bool := negb (Ascii.eqb c sep).

(** A character of a printed integer. *)
Definition numeric_char (c : ascii) : bool := Py.is_digit c || Ascii.eqb c "-".

(** The two shapes of a range, [start] and [start,count]. *)
Definition range_shape (r : string) (x : Z) : Prop :=
  (0 ≤ x)%Z
  ∧ (r = Py.str_of_int x
     ∨ ∃ y, (0 ≤ y)%Z ∧ r = Py.str_of_int x +:+ String "," (Py.str_of_int y)).

(** A line that starts with ["@@"] is a header that [parse_line_number]
    reads. *)
Definition header_ok (line : string) : Prop :=
  Py.startswith line "@@" = true →
  ∃ t1 t2 n, Py.split " " line = ["@@"; t1; t2; "@@"]
             ∧ Spec.plus_int_form t2 = true
             ∧ Hook.parse_line_number line = Ok n.

(** The entries of [j2len] after [r] rows of [find_longest_match]: a match
    that ends at [j] is no longer than [r] and starts at [blo] or later. *)
Definition row_ok (blo bhi r : nat) (j2len : gmap nat nat) : Prop :=
  ∀ j k, j2len !! j = Some k → k ≤ r ∧ blo + k ≤ j + 1 ∧ j < bhi.

(** A match inside the window [a[alo:ahi]], [b[blo:bhi]]. *)
Definition best_ok (alo ahi blo bhi : nat) (best : Difflib.block) : Prop :=
  let '(i, j, k) := best in alo ≤ i ∧ i + k ≤ ahi ∧ blo ≤ j ∧ j + k ≤ bhi.

Definition window_ok (w : nat * nat * nat * nat) : Prop :=
  let '(alo, ahi, blo, bhi) := w in alo ≤ ahi ∧ blo ≤ bhi.

(** What a window of the queue can still cost in iterations. *)
Definition window_weight (w : nat * nat * nat * nat) : nat :=
  let '(alo, ahi, _, _) := w in 2 * (ahi - alo) + 1.

Definition queue_weight (queue : list (nat * nat * nat * nat)) : nat :=
  sum_list (window_weight <$> queue).

(** The indices, from [i] on, at which [x] stands in [elts]. *)
Fixpoint positions (i : nat) (elts : list string) (x : string) : list nat :=
  match elts with
  | [] => []
  | e :: elts' =>
      if decide (e = x) then i :: positions (S i) elts' x
      else positions (S i) elts' x
  end.

(** [x] is purged from the [b2j] of [t] by the popularity heuristic. *)
Definition popular (t : list string) (x : string) : bool :=
  (200 <=? length t) && (length t / 100 + 1 <? length (positions 0 t x)).

(** The number of elements of [t] that are not popular right before index
    [i]. *)
Fixpoint run (t : list string) (i : nat) : nat :=
  match i with
  | 0 => 0
  | S i' =>
      match t !! i' with
      | Some x => if popular t x then 0 else run t i' + 1
      | None => 0
      end
  end.

(** What the scan knows after the rows before [i], when both sequences
    are [t]: the entries of [j2len] are bounded by the runs on the
    diagonal, the entry of the diagonal is the run itself, and the best
    match lies on the diagonal and is no shorter than any run so far. *)
Definition diag_inv (t : list string) (i : nat) (j2len : gmap nat nat)
    (best : Difflib.block) : Prop :=
  (∀ j k, j2len !! j = Some k → k ≤ run t i ∧ k ≤ run t (S j))
  ∧ Difflib.j2lenget_pred j2len i = run t i
  ∧ ∃ d s, best = (d, d, s) ∧ d + s ≤ i ∧ ∀ i', i' ≤ i → run t i' ≤ s.

(** A block or a window of the queue, as the rectangle
    [[ilo, ihi) x [jlo, jhi)] of index pairs. *)
Definition rect : Type := nat * nat * nat * nat.

Definition block_rect (x : Difflib.block) : rect :=
  let '(i, j, k) := x in (i, i + k, j, j + k).

(** [r1] ends before [r2] starts, in both sequences. *)
Definition before (r1 r2 : rect) : Prop :=
  let '(_, ihi1, _, jhi1) := r1 in
  let '(ilo2, _, jlo2, _) := r2 in
  ihi1 ≤ ilo2 ∧ jhi1 ≤ jlo2.

Definition apart (r1 r2 : rect) : Prop := before r1 r2 ∨ before r2 r1.

Definition inside (r w : rect) : Prop :=
  let '(ilo, ihi, jlo, jhi) := r in
  let '(alo, ahi, blo, bhi) := w in
  alo ≤ ilo ∧ ihi ≤ ahi ∧ blo ≤ jlo ∧ jhi ≤ bhi.

Fixpoint all_apart (rs : list rect) : Prop :=
  match rs with
  | [] => True
  | r :: rs' => Forall (apart r) rs' ∧ all_apart rs'
  end.

(** The first window of the queue. *)
Definition whole (a b : list string) : rect := (0, length a, 0, length b).

(** What holds of the queue and of the blocks found so far in
    [get_matching_blocks]. *)
Definition loop_inv (a b : list string) (queue : list rect)
    (acc : list Difflib.block) : Prop :=
  all_apart (queue ++ (block_rect <$> acc))
  ∧ Forall (λ w, window_ok w ∧ inside w (whole a b)) queue
  ∧ Forall (λ x, 0 < x.2 ∧ inside (block_rect x) (whole a b)) acc.

(** Blocks that follow one another, the first at or after [(i0, j0)]. *)
Fixpoint chain_from (i0 j0 : nat) (blocks : list Difflib.block) : Prop :=
  match blocks with
  | [] => True
  | (i, j, k) :: blocks' => i0 ≤ i ∧ j0 ≤ j ∧ chain_from (i + k) (j + k) blocks'
  end.

(** Opcodes that start at [(i0, j0)] and each start where the one before
    ends. *)
Fixpoint op_linked (i0 j0 : nat) (ops : list Difflib.opcode) : Prop :=
  match ops with
  | [] => True
  | (_, i1, i2, j1, j2) :: ops' =>
      i1 = i0 ∧ j1 = j0 ∧ i1 ≤ i2 ∧ j1 ≤ j2 ∧ op_linked i2 j2 ops'
  end.

(** A group the generator yields: not empty, and linked. *)
Definition group_ok (group : list Difflib.opcode) : Prop :=
  group ≠ [] ∧ ∃ i0 j0, op_linked i0 j0 group.

(** What [get_opcodes] promises of one opcode. *)
Definition op_wf (c : Difflib.opcode) : Prop :=
  let '(tg, i1, i2, j1, j2) := c in
  i1 ≤ i2 ∧ j1 ≤ j2
  ∧ match tg with
    | Difflib.equal => i2 - i1 = j2 - j1
    | Difflib.delete => j1 = j2
    | _ => True
    end.

(** An opcode that adds no line unless it is a replacement or an
    insertion: what holds in the groups for [n = 0]. *)
Definition op_bare (c : Difflib.opcode) : Prop :=
  let '(tg, i1, i2, j1, j2) := c in
  j1 ≤ j2
  ∧ match tg with
    | Difflib.equal => i1 = i2 ∧ j1 = j2
    | Difflib.delete => j1 = j2
    | _ => True
    end.

(** The texts of the lines of a diff that start with ["+"]. *)
Definition plus_texts (lines : list string) : list string :=
  Hook.tail_of <$> List.filter (λ line, Py.startswith line "+") lines.

(** Where the range of a group ends in the second sequence. *)
Definition group_end (j0 : nat) (group : list Difflib.opcode) : nat :=
  match last group with
  | Some (_, _, _, _, j2) => j2
  | None => j0
  end.


End Inv.

Import Inv.

(** ** Texts of the examples *)

Definition nl : string := String "010" EmptyString.

Definition old_ab : string := "a" +:+ nl +:+ "b" +:+ nl.
Definition new_ab : string := "a" +:+ nl +:+ "# xxx debug" +:+ nl +:+ "b" +:+ nl.
Definition three_lines : string := "line1" +:+ nl +:+ "line2" +:+ nl +:+ "line3".

(** The lines ["l1"], ["l2"], ... *)
Definition numbered_lines (n : nat) : list string :=
  (λ i, "l" +:+ Py.str_of_int (Z.of_nat (S i))) <$> seq 0 n.

(** Fifty-two lines, and the same with ["X"] put in as line 5 and ["Y"] as
    line 50. *)
Definition old_52 : list string := numbered_lines 52.
Definition new_54 : list string :=
  take 4 old_52 ++ ["X"] ++ take 44 (drop 4 old_52) ++ ["Y"] ++ drop 48 old_52.

Definition two_hunks : list Spec.hunk :=
  [Spec.Hunk "@@ -4,0 +5 @@" ["+X"]; Spec.Hunk "@@ -48,0 +50 @@" ["+Y"]].

Definition blob (sha text : string) : option Hook.Blob :=
  Some {| Hook.binsha := sha; Hook.decoded := Some text |}.

(** An index entry whose [a_blob] holds [text_a] and whose [b_blob] holds
    [text_b]. *)
Definition entry (path text_a text_b : string) : Hook.Diff :=
  {| Hook.a_blob := blob "a" text_a;
     Hook.b_blob := blob "b" text_b;
     Hook.b_path := Some path |}.

(** The entry of a file staged at [path] that the commit does not have:
    there is no [b_blob]. *)
Definition new_file (path text : string) : Hook.Diff :=
  {| Hook.a_blob := blob "a" text;
     Hook.b_blob := None;
     Hook.b_path := Some path |}.

(** Three lines, the second with the marker. *)
Definition marked_lines : string :=
  "line1" +:+ nl +:+ "# xxx line2" +:+ nl +:+ "line3".

(** The line ["a"], and the same followed by the lines ["++"] and
    ["# xxx"]. *)
Definition head_a : string := "a" +:+ nl.
Definition staged_pp : string :=
  "a" +:+ nl +:+ "++" +:+ nl +:+ "# xxx" +:+ nl.

(** ** Notions of the further properties *)

Module Further.

(** [s.count(c)] for a character [c]. *)
Fixpoint count_char (c : ascii) (s : string) : nat :=
  match s with
  | EmptyString => 0
  | String d s' => if Ascii.eqb d c then S (count_char c s') else count_char c s'
  end.

(** The text with every line feed turned into a carriage return and a
    line feed. *)
Fixpoint crlf (s : string) : string :=
  match s with
  | EmptyString => EmptyString
  | String c s' =>
      if Ascii.eqb c "010" then String "013" (String "010" (crlf s'))
      else String c (crlf s')
  end.

(** The lines the loop of [collect_errors] counts. *)
Definition counted (texts : list string) : list string :=
  List.filter (λ text, negb (Spec.skipped (Spec.added text))) texts.

(** The numbers of the attributed lines that hold the marker. *)
Definition marked (pairs : list (Z * string)) : list Z :=
  (List.filter (λ p, Hook.has_marker p.2) pairs).*1.

(** The lines of a hunk that the loop counts, numbered from its new-start. *)
Definition counted_pairs (h : Spec.hunk) : list (Z * string) :=
  Spec.number_from (Spec.new_start h) (Spec.kept (Spec.lines h)).

(** Groups that follow one another in the second sequence, the first at
    or after [j]. *)
Fixpoint groups_from (j : nat) (groups : list (list Difflib.opcode)) : Prop :=
  match groups with
  | [] => True
  | group :: groups' =>
      group ≠ []
      ∧ ∃ i0 j0, j ≤ j0 ∧ op_linked i0 j0 group
                 ∧ groups_from (group_end j0 group) groups'
  end.

(** Hunks whose added lines are ranges of [b] that follow one another,
    the first at or after [j]; the header of a hunk that adds lines names
    the first of them. *)
Fixpoint hunks_from (b : list string) (j : nat) (hunks : list Spec.hunk) : Prop :=
  match hunks with
  | [] => True
  | h :: hunks' =>
      ∃ j0 j1, j ≤ j0 ∧ j0 ≤ j1
               ∧ Spec.additions h = Difflib.slice b j0 j1
               ∧ (j0 < j1 → Spec.new_start h = Z.of_nat (j0 + 1))
               ∧ hunks_from b j1 hunks'
  end.

(** The block pairs equal elements of [a] and [b]. *)
Definition matches (a b : list string) (x : Difflib.block) : Prop :=
  let '(i, j, k) := x in
  ∀ m, m < k → ∃ e, a !! (i + m) = Some e ∧ b !! (j + m) = Some e.

(** The entries of [j2len] when [find_longest_match] reaches row [i]: the
    entry [k] at [j] is a match of [k] elements that ends at [(i-1, j)]. *)
Definition row_matches (a b : list string) (i : nat) (j2len : gmap nat nat) : Prop :=
  ∀ j k, j2len !! j = Some k →
         k ≤ i ∧ k ≤ j + 1 ∧ matches a b (i - k, j + 1 - k, k).

(** An ['equal'] opcode spans equal elements. *)
Definition op_match (a b : list string) (c : Difflib.opcode) : Prop :=
  let '(tg, i1, i2, j1, j2) := c in
  tg = Difflib.equal → matches a b (i1, j1, j2 - j1).

(** The hunk of a group: its added lines are the range of the group in
    [b], and its header names the first of them. *)
Definition hunk_for (b : list string) (group : list Difflib.opcode)
    (h : Spec.hunk) : Prop :=
  ∃ i0 j0, op_linked i0 j0 group
           ∧ Spec.additions h = Difflib.slice b j0 (group_end j0 group)
           ∧ (j0 < group_end j0 group → Spec.new_start h = Z.of_nat (j0 + 1)).

(** The entries of the index diff that the loop of [main] does not pass
    over. *)
Definition checked (diff : Hook.Diff) : bool :=
  negb (Hook.blob_eqb (Hook.a_blob diff) (Hook.b_blob diff)
        || negb (bool_decide (is_Some (Hook.b_blob diff)))).

(** The call of [collect_errors] that [main] makes for an entry. *)
Definition entry_errors (diff : Hook.Diff) : result (list string) :=
  Hook.collect_errors (default "" (Hook.b_path diff))
    (Hook.read_blob (Hook.a_blob diff)) (Hook.read_blob (Hook.b_blob diff)).

(** A blob whose data is no UTF-8 text. *)
Definition binary_blob (sha : string) : option Hook.Blob :=
  Some {| Hook.binsha := sha; Hook.decoded := None |}.

End Further.

(** * Properties *)

(** ** Strings *)

Lemma append_nil_l (s : string) : "" +:+ s = s.
Proof. done. Qed.

Lemma append_cons (c : ascii) (s t : string) :
  String c s +:+ t = String c (s +:+ t).
Proof. done. Qed.

Lemma append_assoc (s1 s2 s3 : string) : (s1 +:+ s2) +:+ s3 = s1 +:+ (s2 +:+ s3).
Proof.
  induction s1 as [|c s1 IH]; [done|]. by rewrite !append_cons, IH.
Qed.

Lemma append_nil_r (s : string) : s +:+ "" = s.
Proof. induction s as [|c s IH]; [done|]. by rewrite append_cons, IH. Qed.

Lemma ascii_eqb_true (c d : ascii) : Ascii.eqb c d = true ↔ c = d.
Proof. apply Ascii.eqb_eq. Qed.

Lemma startswith_spec (s p : string) :
  Py.startswith s p = true ↔ ∃ q, s = p +:+ q.
Proof.
  revert s. induction p as [|c p IH]; intros s; simpl.
  - split; [intros _; by exists s | done].
  - destruct s as [|d s].
    + split; [done | intros [q Hq]; discriminate].
    + rewrite andb_true_iff, ascii_eqb_true, IH. split.
      * intros [-> [q ->]]. by exists q.
      * intros [q Hq]. rewrite append_cons in Hq. injection Hq as -> ->.
        split; [done | by exists q].
Qed.

Lemma contains_spec (needle hay : string) :
  Py.contains needle hay = true ↔ ∃ p q, hay = p +:+ needle +:+ q.
Proof.
  induction hay as [|c hay IH]; simpl.
  - rewrite orb_false_r, startswith_spec. split.
    + intros [q Hq]. by exists "", q.
    + intros [p [q Hq]]. destruct p; [by exists q | discriminate].
  - rewrite orb_true_iff, startswith_spec, IH. split.
    + intros [[q Hq] | [p [q Hq]]].
      * by exists "", q.
      * exists (String c p), q. by rewrite append_cons, Hq.
    + intros [p [q Hq]]. destruct p as [|d p].
      * left. by exists q.
      * right. rewrite append_cons in Hq. injection Hq as -> ->. by exists p, q.
Qed.

Lemma lower_app (s t : string) : Py.lower (s +:+ t) = Py.lower s +:+ Py.lower t.
Proof.
  induction s as [|c s IH]; [done|]. rewrite append_cons. simpl.
  by rewrite IH, append_cons.
Qed.

Lemma lower_split (s x y : string) :
  Py.lower s = x +:+ y → ∃ s1 s2, s = s1 +:+ s2 ∧ Py.lower s1 = x ∧ Py.lower s2 = y.
Proof.
  revert s. induction x as [|c x IH]; intros s H.
  - by exists "", s.
  - destruct s as [|d s]; [discriminate|].
    rewrite append_cons in H. simpl in H. injection H as Hc H.
    destruct (IH _ H) as (s1 & s2 & -> & H1 & H2).
    exists (String d s1), s2. simpl. by rewrite Hc, H1.
Qed.

Lemma has_marker_occurs (text : string) :
  Hook.has_marker text = true ↔ Spec.marker_occurs text.
Proof.
  unfold Hook.has_marker, Spec.marker_occurs. rewrite contains_spec. split.
  - intros (p & q & H).
    destruct (lower_split _ _ _ H) as (pre & r & -> & Hpre & Hr).
    destruct (lower_split _ _ _ Hr) as (u & post & -> & Hu & Hpost).
    by exists pre, u, post.
  - intros (pre & u & post & -> & Hu).
    exists (Py.lower pre), (Py.lower post). by rewrite !lower_app, Hu.
Qed.

(** The leading ["+"] of an added line takes no part in the marker. *)
Lemma marker_after_plus (text : string) :
  Py.contains "# xxx" (Py.lower (String "+" text)) = Hook.has_marker text.
Proof. done. Qed.

(** *** Stripping *)

Lemma rstrip_with_spec (sp : ascii → bool) (s : string) :
  ∃ ws, s = Py.rstrip_with sp s +:+ ws ∧ Py.all_chars sp ws = true.
Proof.
  induction s as [|c s (ws & Hs & Hws)]; simpl.
  - by exists "".
  - destruct (Py.rstrip_with sp s) as [|d r] eqn:Hr.
    + rewrite append_nil_l in Hs. subst ws. destruct (sp c) eqn:Hc.
      * exists (String c s). rewrite append_nil_l. simpl. by rewrite Hc, Hws.
      * exists s. by rewrite append_cons, append_nil_l.
    + exists ws. rewrite append_cons. by rewrite <- Hs.
Qed.

Lemma lstrip_with_keeps (sp : ascii → bool) (c : ascii) (s : string) :
  sp c = false → Py.lstrip_with sp (String c s) = String c s.
Proof. intros H. simpl. by rewrite H. Qed.

#[local] Arguments Ascii.eqb : simpl never.
#[local] Arguments Py.startswith : simpl never.
#[local] Arguments Py.contains : simpl never.

Lemma startswith_cons (c d : ascii) (s p : string) :
  Py.startswith (String d s) (String c p) = Ascii.eqb c d && Py.startswith s p.
Proof. done. Qed.

Lemma contains_cons (needle : string) (c : ascii) (hay : string) :
  Py.contains needle (String c hay)
  = Py.startswith (String c hay) needle || Py.contains needle hay.
Proof. done. Qed.

Lemma space_not_hash (c : ascii) :
  Py.isspace c = true → Ascii.eqb "#" (Py.lower_char c) = false.
Proof.
  destruct c as [[] [] [] [] [] [] [] []]; vm_compute; congruence.
Qed.

Lemma no_marker_in_spaces (ws : string) :
  Py.all_chars Py.isspace ws = true → Hook.has_marker ws = false.
Proof.
  unfold Hook.has_marker. induction ws as [|c ws IH]; [done|].
  simpl Py.all_chars. intros [Hc Hws]%andb_true_iff.
  simpl Py.lower. rewrite contains_cons, startswith_cons.
  by rewrite (space_not_hash c Hc), (IH Hws).
Qed.

(** A line that strips to ["+++"] holds no marker. *)
Lemma plus3_no_marker (line : string) :
  Py.strip line = "+++" → Py.contains "# xxx" (Py.lower line) = false.
Proof.
  unfold Py.strip. intros H.
  assert (Hl : ∀ s, Py.contains "# xxx" (Py.lower (Py.lstrip_with Py.isspace s)) = false
               → Py.contains "# xxx" (Py.lower s) = false).
  { intros s. induction s as [|c s IH]; [done|]. simpl Py.lstrip_with.
    destruct (Py.isspace c) eqn:Hc; [|done].
    intros Hs. simpl Py.lower. rewrite contains_cons, startswith_cons.
    by rewrite (space_not_hash c Hc), (IH Hs). }
  apply Hl.
  destruct (rstrip_with_spec Py.isspace (Py.lstrip_with Py.isspace line))
    as (ws & Hs & Hws).
  rewrite Hs, H. rewrite !append_cons, append_nil_l.
  apply no_marker_in_spaces in Hws. unfold Hook.has_marker in Hws.
  simpl Py.lower. rewrite !contains_cons, Hws. done.
Qed.

(** A line that strips to ["+++"] is no hunk header. *)
Lemma plus3_not_header (line : string) :
  Py.strip line = "+++" → Py.startswith line "@@" = false.
Proof.
  unfold Py.strip. intros H.
  destruct line as [|c line]; [done|].
  destruct (Py.isspace c) eqn:Hc.
  - destruct c as [[] [] [] [] [] [] [] []]; done.
  - rewrite lstrip_with_keeps in H by done. simpl in H.
    destruct (Py.rstrip_with Py.isspace line);
      [destruct (Py.isspace c); [done|] |]; by injection H as ->.
Qed.

(** *** The loop body on the kinds of diff line *)

Lemma added_not_header (text : string) :
  Py.startswith (String "+" text) "@@" = false.
Proof. done. Qed.

Lemma added_startswith_plus (text : string) :
  Py.startswith (String "+" text) "+" = true.
Proof. done. Qed.

Lemma startswith_plus_inv (line : string) :
  Py.startswith line "+" = true → line = String "+" (Hook.tail_of line).
Proof.
  destruct line as [|c line]; [done|]. rewrite startswith_cons.
  intros [H _]%andb_true_iff. apply ascii_eqb_true in H. by subst.
Qed.

Lemma body_added (filename : string) (st : Hook.state) (text : string) :
  Hook.body filename st (String "+" text)
  = Ok (Hook.State
          (if String.eqb (Py.strip (String "+" text)) "+++"
           then Hook.line_number st else (Hook.line_number st + 1)%Z)
          (if Hook.has_marker text
           then Hook.errors st ++ [Hook.message filename (Hook.line_number st)]
           else Hook.errors st)).
Proof.
  unfold Hook.body. rewrite added_not_header, added_startswith_plus.
  rewrite marker_after_plus. simpl.
  destruct (String.eqb _ "+++") eqn:Hs; [|done].
  apply String.eqb_eq in Hs. apply plus3_no_marker in Hs.
  rewrite marker_after_plus in Hs. by rewrite Hs.
Qed.

Lemma attribute_body_added (st : Z * list (Z * string)) (text : string) :
  Hook.attribute_body st (String "+" text)
  = Ok (if String.eqb (Py.strip (String "+" text)) "+++"
        then st else ((st.1 + 1)%Z, st.2 ++ [(st.1, text)])).
Proof.
  unfold Hook.attribute_body. rewrite added_not_header, added_startswith_plus.
  simpl. destruct (String.eqb _ "+++"); [by destruct st | done].
Qed.

Lemma report_app (filename : string) (ps qs : list (Z * string)) :
  Spec.report filename (ps ++ qs) = Spec.report filename ps ++ Spec.report filename qs.
Proof.
  induction ps as [|[n text] ps IH]; simpl; [done|].
  destruct (Hook.has_marker text); simpl; by rewrite IH.
Qed.

(** The loop of [collect_errors] is line attribution followed by the
    marker test. *)
Lemma body_attribute_body (filename : string) (st : Hook.state)
    (ps : list (Z * string)) (line : string) :
  Hook.errors st = Spec.report filename ps →
  match Hook.body filename st line, Hook.attribute_body (Hook.line_number st, ps) line with
  | Ok st', Ok (n', ps') =>
      Hook.line_number st' = n' ∧ Hook.errors st' = Spec.report filename ps'
  | Raise e, Raise e' => e = e'
  | OutOfFuel, OutOfFuel => True
  | _, _ => False
  end.
Proof.
  intros He. destruct (Py.startswith line "+") eqn:Hp.
  - rewrite (startswith_plus_inv line Hp).
    rewrite body_added, attribute_body_added.
    destruct (String.eqb _ "+++") eqn:Hs; simpl.
    + split; [done|]. apply String.eqb_eq, plus3_no_marker in Hs.
      rewrite marker_after_plus in Hs. by rewrite Hs.
    + split; [done|]. rewrite report_app, <- He. simpl.
      destruct (Hook.has_marker _); [done | by rewrite app_nil_r].
  - unfold Hook.body, Hook.attribute_body. rewrite Hp. simpl.
    destruct (Py.startswith line "@@"); simpl; [|done].
    by destruct (Hook.parse_line_number line).
Qed.

Lemma for_each_body_attribute (filename : string) (diff_result : list string)
    (st : Hook.state) (ps : list (Z * string)) :
  Hook.errors st = Spec.report filename ps →
  match for_each (Hook.body filename) st diff_result,
        for_each Hook.attribute_body (Hook.line_number st, ps) diff_result with
  | Ok st', Ok (n', ps') =>
      Hook.line_number st' = n' ∧ Hook.errors st' = Spec.report filename ps'
  | Raise e, Raise e' => e = e'
  | OutOfFuel, OutOfFuel => True
  | _, _ => False
  end.
Proof.
  revert st ps. induction diff_result as [|line rest IH]; intros st ps He; simpl.
  - done.
  - pose proof (body_attribute_body filename st ps line He) as Hb.
    destruct (Hook.body filename st line) as [st'| |],
             (Hook.attribute_body (Hook.line_number st, ps) line) as [[n' ps']| |];
      simpl; try done.
    destruct Hb as [<- He']. by apply IH.
Qed.

Lemma scan_attribute (filename : string) (diff_result : list string) :
  Hook.scan filename diff_result
  = (pairs ←! Hook.attribute diff_result; Ok (Spec.report filename pairs)).
Proof.
  unfold Hook.scan, Hook.attribute.
  pose proof (for_each_body_attribute filename diff_result (Hook.State 1 []) [] eq_refl) as H.
  simpl in H.
  destruct (for_each (Hook.body filename) _ _) as [st'| |],
           (for_each Hook.attribute_body _ _) as [[n' ps']| |]; simpl; try done.
  - destruct H as [_ ->]. done.
  - by subst.
Qed.

(** ** Line attribution within a hunk *)

Lemma header_not_added (line : string) :
  Py.startswith line "@@" = true → Py.startswith line "+" = false.
Proof.
  destruct line as [|c line]; [done|]. rewrite !startswith_cons.
  intros [H _]%andb_true_iff. apply ascii_eqb_true in H. by subst.
Qed.

(** A line that strips to ["+++"] leaves the variables of the loop as they
    are. *)
Lemma body_skipped (filename : string) (st : Hook.state) (line : string) :
  Py.strip line = "+++" → Hook.body filename st line = Ok st.
Proof.
  intros H. unfold Hook.body.
  rewrite (plus3_not_header line H), H. simpl.
  rewrite orb_true_r. by destruct st.
Qed.

Lemma attribute_body_header (st : Z * list (Z * string)) (line : string) (n : Z) :
  Py.startswith line "@@" = true →
  Hook.parse_line_number line = Ok n →
  Hook.attribute_body st line = Ok (n, st.2).
Proof.
  intros Hh Hn. unfold Hook.attribute_body.
  by rewrite Hh, Hn, (header_not_added line Hh).
Qed.

Lemma attribute_body_other (st : Z * list (Z * string)) (line : string) :
  Py.startswith line "@@" = false →
  Py.startswith line "+" = false →
  Hook.attribute_body st line = Ok st.
Proof.
  intros Hh Hp. unfold Hook.attribute_body. rewrite Hh, Hp. by destruct st.
Qed.

Lemma number_from_app (n : Z) (xs ys : list string) :
  Spec.number_from n (xs ++ ys)
  = Spec.number_from n xs ++ Spec.number_from (n + Z.of_nat (length xs)) ys.
Proof.
  revert n. induction xs as [|x xs IH]; intros n; simpl.
  - by rewrite Z.add_0_r.
  - rewrite IH. do 3 f_equal. lia.
Qed.

Lemma number_from_length (n : Z) (xs : list string) :
  length (Spec.number_from n xs) = length xs.
Proof. revert n. induction xs as [|x xs IH]; intros n; simpl; [done | by rewrite IH]. Qed.

Lemma number_from_lookup (n : Z) (xs : list string) (k : nat) (x : string) :
  xs !! k = Some x → Spec.number_from n xs !! k = Some ((n + Z.of_nat k)%Z, x).
Proof.
  revert n k. induction xs as [|y xs IH]; intros n [|k] H; simpl in *; try done.
  - injection H as ->. by rewrite Z.add_0_r.
  - rewrite (IH _ _ H). do 2 f_equal. lia.
Qed.

Lemma kept_cons (line : string) (lines : list string) :
  Spec.kept (line :: lines)
  = if Py.startswith line "+" && negb (Spec.skipped line)
    then Hook.tail_of line :: Spec.kept lines
    else Spec.kept lines.
Proof.
  unfold Spec.kept. simpl.
  by destruct (Py.startswith line "+" && negb (Spec.skipped line)).
Qed.

(** The lines after a hunk header, up to the next header: the added lines
    the loop keeps are numbered consecutively from the counter. *)
Lemma attribute_hunk_lines (lines : list string) (n : Z) (acc : list (Z * string)) :
  Forall (λ line, Py.startswith line "@@" = false) lines →
  for_each Hook.attribute_body (n, acc) lines
  = Ok ((n + Z.of_nat (length (Spec.kept lines)))%Z,
        acc ++ Spec.number_from n (Spec.kept lines)).
Proof.
  intros Hl. revert n acc.
  induction Hl as [|line lines Hh _ IH]; intros n acc.
  - simpl. by rewrite Z.add_0_r, app_nil_r.
  - rewrite kept_cons. simpl for_each.
    destruct (Py.startswith line "+") eqn:Hp.
    + rewrite (startswith_plus_inv line Hp) at 1.
      rewrite attribute_body_added. rewrite <- (startswith_plus_inv line Hp).
      fold (Spec.skipped line). destruct (Spec.skipped line); simpl.
      * apply IH.
      * rewrite IH, <- app_assoc. simpl. do 2 f_equal. lia.
    + rewrite attribute_body_other by done. simpl. apply IH.
Qed.


Lemma for_each_app {S X : Type} (body : S → X → result S) (xs ys : list X) (st : S) :
  for_each body st (xs ++ ys) = (st' ←! for_each body st xs; for_each body st' ys).
Proof.
  revert st. induction xs as [|x xs IH]; intros st; simpl; [done|].
  destruct (body st x); simpl; [apply IH | done..].
Qed.


Lemma attribute_preamble (lines : list string) :
  Hook.attribute ("--- " :: "+++ " :: lines)
  = (st ←! for_each Hook.attribute_body (1%Z, []) lines; Ok st.2).
Proof. done. Qed.

(** The diff of [old_52] and [new_54] has two hunks of one added line. *)
Lemma two_hunks_diff :
  Difflib.unified_diff old_52 new_54 0 ""
  = Some ("--- " :: "+++ " :: concat (Spec.hunk_lines <$> two_hunks)).
Proof. vm_compute. reflexivity. Qed.

(** ** Lines that strip to three plus signs *)

Lemma rstrip_with_all (sp : ascii → bool) (ws : string) :
  Py.all_chars sp ws = true → Py.rstrip_with sp ws = "".
Proof.
  induction ws as [|c ws IH]; simpl; [done|].
  intros [Hc Hws]%andb_true_iff. by rewrite (IH Hws), Hc.
Qed.

Lemma skipped_added_iff (text : string) :
  Spec.skipped (Spec.added text) = true
  ↔ ∃ ws, text = "++" +:+ ws ∧ Py.all_chars Py.isspace ws = true.
Proof.
  unfold Spec.skipped, Spec.added, Py.strip.
  rewrite lstrip_with_keeps by done. rewrite String.eqb_eq. split.
  - intros H.
    destruct (rstrip_with_spec Py.isspace (String "+" text)) as (ws & Hs & Hws).
    rewrite H in Hs. rewrite !append_cons, append_nil_l in Hs.
    injection Hs as ->. exists ws. by rewrite !append_cons, append_nil_l.
  - intros (ws & -> & Hws). rewrite !append_cons, append_nil_l. simpl.
    by rewrite (rstrip_with_all _ _ Hws).
Qed.

Lemma kept_added (texts : list string) :
  Spec.kept (Spec.added <$> texts)
  = List.filter (λ text, negb (Spec.skipped (Spec.added text))) texts.
Proof.
  induction texts as [|text texts IH]; [done|].
  rewrite fmap_cons, kept_cons, IH. simpl.
  by destruct (Spec.skipped (Spec.added text)).
Qed.

Lemma filter_take_length {A : Type} (p : A → bool) (l : list A) (i : nat) :
  length (List.filter p (take i l)) ≤ i.
Proof.
  revert i. induction l as [|x l IH]; intros [|i]; simpl; try lia.
  specialize (IH i). destruct (p x); simpl; lia.
Qed.

Lemma filter_lookup_index {A : Type} (p : A → bool) (l : list A) (i : nat) (x : A) :
  l !! i = Some x → p x = true →
  List.filter p l !! (i - length (List.filter (λ y, negb (p y)) (take i l))) = Some x.
Proof.
  revert i. induction l as [|y l IH]; intros [|i] Hi Hx; simpl in *; try done.
  - injection Hi as ->. by rewrite Hx.
  - pose proof (filter_take_length (λ y, negb (p y)) l i) as Hle.
    destruct (p y) eqn:Hy; simpl.
    + replace (S i - length (List.filter (λ y, negb (p y)) (take i l)))
        with (S (i - length (List.filter (λ y, negb (p y)) (take i l)))) by lia.
      by apply IH.
    + by apply IH.
Qed.

(** A run of added lines after a header: the lines the loop keeps are
    numbered consecutively, so each is attributed its place in the run
    less the number of lines passed over before it. *)
Lemma attribute_added_run (start : Z) (acc : list (Z * string)) (texts : list string) :
  ∃ pairs,
    for_each Hook.attribute_body (start, acc) (Spec.added <$> texts)
    = Ok ((start + Z.of_nat (length pairs))%Z, acc ++ pairs)
    ∧ ∀ i text,
        texts !! i = Some text →
        Spec.skipped (Spec.added text) = false →
        pairs !! (i - Spec.skipped_before i texts)
        = Some ((start + Z.of_nat i - Z.of_nat (Spec.skipped_before i texts))%Z, text).
Proof.
  exists (Spec.number_from start (Spec.kept (Spec.added <$> texts))). split.
  - rewrite attribute_hunk_lines, number_from_length; [done|].
    apply Forall_fmap, Forall_true. done.
  - intros i text Hi Hs. rewrite kept_added.
    pose proof (filter_take_length (λ t, Spec.skipped (Spec.added t)) texts i) as Hle.
    fold (Spec.skipped_before i texts) in Hle.
    erewrite number_from_lookup.
    + do 2 f_equal. lia.
    + unfold Spec.skipped_before.
      rewrite <- (filter_lookup_index
                   (λ t, negb (Spec.skipped (Spec.added t))) texts i text Hi)
        by by rewrite Hs.
      f_equal. f_equal. f_equal. apply List.filter_ext.
      intros t. by rewrite negb_involutive.
Qed.

(** ** parse_line_number *)

Lemma parse_line_number_four (line t0 t1 t2 t3 : string) :
  Py.startswith line "@@" = true →
  Py.split " " line = [t0; t1; t2; t3] →
  Hook.parse_line_number line = Py.int (Spec.before_comma t2).
Proof. unfold Hook.parse_line_number. by intros -> ->. Qed.

(** ** find_longest_match stays inside its window *)

Section Window.

Variables a b : list string.
Variables alo ahi blo bhi : nat.

#[local] Abbreviation row_ok := (Inv.row_ok blo bhi).
#[local] Abbreviation best_ok := (Inv.best_ok alo ahi blo bhi).

Lemma j2lenget_pred_bound (r : nat) (j2len : gmap nat nat) (j : nat) :
  row_ok r j2len → blo ≤ j →
  Difflib.j2lenget_pred j2len j + 1 ≤ r + 1
  ∧ blo + (Difflib.j2lenget_pred j2len j + 1) ≤ j + 1.
Proof.
  intros Hrow Hj. destruct j as [|j]; simpl; [lia|].
  destruct (j2len !! j) as [k|] eqn:Hk; simpl; [|lia].
  destruct (Hrow _ _ Hk) as (? & ? & ?). lia.
Qed.

Lemma scan_row_bounds (r : nat) (j2len : gmap nat nat) (js : list nat)
    (newj2len : gmap nat nat) (best : Difflib.block) :
  alo + r < ahi →
  row_ok r j2len → row_ok (r + 1) newj2len → best_ok best →
  row_ok (r + 1) (Difflib.scan_row (alo + r) blo bhi j2len js newj2len best).1
  ∧ best_ok (Difflib.scan_row (alo + r) blo bhi j2len js newj2len best).2.
Proof.
  intros Hr Hrow. revert newj2len best.
  induction js as [|j js IH]; intros newj2len best Hnew Hbest; simpl; [done|].
  destruct (Nat.ltb_spec j blo); [by apply IH|].
  destruct (Nat.leb_spec bhi j); [done|].
  destruct (j2lenget_pred_bound r j2len j Hrow) as [Hk1 Hk2]; [lia|].
  apply IH.
  - intros j' k'. rewrite lookup_insert.
    destruct (decide (j = j')) as [<-|]; simpl; [|apply Hnew].
    intros [= <-]. lia.
  - destruct best as [[bi bj] bs]. simpl.
    destruct (Nat.ltb_spec bs (Difflib.j2lenget_pred j2len j + 1)); [|done].
    simpl. lia.
Qed.

Lemma scan_rows_bounds (n r : nat) (j2len : gmap nat nat) (best : Difflib.block) :
  alo + r + n ≤ ahi →
  row_ok r j2len → best_ok best →
  best_ok (Difflib.scan_rows a b (seq (alo + r) n) blo bhi j2len best).
Proof.
  revert r j2len best. induction n as [|n IH]; intros r j2len best Hn Hrow Hbest.
  - done.
  - simpl.
    destruct (scan_row_bounds r j2len (Difflib.candidates a b (alo + r)) ∅ best)
      as [Hrow' Hbest']; [lia | done | | done |].
    { intros j k. by rewrite lookup_empty. }
    destruct (Difflib.scan_row _ _ _ _ _ _ _) as [new best'].
    replace (S (alo + r)) with (alo + (r + 1)) by lia.
    apply IH; [lia | done..].
Qed.

Lemma extend_left_ok (p : string → bool) (bi bj bs : nat) :
  best_ok (bi, bj, bs) → best_ok (Difflib.extend_left a b p alo blo bi bj bs).
Proof.
  revert bj bs. induction bi as [|bi IH]; intros bj bs Hb; simpl; [done|].
  destruct bj as [|bj]; [done|].
  destruct (_ && _ && _) eqn:Hc; [|done].
  apply andb_true_iff in Hc as [[H1 H2]%andb_true_iff _].
  apply Nat.ltb_lt in H1, H2. apply IH. simpl in *. lia.
Qed.

Lemma extend_right_ok (p : string → bool) (bi bj steps bs : nat) :
  bi + bs ≤ ahi → bj + bs ≤ bhi →
  bi + Difflib.extend_right a b p ahi bhi bi bj steps bs ≤ ahi
  ∧ bj + Difflib.extend_right a b p ahi bhi bi bj steps bs ≤ bhi.
Proof.
  revert bs. induction steps as [|steps IH]; intros bs H1 H2; simpl; [done|].
  destruct (_ && _ && _) eqn:Hc; [|done].
  apply andb_true_iff in Hc as [[H3 H4]%andb_true_iff _].
  apply Nat.ltb_lt in H3, H4. apply IH; lia.
Qed.

Lemma find_longest_match_range :
  alo ≤ ahi → blo ≤ bhi →
  best_ok (Difflib.find_longest_match a b alo ahi blo bhi).
Proof.
  intros Ha Hb. unfold Difflib.find_longest_match.
  pose proof (scan_rows_bounds (ahi - alo) 0 ∅ (alo, blo, 0)) as H0.
  rewrite Nat.add_0_r in H0.
  destruct (Difflib.scan_rows a b _ blo bhi ∅ (alo, blo, 0)) as [[i0 j0] k0].
  assert (H1 : best_ok (i0, j0, k0)).
  { apply H0; [lia | | simpl; lia]. intros j k. by rewrite lookup_empty. }
  clear H0.
  pose proof (extend_left_ok (λ y, negb (Difflib.isbjunk y)) i0 j0 k0 H1) as H2.
  destruct (Difflib.extend_left a b _ alo blo i0 j0 k0) as [[i1 j1] k1].
  pose proof (extend_right_ok (λ y, negb (Difflib.isbjunk y)) i1 j1
                (ahi - (i1 + k1)) k1) as H3.
  set (k2 := Difflib.extend_right a b _ ahi bhi i1 j1 (ahi - (i1 + k1)) k1) in *.
  assert (H4 : best_ok (i1, j1, k2)).
  { simpl in H2. destruct H3; [lia..|]. simpl. lia. }
  pose proof (extend_left_ok Difflib.isbjunk i1 j1 k2 H4) as H5.
  destruct (Difflib.extend_left a b Difflib.isbjunk alo blo i1 j1 k2) as [[i3 j3] k3].
  pose proof (extend_right_ok Difflib.isbjunk i3 j3 (ahi - (i3 + k3)) k3) as H6.
  simpl in H5. destruct H6; [lia..|]. simpl. lia.
Qed.

End Window.

(** ** The diff engine always answers *)

Section Totality.

Variables a b : list string.

Lemma queue_weight_cons (w : nat * nat * nat * nat) (queue : list (nat * nat * nat * nat)) :
  queue_weight (w :: queue) = window_weight w + queue_weight queue.
Proof. done. Qed.

Lemma matching_loop_total (fuel : nat) (queue : list (nat * nat * nat * nat))
    (acc : list Difflib.block) :
  Forall window_ok queue → queue_weight queue ≤ fuel →
  ∃ blocks, Difflib.matching_loop a b fuel queue acc = Some blocks.
Proof.
  revert queue acc. induction fuel as [|fuel IH]; intros queue acc Hq Hw.
  - destruct queue as [|[[[alo ahi] blo] bhi] queue]; [by eexists|].
    rewrite queue_weight_cons in Hw. unfold window_weight in Hw. lia.
  - destruct queue as [|[[[alo ahi] blo] bhi] queue]; [by eexists|].
    apply Forall_cons in Hq as [[Ha Hb] Hq].
    rewrite queue_weight_cons in Hw. unfold window_weight in Hw.
    simpl Difflib.matching_loop.
    pose proof (find_longest_match_range a b alo ahi blo bhi Ha Hb) as Hm.
    destruct (Difflib.find_longest_match a b alo ahi blo bhi) as [[i j] k].
    simpl in Hm. destruct (Nat.eqb_spec k 0) as [->|Hk].
    + apply IH; [done | lia].
    + apply IH.
      * destruct (Nat.ltb_spec (i + k) ahi), (Nat.ltb_spec (j + k) bhi),
          (Nat.ltb_spec alo i), (Nat.ltb_spec blo j); simpl;
          repeat (apply Forall_cons; split; [simpl; lia|]); done.
      * destruct (Nat.ltb_spec (i + k) ahi), (Nat.ltb_spec (j + k) bhi),
          (Nat.ltb_spec alo i), (Nat.ltb_spec blo j); simpl andb; cbv iota;
          rewrite ?queue_weight_cons; unfold window_weight; lia.
Qed.

Lemma get_matching_blocks_total :
  ∃ blocks, Difflib.get_matching_blocks a b = Some blocks.
Proof.
  unfold Difflib.get_matching_blocks.
  destruct (matching_loop_total (Difflib.matching_fuel a)
              [(0, length a, 0, length b)] []) as [blocks ->].
  - apply Forall_singleton. simpl. lia.
  - rewrite queue_weight_cons. unfold window_weight, Difflib.matching_fuel.
    change (queue_weight []) with 0. lia.
  - by eexists.
Qed.

Lemma get_grouped_opcodes_total (n : nat) :
  ∃ groups, Difflib.get_grouped_opcodes a b n = Some groups.
Proof.
  unfold Difflib.get_grouped_opcodes, Difflib.get_opcodes.
  destruct get_matching_blocks_total as [blocks ->]. by eexists.
Qed.

Lemma unified_diff_total (n : nat) (lineterm : string) :
  ∃ diff_result, Difflib.unified_diff a b n lineterm = Some diff_result.
Proof.
  unfold Difflib.unified_diff.
  destruct (get_grouped_opcodes_total n) as [groups ->]. simpl.
  destruct groups; by eexists.
Qed.

End Totality.

(** ** Hunk headers *)

Lemma all_chars_impl (p q : ascii → bool) (s : string) :
  (∀ c, p c = true → q c = true) →
  Py.all_chars p s = true → Py.all_chars q s = true.
Proof.
  intros Hpq. induction s as [|c s IH]; simpl; [done|].
  intros [Hc Hs]%andb_true_iff. by rewrite (Hpq c Hc), (IH Hs).
Qed.

Lemma all_chars_app (p : ascii → bool) (s t : string) :
  Py.all_chars p (s +:+ t) = Py.all_chars p s && Py.all_chars p t.
Proof.
  induction s as [|c s IH]; [done|]. rewrite append_cons. simpl.
  by rewrite IH, andb_assoc.
Qed.

Lemma split_no_sep (sep : ascii) (s : string) :
  Py.all_chars (differs sep) s = true → Py.split sep s = [s].
Proof.
  induction s as [|c s IH]; simpl; [done|].
  intros [Hc Hs]%andb_true_iff. unfold differs in Hc.
  apply negb_true_iff in Hc. by rewrite Hc, (IH Hs).
Qed.

Lemma split_app_sep (sep : ascii) (s t : string) :
  Py.all_chars (differs sep) s = true →
  Py.split sep (s +:+ String sep t) = s :: Py.split sep t.
Proof.
  induction s as [|c s IH].
  - intros _. rewrite append_nil_l. simpl. by rewrite Ascii.eqb_refl.
  - simpl. intros [Hc Hs]%andb_true_iff. unfold differs in Hc.
    apply negb_true_iff in Hc. rewrite ?append_cons. simpl.
    by rewrite Hc, (IH Hs).
Qed.

Lemma lstrip_with_none (sp : ascii → bool) (s : string) :
  Py.all_chars (λ c, negb (sp c)) s = true → Py.lstrip_with sp s = s.
Proof.
  destruct s as [|c s]; simpl; [done|].
  intros [Hc _]%andb_true_iff. apply negb_true_iff in Hc. by rewrite Hc.
Qed.

Lemma rstrip_with_none (sp : ascii → bool) (s : string) :
  Py.all_chars (λ c, negb (sp c)) s = true → Py.rstrip_with sp s = s.
Proof.
  induction s as [|c s IH]; simpl; [done|].
  intros [Hc Hs]%andb_true_iff. apply negb_true_iff in Hc.
  rewrite (IH Hs), Hc. by destruct s.
Qed.

Lemma string_of_uint_digits (d : Decimal.uint) :
  Py.all_chars Py.is_digit (NilEmpty.string_of_uint d) = true.
Proof. induction d; simpl; done. Qed.

Lemma drop_underscores_digits (s : string) :
  Py.all_chars Py.is_digit s = true → Py.drop_underscores true s = Some s.
Proof.
  induction s as [|c s IH]; simpl; [done|].
  intros [Hc Hs]%andb_true_iff. by rewrite Hc, (IH Hs).
Qed.

Lemma int_literal_digits (d : Decimal.uint) :
  d ≠ Decimal.Nil →
  Py.int_literal (NilEmpty.string_of_uint d) = Some (Z.of_uint d).
Proof.
  intros Hd. unfold Py.int_literal.
  assert (H : Py.drop_underscores false (NilEmpty.string_of_uint d)
              = Some (NilEmpty.string_of_uint d)).
  { pose proof (string_of_uint_digits d) as Hs.
    destruct (NilEmpty.string_of_uint d) as [|c s] eqn:E.
    - by destruct d.
    - simpl in *. apply andb_true_iff in Hs as [Hc Hs].
      by rewrite Hc, (drop_underscores_digits s Hs). }
  rewrite H. simpl. by rewrite NilEmpty.usu.
Qed.

(** The decimal digits of a number that is not negative. *)
Lemma str_of_int_nonneg (z : Z) :
  (0 ≤ z)%Z →
  ∃ d, Py.str_of_int z = NilEmpty.string_of_uint d
       ∧ d ≠ Decimal.Nil ∧ Z.of_uint d = z.
Proof.
  intros Hz. unfold Py.str_of_int. destruct z as [|p|p]; [| |lia].
  - by exists (Decimal.D0 Decimal.Nil).
  - exists (Pos.to_uint p). simpl.
    pose proof (DecimalPos.Unsigned.to_uint_nonnil p) as Hn.
    split; [by destruct (Pos.to_uint p) | split; [done|]].
    unfold Z.of_uint. by rewrite DecimalPos.Unsigned.of_to.
Qed.

Lemma str_of_int_numeric (z : Z) :
  Py.all_chars numeric_char (Py.str_of_int z) = true.
Proof.
  assert (Hu : ∀ d, Py.all_chars numeric_char (NilZero.string_of_uint d) = true).
  { intros d. apply (all_chars_impl Py.is_digit).
    - intros c Hc. unfold numeric_char. by rewrite Hc.
    - destruct d; try apply (string_of_uint_digits (_ d)); done. }
  unfold Py.str_of_int. destruct (Z.to_int z); simpl; [apply Hu|].
  by rewrite Hu.
Qed.

Lemma digit_char_facts (c : ascii) :
  Py.is_digit c = true →
  Py.int_space c = false ∧ differs " " c = true ∧ differs "," c = true.
Proof. destruct c as [[] [] [] [] [] [] [] []]; vm_compute; done. Qed.

Lemma numeric_char_facts (c : ascii) :
  numeric_char c = true → differs " " c = true ∧ differs "," c = true.
Proof. destruct c as [[] [] [] [] [] [] [] []]; vm_compute; done. Qed.

(** [int] reads back what [str] prints after a ["+"]. *)
Lemma int_plus_str (z : Z) :
  (0 ≤ z)%Z → Py.int ("+" +:+ Py.str_of_int z) = Ok z.
Proof.
  intros Hz. destruct (str_of_int_nonneg z Hz) as (d & -> & Hd & <-).
  unfold Py.int. rewrite append_cons, append_nil_l.
  assert (Hs : Py.all_chars (λ c, negb (Py.int_space c))
                 (String "+" (NilEmpty.string_of_uint d)) = true).
  { simpl. apply (all_chars_impl Py.is_digit); [|apply string_of_uint_digits].
    intros c Hc. by destruct (digit_char_facts c Hc) as [-> _]. }
  rewrite lstrip_with_none by done. rewrite rstrip_with_none by done.
  by rewrite int_literal_digits.
Qed.

(** ** The index of the second sequence *)

Lemma chain_lookup (i : nat) (elts : list string) (m : gmap string (list nat))
    (x : string) :
  Difflib.chain i elts m !! x
  = match positions i elts x with
    | [] => m !! x
    | ps => Some (default [] (m !! x) ++ ps)
    end.
Proof.
  revert i m. induction elts as [|e elts IH]; intros i m; simpl; [done|].
  rewrite IH. destruct (decide (e = x)) as [->|Hne].
  - rewrite lookup_insert_eq. simpl.
    destruct (positions (S i) elts x); simpl; [done | by rewrite <- app_assoc].
  - by rewrite lookup_insert_ne.
Qed.

Lemma elem_of_positions (i : nat) (elts : list string) (x : string) (j : nat) :
  j ∈ positions i elts x ↔ i ≤ j ∧ elts !! (j - i) = Some x.
Proof.
  revert i. induction elts as [|e elts IH]; intros i; simpl.
  - rewrite elem_of_nil. split; [done | by intros [_ ?]].
  - destruct (decide (e = x)) as [->|Hne].
    + rewrite elem_of_cons, IH. split.
      * intros [->|[Hj He]].
        -- by rewrite Nat.sub_diag.
        -- split; [lia|]. by replace (j - i) with (S (j - S i)) by lia.
      * intros [Hj He]. destruct (decide (j = i)) as [->|]; [by left|].
        right. split; [lia|].
        by replace (j - i) with (S (j - S i)) in He by lia.
    + rewrite IH. split.
      * intros [Hj He]. split; [lia|].
        by replace (j - i) with (S (j - S i)) by lia.
      * intros [Hj He]. destruct (decide (j = i)) as [->|].
        -- rewrite Nat.sub_diag in He. simpl in He. congruence.
        -- split; [lia|]. by replace (j - i) with (S (j - S i)) in He by lia.
Qed.

Lemma positions_app (i : nat) (l1 l2 : list string) (x : string) :
  positions i (l1 ++ l2) x
  = positions i l1 x ++ positions (i + length l1) l2 x.
Proof.
  revert i. induction l1 as [|e l1 IH]; intros i; simpl.
  - by rewrite Nat.add_0_r.
  - rewrite IH. replace (S i + length l1) with (i + S (length l1)) by lia.
    by destruct (decide (e = x)).
Qed.

(** The occurrences of [x] before, at and after an index where it stands. *)
Lemma positions_split (t : list string) (k : nat) (x : string) :
  t !! k = Some x →
  ∃ l1 l2, positions 0 t x = l1 ++ k :: l2
           ∧ (∀ j, j ∈ l1 → j < k ∧ t !! j = Some x)
           ∧ (∀ j, j ∈ l2 → k < j ∧ t !! j = Some x).
Proof.
  intros Hk. pose proof (lookup_lt_Some _ _ _ Hk) as Hlt.
  exists (positions 0 (take k t) x), (positions (S k) (drop (S k) t) x).
  split; [|split].
  - rewrite <- (take_drop_middle t k x Hk) at 1.
    rewrite positions_app, length_take_le by lia. simpl.
    by rewrite decide_True.
  - intros j [_ Hj]%elem_of_positions. rewrite Nat.sub_0_r in Hj.
    pose proof (lookup_lt_Some _ _ _ Hj) as Hl. rewrite length_take in Hl.
    split; [lia|]. rewrite lookup_take_lt in Hj by lia. done.
  - intros j [Hle Hj]%elem_of_positions. split; [lia|].
    rewrite lookup_drop in Hj. by replace (S k + (j - S k)) with j in Hj by lia.
Qed.

(** ** Identical sequences *)

Section Diagonal.

Variable t : list string.

#[local] Abbreviation popular := (Inv.popular t).
#[local] Abbreviation run := (Inv.run t).
#[local] Abbreviation diag_inv := (Inv.diag_inv t).

Lemma run_le (i : nat) : run i ≤ i.
Proof.
  induction i as [|i IH]; simpl; [done|].
  destruct (t !! i) as [x|]; [destruct (popular x)|]; lia.
Qed.

Lemma b2j_default (x : string) :
  default [] (Difflib.b2j t !! x) = if popular x then [] else positions 0 t x.
Proof.
  unfold Difflib.b2j, Inv.popular.
  pose proof (chain_lookup 0 t ∅ x) as Hall. rewrite lookup_empty in Hall.
  destruct (200 <=? length t); cbn [andb].
  - destruct (filter _ (Difflib.chain 0 t ∅) !! x) as [l|] eqn:Hf.
    + apply map_lookup_filter_Some in Hf as [Hl Hp].
      change (¬ length t / 100 + 1 < length l) in Hp.
      rewrite Hl in Hall. destruct (positions 0 t x) as [|p ps]; [done|].
      injection Hall as ->.
      destruct (Nat.ltb_spec (length t / 100 + 1) (length (p :: ps))); [lia | done].
    + destruct (positions 0 t x) as [|p ps] eqn:Hps; [by destruct (_ <? _)|].
      destruct (Nat.ltb_spec (length t / 100 + 1) (length (p :: ps))); [done|].
      assert (Hs : filter (λ kv : string * list nat,
                      ¬ length t / 100 + 1 < length kv.2)
                     (Difflib.chain 0 t ∅) !! x = Some (p :: ps)).
      { apply map_lookup_filter_Some. split; [done|].
        change (¬ length t / 100 + 1 < length (p :: ps)). lia. }
      congruence.
  - rewrite Hall. by destruct (positions 0 t x).
Qed.

Lemma candidates_diag (i : nat) (x : string) :
  t !! i = Some x →
  Difflib.candidates t t i = if popular x then [] else positions 0 t x.
Proof. intros Hi. unfold Difflib.candidates. by rewrite Hi, b2j_default. Qed.

(** *** The rows of the scan *)

Lemma scan_row_app (i blo bhi : nat) (j2len : gmap nat nat) (l1 l2 : list nat)
    (new : gmap nat nat) (best : Difflib.block) :
  (∀ j, j ∈ l1 → j < bhi) →
  Difflib.scan_row i blo bhi j2len (l1 ++ l2) new best
  = Difflib.scan_row i blo bhi j2len l2
      (Difflib.scan_row i blo bhi j2len l1 new best).1
      (Difflib.scan_row i blo bhi j2len l1 new best).2.
Proof.
  revert new best. induction l1 as [|j l1 IH]; intros new best Hl; simpl; [done|].
  assert (Hj : j < bhi) by (apply Hl; set_solver).
  assert (Hl' : ∀ j', j' ∈ l1 → j' < bhi) by (intros; apply Hl; set_solver).
  destruct (j <? blo); [by apply IH|].
  destruct (Nat.leb_spec bhi j); [lia|]. by apply IH.
Qed.

(** The entries a row writes. *)
Lemma scan_row_entries (Q : nat → nat → Prop) (i blo bhi : nat)
    (j2len : gmap nat nat) (js : list nat) (new : gmap nat nat)
    (best : Difflib.block) :
  (∀ j k, new !! j = Some k → Q j k) →
  (∀ j, j ∈ js → Q j (Difflib.j2lenget_pred j2len j + 1)) →
  ∀ j k, (Difflib.scan_row i blo bhi j2len js new best).1 !! j = Some k → Q j k.
Proof.
  revert new best. induction js as [|j0 js IH]; intros new best Hnew Hjs; simpl; [done|].
  assert (Hjs' : ∀ j, j ∈ js → Q j (Difflib.j2lenget_pred j2len j + 1))
    by (intros; apply Hjs; set_solver).
  destruct (j0 <? blo); [by apply IH|].
  destruct (bhi <=? j0); [done|].
  apply IH; [|done]. intros j k. rewrite lookup_insert.
  destruct (decide (j0 = j)) as [<-|]; [|apply Hnew].
  intros [= <-]. apply Hjs. set_solver.
Qed.

Lemma scan_row_keeps (i blo bhi : nat) (j2len : gmap nat nat) (js : list nat)
    (new : gmap nat nat) (best : Difflib.block) (j : nat) :
  j ∉ js →
  (Difflib.scan_row i blo bhi j2len js new best).1 !! j = new !! j.
Proof.
  revert new best. induction js as [|j0 js IH]; intros new best Hj; simpl; [done|].
  apply not_elem_of_cons in Hj as [Hne Hj].
  destruct (j0 <? blo); [by apply IH|].
  destruct (bhi <=? j0); [done|].
  rewrite IH by done. by rewrite lookup_insert_ne.
Qed.

(** A row whose matches are no longer than the best so far leaves it. *)
Lemma scan_row_quiet (i blo bhi : nat) (j2len : gmap nat nat) (js : list nat)
    (new : gmap nat nat) (best : Difflib.block) :
  (∀ j, j ∈ js → Difflib.j2lenget_pred j2len j + 1 ≤ best.2) →
  (Difflib.scan_row i blo bhi j2len js new best).2 = best.
Proof.
  revert new. induction js as [|j0 js IH]; intros new Hjs; simpl; [done|].
  assert (Hjs' : ∀ j, j ∈ js → Difflib.j2lenget_pred j2len j + 1 ≤ best.2)
    by (intros; apply Hjs; set_solver).
  destruct (j0 <? blo); [by apply IH|].
  destruct (bhi <=? j0); [done|].
  assert (H0 : Difflib.j2lenget_pred j2len j0 + 1 ≤ best.2) by (apply Hjs; set_solver).
  destruct (Nat.ltb_spec best.2 (Difflib.j2lenget_pred j2len j0 + 1)); [lia|].
  by apply IH.
Qed.

Lemma run_succ (i : nat) (x : string) :
  t !! i = Some x → popular x = false → run (S i) = run i + 1.
Proof. intros Hi Hx. simpl. by rewrite Hi, Hx. Qed.

Lemma run_succ_popular (i : nat) (x : string) :
  t !! i = Some x → popular x = true → run (S i) = 0.
Proof. intros Hi Hx. simpl. by rewrite Hi, Hx. Qed.

#[local] Arguments Inv.run : simpl never.

Lemma diag_entry_bound (i j : nat) (x : string) (j2len : gmap nat nat) :
  (∀ j k, j2len !! j = Some k → k ≤ run i ∧ k ≤ run (S j)) →
  t !! i = Some x → t !! j = Some x → popular x = false →
  Difflib.j2lenget_pred j2len j + 1 ≤ run (S i)
  ∧ Difflib.j2lenget_pred j2len j + 1 ≤ run (S j).
Proof.
  intros Hrow Hi Hj Hx.
  rewrite (run_succ i x Hi Hx), (run_succ j x Hj Hx).
  destruct j as [|j]; simpl; [lia|].
  destruct (j2len !! j) as [k|] eqn:Hk; simpl; [|lia].
  destruct (Hrow _ _ Hk). lia.
Qed.

Lemma diag_step (i : nat) (j2len : gmap nat nat) (best : Difflib.block) :
  i < length t →
  diag_inv i j2len best →
  diag_inv (S i)
    (Difflib.scan_row i 0 (length t) j2len (Difflib.candidates t t i) ∅ best).1
    (Difflib.scan_row i 0 (length t) j2len (Difflib.candidates t t i) ∅ best).2.
Proof.
  intros Hi (Hrow & Hdiag & d & s & -> & Hds & Hruns).
  destruct (lookup_lt_is_Some_2 t i Hi) as [x Hx].
  rewrite (candidates_diag i x Hx).
  destruct (popular x) eqn:Hpop.
  - (* a popular element has no candidates *)
    simpl Difflib.scan_row. cbn [fst snd]. split; [|split].
    + intros j k. by rewrite lookup_empty.
    + cbn [Difflib.j2lenget_pred]. rewrite lookup_empty. simpl.
      by rewrite (run_succ_popular i x Hx Hpop).
    + exists d, s. split; [done|]. split; [lia|].
      intros i' Hi'. destruct (decide (i' = S i)) as [->|].
      * rewrite (run_succ_popular i x Hx Hpop). lia.
      * apply Hruns. lia.
  - destruct (positions_split t i x Hx) as (l1 & l2 & -> & Hl1 & Hl2).
    assert (Hlt1 : ∀ j, j ∈ l1 → j < length t).
    { intros j Hj. destruct (Hl1 j Hj). lia. }
    rewrite scan_row_app by done.
    assert (Hq1 : ∀ j, j ∈ l1 → Difflib.j2lenget_pred j2len j + 1 ≤ (d, d, s).2).
    { intros j Hj. destruct (Hl1 j Hj) as [Hji Htj].
      destruct (diag_entry_bound i j x j2len Hrow Hx Htj Hpop) as [_ Hb].
      specialize (Hruns (S j)). simpl in *. lia. }
    rewrite (scan_row_quiet _ _ _ _ l1 ∅ _ Hq1).
    set (new1 := (Difflib.scan_row i 0 (length t) j2len l1 ∅ (d, d, s)).1).
    assert (Hnew1 : ∀ j k, new1 !! j = Some k → k ≤ run (S i) ∧ k ≤ run (S j)).
    { apply scan_row_entries.
      - intros j k. by rewrite lookup_empty.
      - intros j Hj. destruct (Hl1 j Hj) as [_ Htj].
        by apply (diag_entry_bound i j x). }
    simpl Difflib.scan_row.
    destruct (Nat.leb_spec (length t) i); [lia|].
    rewrite Hdiag. rewrite <- (run_succ i x Hx Hpop).
    set (best' := if (d, d, s).2 <? run (S i)
                  then (i + 1 - run (S i), i + 1 - run (S i), run (S i))
                  else (d, d, s)).
    assert (Hbest' : ∃ d' s', best' = (d', d', s') ∧ d' + s' ≤ S i
                              ∧ ∀ i', i' ≤ S i → run i' ≤ s').
    { pose proof (run_le (S i)) as Hle. unfold best'. cbn [snd].
      destruct (Nat.ltb_spec s (run (S i))).
      - eexists _, _. split; [done|]. split; [lia|].
        intros i' Hi'. destruct (decide (i' = S i)) as [->|]; [lia|].
        specialize (Hruns i'). lia.
      - exists d, s. split; [done|]. split; [lia|].
        intros i' Hi'. destruct (decide (i' = S i)) as [->|]; [lia|].
        apply Hruns. lia. }
    destruct Hbest' as (d' & s' & Hb' & Hds' & Hruns').
    assert (Hq2 : ∀ j, j ∈ l2 → Difflib.j2lenget_pred j2len j + 1 ≤ best'.2).
    { intros j Hj. destruct (Hl2 j Hj) as [Hji Htj].
      destruct (diag_entry_bound i j x j2len Hrow Hx Htj Hpop) as [Hb _].
      rewrite Hb'. cbn [snd]. specialize (Hruns' (S i)). lia. }
    rewrite (scan_row_quiet _ _ _ _ l2 _ _ Hq2).
    split; [|split].
    + apply scan_row_entries.
      * intros j k. rewrite lookup_insert.
        destruct (decide (i = j)) as [<-|]; [|apply Hnew1].
        intros [= <-]. done.
      * intros j Hj. destruct (Hl2 j Hj) as [_ Htj].
        by apply (diag_entry_bound i j x).
    + cbn [Difflib.j2lenget_pred]. rewrite scan_row_keeps.
      * by rewrite lookup_insert_eq.
      * intros Hin. destruct (Hl2 i Hin). lia.
    + by exists d', s'.
Qed.

Lemma diag_scan_rows (m i : nat) (j2len : gmap nat nat) (best : Difflib.block) :
  i + m = length t →
  diag_inv i j2len best →
  ∃ d s, Difflib.scan_rows t t (seq i m) 0 (length t) j2len best = (d, d, s)
         ∧ d + s ≤ length t.
Proof.
  revert i j2len best. induction m as [|m IH]; intros i j2len best Him Hinv.
  - destruct Hinv as (_ & _ & d & s & -> & Hds & _).
    exists d, s. split; [done | lia].
  - simpl. pose proof (diag_step i j2len best ltac:(lia) Hinv) as Hstep.
    destruct (Difflib.scan_row i 0 (length t) j2len (Difflib.candidates t t i) ∅ best)
      as [new best'].
    apply IH; [lia | done].
Qed.

(** *** The longest match of a sequence with itself *)

Lemma isbjunk_false (x : string) : Difflib.isbjunk x = false.
Proof. unfold Difflib.isbjunk, Difflib.bjunk. by apply bool_decide_eq_false. Qed.

Lemma same_at_diag (p : string → bool) (i : nat) (x : string) :
  t !! i = Some x → Difflib.same_at t t p i i = p x.
Proof.
  intros Hi. unfold Difflib.same_at. rewrite Hi.
  by rewrite bool_decide_eq_true_2, andb_true_r.
Qed.

Lemma extend_left_diag (p : string → bool) (d s : nat) :
  (∀ y, p y = true) → d ≤ length t →
  Difflib.extend_left t t p 0 0 d d s = (0, 0, s + d).
Proof.
  intros Hp. revert s. induction d as [|d IH]; intros s Hd; simpl.
  - by rewrite Nat.add_0_r.
  - destruct (lookup_lt_is_Some_2 t d ltac:(lia)) as [x Hx].
    rewrite (same_at_diag _ d x Hx), Hp.
    rewrite IH by lia. f_equal. lia.
Qed.

Lemma extend_right_diag (p : string → bool) (steps k : nat) :
  (∀ y, p y = true) → k + steps = length t →
  Difflib.extend_right t t p (length t) (length t) 0 0 steps k = length t.
Proof.
  intros Hp. revert k. induction steps as [|steps IH]; intros k Hk; simpl; [lia|].
  destruct (lookup_lt_is_Some_2 t k ltac:(lia)) as [x Hx].
  rewrite (same_at_diag _ k x Hx), Hp.
  destruct (Nat.ltb_spec k (length t)); [|lia]. simpl.
  apply IH. lia.
Qed.

Lemma find_longest_match_diag :
  Difflib.find_longest_match t t 0 (length t) 0 (length t) = (0, 0, length t).
Proof.
  unfold Difflib.find_longest_match. rewrite Nat.sub_0_r.
  destruct (diag_scan_rows (length t) 0 ∅ (0, 0, 0)) as (d & s & -> & Hds).
  { done. }
  { split; [|split].
    - intros j k. by rewrite lookup_empty.
    - done.
    - exists 0, 0. split; [done|]. split; [done|].
      intros i' Hi'. by replace i' with 0 by lia. }
  assert (Hp : ∀ y, negb (Difflib.isbjunk y) = true).
  { intros y. by rewrite isbjunk_false. }
  rewrite (extend_left_diag _ d s Hp) by lia.
  rewrite (extend_right_diag _ _ _ Hp) by lia.
  simpl. by rewrite Nat.sub_diag.
Qed.

Lemma matching_loop_nil (a b : list string) (fuel : nat) (acc : list Difflib.block) :
  Difflib.matching_loop a b fuel [] acc = Some acc.
Proof. by destruct fuel. Qed.

Lemma get_opcodes_same :
  Difflib.get_opcodes t t
  = Some (if length t =? 0 then [] else [(Difflib.equal, 0, length t, 0, length t)]).
Proof.
  unfold Difflib.get_opcodes, Difflib.get_matching_blocks, Difflib.matching_fuel.
  rewrite Nat.add_1_r. simpl Difflib.matching_loop.
  rewrite find_longest_match_diag, !Nat.add_0_l, !Nat.ltb_irrefl.
  destruct (Nat.eqb_spec (length t) 0) as [Hn|Hn].
  - rewrite matching_loop_nil, Hn. done.
  - simpl. rewrite matching_loop_nil. simpl.
    destruct (Nat.eqb_spec (length t) 0); [done|].
    change ([(0, 0, length t)] ++ [(length t, length t, 0)])
      with [(0, 0, length t); (length t, length t, 0)].
    simpl. destruct (Nat.eqb_spec (length t) 0); [done|].
    by rewrite !Nat.ltb_irrefl.
Qed.

Lemma unified_diff_same : Difflib.unified_diff t t 0 "" = Some [].
Proof.
  unfold Difflib.unified_diff, Difflib.get_grouped_opcodes.
  rewrite get_opcodes_same. simpl.
  destruct (Nat.eqb_spec (length t) 0) as [Hn|Hn]; simpl; [done|].
  by rewrite !Nat.sub_0_r, !Nat.add_0_r, !Nat.min_id, Nat.sub_diag.
Qed.

End Diagonal.

(** ** The matching blocks are ordered *)

Lemma apart_sym (r1 r2 : rect) : apart r1 r2 → apart r2 r1.
Proof. unfold apart. tauto. Qed.

Lemma apart_inside (r w x : rect) : inside r w → apart w x → apart r x.
Proof.
  destruct r as [[[ilo ihi] jlo] jhi], w as [[[alo ahi] blo] bhi],
    x as [[[xlo xhi] ylo] yhi].
  unfold apart, inside, before. lia.
Qed.

Lemma all_apart_snoc (rs : list rect) (r : rect) :
  all_apart rs → Forall (λ r', apart r' r) rs → all_apart (rs ++ [r]).
Proof.
  induction rs as [|r0 rs IH]; simpl; [done|].
  intros [H0 Hrs] [Hr0 Hr]%Forall_cons. split; [|by apply IH].
  apply Forall_app. split; [done|]. by apply Forall_singleton.
Qed.

Lemma all_apart_Permutation (rs rs' : list rect) :
  rs ≡ₚ rs' → all_apart rs → all_apart rs'.
Proof.
  induction 1 as [|r rs rs' Hp IH|r1 r2 rs|rs1 rs2 rs3 _ IH1 _ IH2]; simpl.
  - done.
  - intros [Hr Hrs]. split; [by rewrite <- Hp | by apply IH].
  - intros [[H12 H1]%Forall_cons [H2 Hrs]]. repeat split; try done.
    apply Forall_cons. split; [by apply apart_sym | done].
  - intros H. by apply IH2, IH1.
Qed.

Section Ordered.

Variables a b : list string.

#[local] Abbreviation whole := (Inv.whole a b).
#[local] Abbreviation loop_inv := (Inv.loop_inv a b).

Lemma matching_loop_inv (fuel : nat) (queue : list rect)
    (acc blocks : list Difflib.block) :
  loop_inv queue acc →
  Difflib.matching_loop a b fuel queue acc = Some blocks →
  loop_inv [] blocks.
Proof.
  revert queue acc. induction fuel as [|fuel IH]; intros queue acc Hinv Hloop.
  - destruct queue as [|[[[alo ahi] blo] bhi] queue]; [|done].
    simpl in Hloop. by injection Hloop as <-.
  - destruct queue as [|[[[alo ahi] blo] bhi] queue].
    { simpl in Hloop. by injection Hloop as <-. }
    simpl in Hloop.
    destruct Hinv as ([Hw Hall] & [[[Ha Hb] Hin] Hq]%Forall_cons & Hacc).
    pose proof (find_longest_match_range a b alo ahi blo bhi Ha Hb) as Hm.
    destruct (Difflib.find_longest_match a b alo ahi blo bhi) as [[i j] k].
    unfold Inv.best_ok in Hm. destruct (Nat.eqb_spec k 0) as [Hk0|Hk].
    { apply (IH queue acc); [|done]. by repeat split. }
    apply IH in Hloop; [done|]. clear IH Hloop.
    set (W := (alo, ahi, blo, bhi)) in *.
    set (B := block_rect (i, j, k)).
    assert (HBW : inside B W) by (simpl; lia).
    assert (Hrest : all_apart (queue ++ (block_rect <$> (acc ++ [(i, j, k)])))).
    { rewrite fmap_app, app_assoc. apply all_apart_snoc; [done|].
      eapply Forall_impl; [exact Hw|]. intros r Hr.
      apply apart_sym. by apply (apart_inside B W). }
    assert (Hsub : ∀ r, inside r W → apart r B →
              Forall (apart r) (queue ++ (block_rect <$> (acc ++ [(i, j, k)])))).
    { intros r Hr HrB. rewrite fmap_app, app_assoc. apply Forall_app. split.
      - eapply Forall_impl; [exact Hw|]. intros x Hx. by apply (apart_inside r W).
      - by apply Forall_singleton. }
    assert (Hacc' : Forall (λ x, 0 < x.2 ∧ inside (block_rect x) whole)
                      (acc ++ [(i, j, k)])).
    { apply Forall_app. split; [done|]. apply Forall_singleton.
      unfold Inv.whole in *. simpl in *. lia. }
    unfold Inv.whole in *. simpl in Hin.
    destruct (Nat.ltb_spec (i + k) ahi), (Nat.ltb_spec (j + k) bhi),
      (Nat.ltb_spec alo i), (Nat.ltb_spec blo j); simpl andb; cbv iota;
      (split; [|split; [|exact Hacc']]);
      repeat (apply Forall_cons; split; [simpl; lia|]); try exact Hq;
      simpl all_apart; repeat split; try exact Hrest;
      repeat (apply Forall_cons; split; [unfold apart; simpl; lia|]);
      apply Hsub; unfold apart; simpl; lia.
Qed.

End Ordered.

#[local] Instance block_le_trans : Transitive Difflib.block_le.
Proof.
  intros [[i1 j1] k1] [[i2 j2] k2] [[i3 j3] k3]. unfold Difflib.block_le. lia.
Qed.

#[local] Instance block_le_total : Total Difflib.block_le.
Proof.
  intros [[i1 j1] k1] [[i2 j2] k2]. unfold Difflib.block_le. lia.
Qed.

Lemma chain_from_weaken (i0 j0 i0' j0' : nat) (blocks : list Difflib.block) :
  i0' ≤ i0 → j0' ≤ j0 → chain_from i0 j0 blocks → chain_from i0' j0' blocks.
Proof.
  destruct blocks as [|[[i j] k] blocks]; simpl; [done|].
  intros ? ? (? & ? & ?). split; [lia|]. split; [lia | done].
Qed.

(** Sorted blocks that lie apart follow one another. *)
Lemma sorted_chain (la lb : nat) (blocks : list Difflib.block) (i0 j0 : nat) :
  StronglySorted Difflib.block_le blocks →
  all_apart (block_rect <$> blocks) →
  Forall (λ x, 0 < x.2 ∧ inside (block_rect x) (0, la, 0, lb)) blocks →
  Forall (λ x, before (i0, i0, j0, j0) (block_rect x)) blocks →
  i0 ≤ la → j0 ≤ lb →
  chain_from i0 j0 (blocks ++ [(la, lb, 0)]).
Proof.
  intros Hs. revert i0 j0.
  induction Hs as [|[[i j] k] blocks Hs IH Hx]; intros i0 j0 Hap Hin Hlow Hi Hj.
  - simpl. lia.
  - rewrite fmap_cons in Hap. destruct Hap as [Hxa Hap].
    apply Forall_cons in Hin as [[Hk Hxin] Hin].
    apply Forall_cons in Hlow as [Hxlow Hlow].
    simpl in Hk, Hxin, Hxlow. simpl. split; [lia|]. split; [lia|].
    apply IH; [done | done | | lia | lia].
    apply Forall_forall. intros [[i' j'] k'] Hy.
    rewrite Forall_forall in Hx. specialize (Hx _ Hy).
    rewrite Forall_forall in Hin. destruct (Hin _ Hy) as [Hk' _].
    rewrite Forall_forall in Hxa.
    specialize (Hxa (block_rect (i', j', k'))).
    destruct Hxa as [Hb|Hb].
    { apply list_elem_of_fmap. by exists (i', j', k'). }
    + simpl in *. lia.
    + unfold Difflib.block_le in Hx. simpl in *. lia.
Qed.

Lemma chain_from_app (i0 j0 : nat) (l1 l2 : list Difflib.block) (x : Difflib.block) :
  chain_from i0 j0 (l1 ++ x :: l2) →
  chain_from i0 j0 (l1 ++ [x])
  ∧ chain_from (x.1.1 + x.2) (x.1.2 + x.2) l2.
Proof.
  revert i0 j0. induction l1 as [|[[i j] k] l1 IH]; intros i0 j0; simpl.
  - destruct x as [[i j] k]. simpl. tauto.
  - intros (Hi & Hj & Hc). destruct (IH _ _ Hc). tauto.
Qed.

Lemma chain_from_join (i0 j0 : nat) (l1 l2 : list Difflib.block) (x : Difflib.block) :
  chain_from i0 j0 (l1 ++ [x]) →
  chain_from (x.1.1 + x.2) (x.1.2 + x.2) l2 →
  chain_from i0 j0 (l1 ++ x :: l2).
Proof.
  revert i0 j0. induction l1 as [|[[i j] k] l1 IH]; intros i0 j0; simpl.
  - destruct x as [[i j] k]. simpl. tauto.
  - intros (Hi & Hj & Hc) H2. split; [done|]. split; [done|]. by apply IH.
Qed.

(** Dropping an empty block from a chain. *)
Lemma chain_from_drop_empty (i0 j0 i1 j1 : nat) (l1 l2 : list Difflib.block) :
  chain_from i0 j0 (l1 ++ (i1, j1, 0) :: l2) → chain_from i0 j0 (l1 ++ l2).
Proof.
  revert i0 j0. induction l1 as [|[[i j] k] l1 IH]; intros i0 j0; simpl.
  - intros (Hi & Hj & Hc). rewrite !Nat.add_0_r in Hc.
    by apply (chain_from_weaken i1 j1).
  - intros (Hi & Hj & Hc). split; [done|]. split; [done|]. by apply IH.
Qed.

Lemma merge_adjacent_chain (i0 j0 i1 j1 k1 : nat)
    (blocks na tail : list Difflib.block) :
  chain_from i0 j0 (na ++ (i1, j1, k1) :: blocks ++ tail) →
  chain_from i0 j0 (Difflib.merge_adjacent i1 j1 k1 blocks na ++ tail).
Proof.
  revert i1 j1 k1 na.
  induction blocks as [|[[i2 j2] k2] blocks IH]; intros i1 j1 k1 na Hc; simpl.
  - destruct (Nat.eqb_spec k1 0) as [->|Hk].
    + by apply chain_from_drop_empty in Hc.
    + by rewrite <- app_assoc.
  - destruct (Nat.eqb_spec (i1 + k1) i2) as [Hi|Hi],
             (Nat.eqb_spec (j1 + k1) j2) as [Hj|Hj]; simpl.
    1: { apply IH.
         apply chain_from_app in Hc as [H1 H2]. simpl in H2.
         destruct H2 as (_ & _ & H2).
         assert (H1' : chain_from i0 j0 (na ++ [(i1, j1, k1 + k2)])).
         { clear -H1. revert i0 j0 H1.
           induction na as [|[[i j] k] na IHn]; intros i0 j0; simpl; [tauto|].
           intros (? & ? & ?). split; [done|]. split; [done|]. by apply IHn. }
         apply (chain_from_join _ _ _ _ _ H1'). simpl.
         by replace (i1 + (k1 + k2)) with (i2 + k2) by lia;
            replace (j1 + (k1 + k2)) with (j2 + k2) by lia. }
    all: destruct (Nat.eqb_spec k1 0) as [->|Hk];
      [ apply IH; by apply chain_from_drop_empty in Hc
      | apply IH; by rewrite <- app_assoc ].
Qed.

Section Chain.

Variables a b : list string.

Lemma get_matching_blocks_chain (blocks : list Difflib.block) :
  Difflib.get_matching_blocks a b = Some blocks → chain_from 0 0 blocks.
Proof.
  unfold Difflib.get_matching_blocks.
  destruct (Difflib.matching_loop a b _ _ _) as [mb|] eqn:Hloop; [|done].
  intros [= <-].
  apply (matching_loop_inv a b) in Hloop as (Hap & _ & Hin).
  2: { split; [|split].
       - simpl. split; [done|]. done.
       - apply Forall_singleton. unfold Inv.whole. simpl. lia.
       - done. }
  rewrite app_nil_l in Hap.
  pose proof (merge_sort_Permutation Difflib.block_le mb) as Hperm.
  apply (merge_adjacent_chain 0 0 0 0 0 _ []). simpl.
  split; [done|]. split; [done|].
  apply sorted_chain; try lia.
  - apply StronglySorted_merge_sort; apply _.
  - apply (all_apart_Permutation (block_rect <$> mb)); [|done].
    by rewrite Hperm.
  - by rewrite Hperm.
  - apply Forall_forall. intros [[i j] k] _. simpl. lia.
Qed.

End Chain.

(** ** The opcodes follow one another *)

Lemma opcodes_loop_acc (i j : nat) (blocks : list Difflib.block)
    (answer : list Difflib.opcode) :
  Difflib.opcodes_loop i j blocks answer
  = answer ++ Difflib.opcodes_loop i j blocks [].
Proof.
  revert i j answer. induction blocks as [|[[ai bj] size] blocks IH];
    intros i j answer; simpl.
  - by rewrite app_nil_r.
  - rewrite IH. symmetry. rewrite IH. symmetry.
    destruct ((i <? ai) && (j <? bj)), (i <? ai), (j <? bj), (size =? 0);
      by rewrite <- ?app_assoc.
Qed.

Lemma opcodes_loop_linked (i j : nat) (blocks : list Difflib.block) :
  chain_from i j blocks → op_linked i j (Difflib.opcodes_loop i j blocks []).
Proof.
  revert i j. induction blocks as [|[[ai bj] size] blocks IH]; intros i j; simpl.
  - done.
  - intros (Hi & Hj & Hc). specialize (IH _ _ Hc).
    rewrite opcodes_loop_acc.
    destruct (Nat.ltb_spec i ai), (Nat.ltb_spec j bj),
      (Nat.eqb_spec size 0) as [->|Hs]; simpl;
      rewrite ?Nat.add_0_r in *; repeat split; try lia; try done.
    all: by replace i with ai by lia; replace j with bj by lia.
Qed.

Lemma op_linked_app (i0 j0 : nat) (l1 l2 : list Difflib.opcode) :
  op_linked i0 j0 (l1 ++ l2) →
  op_linked i0 j0 l1 ∧ ∃ i1 j1, op_linked i1 j1 l2.
Proof.
  revert i0 j0. induction l1 as [|[[[[tg i1] i2] j1] j2] l1 IH]; intros i0 j0; simpl.
  - intros H. split; [done|]. by exists i0, j0.
  - intros (-> & -> & Hi & Hj & H). destruct (IH _ _ H) as [H1 H2].
    by repeat split.
Qed.

(** The last opcode of linked opcodes may end earlier. *)
Lemma op_linked_trim (i0 j0 : nat) (l : list Difflib.opcode) (tg : Difflib.tag)
    (i1 i2 i2' j1 j2 j2' : nat) (rest : list Difflib.opcode) :
  op_linked i0 j0 (l ++ (tg, i1, i2, j1, j2) :: rest) →
  i1 ≤ i2' → j1 ≤ j2' →
  op_linked i0 j0 (l ++ [(tg, i1, i2', j1, j2')]).
Proof.
  revert i0 j0. induction l as [|[[[[tg0 a1] a2] b1] b2] l IH]; intros i0 j0; simpl.
  - intros (-> & -> & _ & _ & _) ? ?. by repeat split.
  - intros (-> & -> & ? & ? & H) ? ?. repeat split; try done. by apply IH.
Qed.

Lemma fix_first_linked (n i0 j0 : nat) (codes : list Difflib.opcode) :
  op_linked i0 j0 codes → ∃ i0' j0', op_linked i0' j0' (Difflib.fix_first n codes).
Proof.
  destruct codes as [|[[[[tg i1] i2] j1] j2] codes]; simpl.
  - intros _. by exists 0, 0.
  - intros (-> & -> & Hi & Hj & H). destruct tg;
      try (exists i0, j0; by repeat split).
    exists (max i0 (i2 - n)), (max j0 (j2 - n)). simpl. repeat split; try lia; done.
Qed.

Lemma fix_last_linked (n i0 j0 : nat) (codes : list Difflib.opcode) :
  op_linked i0 j0 codes → op_linked i0 j0 (Difflib.fix_last n codes).
Proof.
  revert i0 j0.
  induction codes as [|[[[[tg i1] i2] j1] j2] codes IH]; intros i0 j0; [done|].
  intros (-> & -> & Hi & Hj & H).
  destruct codes as [|c codes].
  - destruct tg; simpl; repeat split; try lia; done.
  - specialize (IH _ _ H).
    change (Difflib.fix_last n ((tg, i0, i2, j0, j2) :: c :: codes))
      with (match tg with
            | Difflib.equal => (tg, i0, i2, j0, j2) :: Difflib.fix_last n (c :: codes)
            | _ => (tg, i0, i2, j0, j2) :: Difflib.fix_last n (c :: codes)
            end).
    destruct tg; simpl; by repeat split.
Qed.

Lemma group_loop_ok (n i0 j0 : nat) (codes group : list Difflib.opcode) :
  op_linked i0 j0 (group ++ codes) →
  Forall group_ok (Difflib.group_loop n codes group).
Proof.
  revert i0 j0 group.
  induction codes as [|[[[[tg i1] i2] j1] j2] codes IH]; intros i0 j0 group H.
  - rewrite app_nil_r in H. simpl.
    destruct group as [|[[[[tg i1] i2] j1] j2] group]; [done|].
    assert (Hg : group_ok ((tg, i1, i2, j1, j2) :: group)).
    { split; [done|]. by exists i0, j0. }
    destruct tg; try (by apply Forall_singleton).
    destruct group; [done | by apply Forall_singleton].
  - simpl. destruct (Difflib.is_equal tg && (n + n <? i2 - i1)) eqn:Hc.
    + apply op_linked_app in H as Hsplit. destruct Hsplit as [_ (i1' & j1' & Hs)].
      simpl in Hs. destruct Hs as (-> & -> & Hi & Hj & Hs).
      apply Forall_cons. split.
      * split; [by destruct group|]. exists i0, j0.
        apply (op_linked_trim _ _ _ _ _ _ _ _ _ _ _ H); lia.
      * apply (IH (max i1' (i2 - n)) (max j1' (j2 - n))). simpl.
        repeat split; try lia. done.
    + apply (IH i0 j0). by rewrite <- app_assoc.
Qed.

Section Groups.

Variables a b : list string.

Lemma get_grouped_opcodes_ok (n : nat) (groups : list (list Difflib.opcode)) :
  Difflib.get_grouped_opcodes a b n = Some groups → Forall group_ok groups.
Proof.
  unfold Difflib.get_grouped_opcodes, Difflib.get_opcodes.
  destruct (Difflib.get_matching_blocks a b) as [blocks|] eqn:Hb; [|done].
  simpl. intros [= <-].
  pose proof (opcodes_loop_linked 0 0 blocks (get_matching_blocks_chain a b blocks Hb))
    as Hl.
  set (codes := match Difflib.opcodes_loop 0 0 blocks [] with
                | [] => [(Difflib.equal, 0, 1, 0, 1)]
                | _ => Difflib.opcodes_loop 0 0 blocks []
                end).
  assert (Hcodes : op_linked 0 0 codes).
  { unfold codes. destruct (Difflib.opcodes_loop 0 0 blocks []); [|done].
    simpl. lia. }
  destruct (fix_first_linked n 0 0 codes Hcodes) as (i0 & j0 & Hf).
  apply (group_loop_ok n i0 j0 _ []). simpl.
  by apply fix_last_linked.
Qed.

End Groups.

(** ** The hunk headers *)

Lemma linked_last (i0 j0 : nat) (c : Difflib.opcode) (rest : list Difflib.opcode) :
  op_linked i0 j0 (c :: rest) →
  ∃ tg i1 i2 j1 j2, last (c :: rest) = Some (tg, i1, i2, j1, j2)
                    ∧ i0 ≤ i2 ∧ j0 ≤ j2.
Proof.
  revert i0 j0 c. induction rest as [|c' rest IH]; intros i0 j0 c.
  - destruct c as [[[[tg i1] i2] j1] j2]. simpl.
    intros (-> & -> & ? & ? & _). by exists tg, i0, i2, j0, j2.
  - destruct c as [[[[tg i1] i2] j1] j2].
    intros (-> & -> & ? & ? & H).
    destruct (IH _ _ _ H) as (tg' & a1 & a2 & b1 & b2 & Hl & ? & ?).
    exists tg', a1, a2, b1, b2. split; [|lia].
    by rewrite last_cons, Hl.
Qed.

Lemma is_decimal_str (z : Z) :
  (0 ≤ z)%Z → Spec.is_decimal (Py.str_of_int z) = true.
Proof.
  intros Hz. destruct (str_of_int_nonneg z Hz) as (d & -> & Hd & _).
  pose proof (string_of_uint_digits d) as Hdig.
  unfold Spec.is_decimal. destruct (NilEmpty.string_of_uint d) eqn:E; [|done].
  by destruct d.
Qed.

Lemma str_no_sep (sep : ascii) (z : Z) :
  differs " " sep = false ∨ differs "," sep = false →
  Py.all_chars (differs sep) (Py.str_of_int z) = true.
Proof.
  intros Hsep. apply (all_chars_impl numeric_char); [|apply str_of_int_numeric].
  intros c Hc. destruct (numeric_char_facts c Hc) as [H1 H2].
  unfold differs in *. destruct Hsep as [Hsep|Hsep];
    apply negb_false_iff, ascii_eqb_true in Hsep; by subst sep.
Qed.

Lemma format_range_shape (start stop : Z) :
  (0 ≤ start ≤ stop)%Z →
  ∃ x, range_shape (Difflib._format_range_unified start stop) x
       ∧ ((start < stop)%Z → x = (start + 1)%Z).
Proof.
  intros H. unfold Difflib._format_range_unified, range_shape.
  destruct (Z.eqb_spec (stop - start) 1).
  - exists (start + 1)%Z. split; [split; [lia | by left] | done].
  - destruct (Z.eqb_spec (stop - start) 0).
    + exists (start + 1 - 1)%Z. split; [|lia]. split; [lia|]. right.
      exists (stop - start)%Z. split; [lia | done].
    + exists (start + 1)%Z. split; [|done]. split; [lia|]. right.
      exists (stop - start)%Z. split; [lia | done].
Qed.

Lemma range_no_space (r : string) (x : Z) :
  range_shape r x → Py.all_chars (differs " ") r = true.
Proof.
  intros [_ [->|(y & _ & ->)]].
  - apply str_no_sep. by left.
  - rewrite all_chars_app. simpl.
    rewrite !str_no_sep by by left. done.
Qed.

(** A header line is read back by [parse_line_number]. *)
Lemma header_line (r1 r2 : string) (x1 x2 : Z) :
  range_shape r1 x1 → range_shape r2 x2 →
  let line := "@@ -" +:+ r1 +:+ " +" +:+ r2 +:+ " @@" +:+ "" in
  Py.startswith line "@@" = true
  ∧ Py.split " " line = ["@@"; "-" +:+ r1; "+" +:+ r2; "@@"]
  ∧ Spec.plus_int_form ("+" +:+ r2) = true
  ∧ Hook.parse_line_number line = Ok x2.
Proof.
  intros H1 H2 line.
  assert (Hsplit : Py.split " " line = ["@@"; "-" +:+ r1; "+" +:+ r2; "@@"]).
  { change line with
      ("@@" +:+ String " " (("-" +:+ r1) +:+ String " "
                             (("+" +:+ r2) +:+ String " " "@@"))).
    rewrite split_app_sep by done.
    rewrite split_app_sep.
    2: { rewrite all_chars_app, (range_no_space r1 x1 H1). done. }
    rewrite split_app_sep.
    2: { rewrite all_chars_app, (range_no_space r2 x2 H2). done. }
    by rewrite split_no_sep. }
  assert (Hcomma : Spec.before_comma ("+" +:+ r2) = "+" +:+ Py.str_of_int x2
                   ∧ Spec.plus_int_form ("+" +:+ r2) = true).
  { unfold Spec.before_comma. destruct H2 as [Hx2 [->|(y & Hy & ->)]].
    - assert (Hs : ∀ s, Py.all_chars (differs ",") s = true → Py.split "," s = [s]).
      { intros s. apply split_no_sep. }
      split.
      + rewrite Hs; [done|]. rewrite all_chars_app, str_no_sep by by right. done.
      + unfold Spec.plus_int_form. rewrite append_cons, append_nil_l.
        rewrite Hs by (apply str_no_sep; by right). by apply is_decimal_str.
    - split.
      + rewrite <- append_assoc, split_app_sep; [done|].
        rewrite all_chars_app, str_no_sep by by right. done.
      + unfold Spec.plus_int_form. rewrite append_cons, append_nil_l.
        rewrite split_app_sep by (apply str_no_sep; by right).
        rewrite split_no_sep by (apply str_no_sep; by right).
        by rewrite !is_decimal_str. }
  destruct Hcomma as [Hc Hf].
  split; [done|]. split; [done|]. split; [done|].
  rewrite (parse_line_number_four line _ _ _ _ eq_refl Hsplit), Hc.
  apply int_plus_str. by destruct H2.
Qed.

Lemma marked_line_ok (c : ascii) (l : list string) :
  Ascii.eqb "@" c = false →
  Forall header_ok ((λ line, String c EmptyString +:+ line) <$> l).
Proof.
  intros Hc. apply Forall_fmap, Forall_forall. intros line _ H.
  rewrite append_cons, startswith_cons, Hc in H. done.
Qed.

Lemma opcode_lines_ok (a b : list string) (c : Difflib.opcode) :
  Forall header_ok (Difflib.opcode_lines a b c).
Proof.
  destruct c as [[[[tg i1] i2] j1] j2]. destruct tg; simpl;
    rewrite ?Forall_app; repeat split; by apply marked_line_ok.
Qed.

Lemma group_lines_ok (a b : list string) (group : list Difflib.opcode) :
  group_ok group → Forall header_ok (Difflib.group_lines a b "" group).
Proof.
  intros [Hne (i0 & j0 & Hl)].
  destruct group as [|c rest]; [done|].
  destruct (linked_last i0 j0 c rest Hl) as (tg' & a1 & a2 & b1 & b2 & Hlast & Hi & Hj).
  destruct c as [[[[tg i1] i2] j1] j2].
  assert (Hij : i1 = i0 ∧ j1 = j0) by (simpl in Hl; tauto).
  destruct Hij as [-> ->].
  unfold Difflib.group_lines. rewrite Hlast. cbn [head default].
  apply Forall_cons. split.
  - intros _.
    destruct (format_range_shape (Z.of_nat i0) (Z.of_nat a2)) as (x1 & H1 & _); [lia|].
    destruct (format_range_shape (Z.of_nat j0) (Z.of_nat b2)) as (x2 & H2 & _); [lia|].
    destruct (header_line _ _ _ _ H1 H2) as (_ & Hs & Hf & Hp).
    by eexists _, _, _.
  - apply Forall_concat, Forall_fmap, Forall_forall.
    intros c _. apply opcode_lines_ok.
Qed.

Lemma unified_diff_lines_ok (a b : list string) (n : nat) (diff_result : list string) :
  Difflib.unified_diff a b n "" = Some diff_result → Forall header_ok diff_result.
Proof.
  unfold Difflib.unified_diff.
  destruct (Difflib.get_grouped_opcodes a b n) as [groups|] eqn:Hg; [|done].
  apply get_grouped_opcodes_ok in Hg. simpl.
  destruct groups as [|g groups]; intros [= <-]; [done|].
  apply Forall_cons. split; [done|]. apply Forall_cons. split; [done|].
  change (Forall header_ok (concat (Difflib.group_lines a b "" <$> (g :: groups)))).
  apply Forall_concat, Forall_fmap.
  eapply Forall_impl; [exact Hg|]. intros g'. apply group_lines_ok.
Qed.

Lemma scan_total (filename : string) (diff_result : list string) :
  Forall header_ok diff_result → ∃ errors, Hook.scan filename diff_result = Ok errors.
Proof.
  intros Hd. unfold Hook.scan.
  assert (H : ∀ st, ∃ st', for_each (Hook.body filename) st diff_result = Ok st').
  { induction Hd as [|line lines Hline _ IH]; intros st; simpl; [by eexists|].
    assert (Hb : ∃ st', Hook.body filename st line = Ok st').
    { unfold Hook.body. destruct (Py.startswith line "@@") eqn:Hh.
      - destruct (Hline Hh) as (t1 & t2 & n & _ & _ & ->). simpl.
        destruct (_ || _); by eexists.
      - simpl. destruct (_ || _); by eexists. }
    destruct Hb as [st' ->]. simpl. apply IH. }
  destruct (H (Hook.State 1 [])) as [st' ->]. by eexists.
Qed.

(** ** The added lines of a diff without context *)

Lemma opcodes_loop_wf (i j : nat) (blocks : list Difflib.block) :
  chain_from i j blocks → Forall op_wf (Difflib.opcodes_loop i j blocks []).
Proof.
  revert i j. induction blocks as [|[[ai bj] size] blocks IH]; intros i j; simpl.
  - done.
  - intros (Hi & Hj & Hc). specialize (IH _ _ Hc).
    rewrite opcodes_loop_acc. apply Forall_app. split; [|done].
    destruct (Nat.ltb_spec i ai), (Nat.ltb_spec j bj),
      (Nat.eqb_spec size 0) as [->|Hs]; simpl;
      repeat (apply Forall_cons; split; [simpl; lia|]); done.
Qed.

Lemma fix_first_wf (n : nat) (codes : list Difflib.opcode) :
  Forall op_wf codes → Forall op_wf (Difflib.fix_first n codes).
Proof.
  destruct codes as [|[[[[tg i1] i2] j1] j2] codes]; [done|].
  intros [Hc Hcs]%Forall_cons. destruct tg; simpl;
    apply Forall_cons; (split; [|done]); simpl in *; lia.
Qed.

Lemma fix_last_wf (n : nat) (codes : list Difflib.opcode) :
  Forall op_wf codes → Forall op_wf (Difflib.fix_last n codes).
Proof.
  induction codes as [|[[[[tg i1] i2] j1] j2] codes IH]; [done|].
  intros [Hc Hcs]%Forall_cons. destruct codes as [|c codes].
  - destruct tg; simpl; apply Forall_singleton; simpl in *; lia.
  - specialize (IH Hcs).
    change (Difflib.fix_last n ((tg, i1, i2, j1, j2) :: c :: codes))
      with (match tg with
            | Difflib.equal => (tg, i1, i2, j1, j2) :: Difflib.fix_last n (c :: codes)
            | _ => (tg, i1, i2, j1, j2) :: Difflib.fix_last n (c :: codes)
            end).
    destruct tg; by apply Forall_cons.
Qed.

Lemma group_loop_bare (codes group : list Difflib.opcode) :
  Forall op_wf codes → Forall op_bare group →
  Forall (Forall op_bare) (Difflib.group_loop 0 codes group).
Proof.
  revert group.
  induction codes as [|[[[[tg i1] i2] j1] j2] codes IH]; intros group Hc Hg.
  - simpl. destruct group as [|[[[[tg i1] i2] j1] j2] group]; [done|].
    destruct tg; try (by apply Forall_singleton).
    destruct group; [done | by apply Forall_singleton].
  - apply Forall_cons in Hc as [Hc Hcs]. simpl.
    destruct (Difflib.is_equal tg && (0 <? i2 - i1)) eqn:Hcond.
    + apply andb_true_iff in Hcond as [Htg _]. destruct tg; try done.
      simpl in Hc. apply Forall_cons. split.
      * apply Forall_app. split; [done|]. apply Forall_singleton. simpl. lia.
      * apply IH; [done|]. apply Forall_singleton. simpl. lia.
    + apply IH; [done|]. apply Forall_app. split; [done|].
      apply Forall_singleton. destruct tg; simpl in *; try lia.
      destruct (Nat.ltb_spec 0 (i2 - i1)); [done | lia].
Qed.

Section Bare.

Variables a b : list string.

Lemma get_grouped_opcodes_bare (groups : list (list Difflib.opcode)) :
  Difflib.get_grouped_opcodes a b 0 = Some groups → Forall (Forall op_bare) groups.
Proof.
  unfold Difflib.get_grouped_opcodes, Difflib.get_opcodes.
  destruct (Difflib.get_matching_blocks a b) as [blocks|] eqn:Hb; [|done].
  simpl. intros [= <-].
  pose proof (opcodes_loop_wf 0 0 blocks (get_matching_blocks_chain a b blocks Hb))
    as Hw.
  apply group_loop_bare; [|done]. apply fix_last_wf, fix_first_wf.
  destruct (Difflib.opcodes_loop 0 0 blocks []); [|done].
  apply Forall_singleton. simpl. lia.
Qed.

End Bare.

Lemma plus_texts_app (l1 l2 : list string) :
  plus_texts (l1 ++ l2) = plus_texts l1 ++ plus_texts l2.
Proof. unfold plus_texts. by rewrite List.filter_app, fmap_app. Qed.

Lemma plus_texts_marked (c : ascii) (l : list string) :
  plus_texts ((λ line, String c EmptyString +:+ line) <$> l)
  = if Ascii.eqb "+" c then l else [].
Proof.
  unfold plus_texts. induction l as [|x l IH].
  - by destruct (Ascii.eqb "+" c).
  - rewrite fmap_cons. cbn [List.filter].
    rewrite append_cons, startswith_cons.
    change (Py.startswith (EmptyString +:+ x) EmptyString) with true.
    destruct (Ascii.eqb "+" c) eqn:Hc; cbn [andb].
    + rewrite fmap_cons, IH. done.
    + by rewrite IH.
Qed.

Lemma slice_app (l : list string) (j0 j1 j2 : nat) :
  j0 ≤ j1 → j1 ≤ j2 →
  Difflib.slice l j0 j1 ++ Difflib.slice l j1 j2 = Difflib.slice l j0 j2.
Proof.
  intros H1 H2. unfold Difflib.slice.
  replace (drop j1 l) with (drop (j1 - j0) (drop j0 l)).
  - rewrite take_take_drop. f_equal. lia.
  - rewrite drop_drop. f_equal. lia.
Qed.

Lemma slice_nil (l : list string) (j : nat) : Difflib.slice l j j = [].
Proof. unfold Difflib.slice. by rewrite Nat.sub_diag. Qed.

Lemma slice_lookup (l : list string) (j1 j2 m : nat) (x : string) :
  Difflib.slice l j1 j2 !! m = Some x → l !! (j1 + m) = Some x ∧ j1 + m < j2.
Proof.
  unfold Difflib.slice. rewrite lookup_take_Some, lookup_drop.
  intros [? ?]. split; [done | lia].
Qed.

Lemma group_end_cons (j0 : nat) (tg : Difflib.tag) (i1 i2 j1 j2 : nat)
    (rest : list Difflib.opcode) :
  group_end j0 ((tg, i1, i2, j1, j2) :: rest) = group_end j2 rest.
Proof.
  unfold group_end. destruct rest as [|c rest]; [done|].
  rewrite last_cons. by destruct (last (c :: rest)) eqn:E.
Qed.

Lemma elem_of_concat {A : Type} (x : A) (ls : list (list A)) :
  x ∈ concat ls ↔ ∃ l, l ∈ ls ∧ x ∈ l.
Proof.
  induction ls as [|l ls IH]; simpl.
  - split; [by intros ?%elem_of_nil | by intros (? & ?%elem_of_nil & _)].
  - rewrite elem_of_app, IH. split.
    + intros [H|(l' & H1 & H2)].
      * exists l. split; [by left | done].
      * exists l'. split; [by right | done].
    + intros (l' & [->|H1]%elem_of_cons & H2); [by left|].
      right. by exists l'.
Qed.


Section TruePositions.

Variables a b : list string.

Lemma plus_texts_opcode (c : Difflib.opcode) :
  op_bare c →
  plus_texts (Difflib.opcode_lines a b c) = Difflib.slice b c.1.2 c.2.
Proof.
  destruct c as [[[[tg i1] i2] j1] j2]. simpl. intros [Hj Ht].
  destruct tg; rewrite ?plus_texts_app, !plus_texts_marked; simpl.
  - done.
  - subst. by rewrite slice_nil.
  - done.
  - destruct Ht as [_ ->]. by rewrite slice_nil.
Qed.

Lemma plus_texts_group (i0 j0 : nat) (group : list Difflib.opcode) :
  op_linked i0 j0 group → Forall op_bare group →
  j0 ≤ group_end j0 group
  ∧ plus_texts (concat (Difflib.opcode_lines a b <$> group))
    = Difflib.slice b j0 (group_end j0 group).
Proof.
  revert i0 j0.
  induction group as [|[[[[tg i1] i2] j1] j2] group IH]; intros i0 j0 Hl Hb.
  - unfold group_end. simpl. split; [done|]. by rewrite slice_nil.
  - destruct Hl as (-> & -> & Hi & Hj & Hl).
    apply Forall_cons in Hb as [Hc Hb].
    destruct (IH _ _ Hl Hb) as [Hle Hrest].
    rewrite group_end_cons. split; [lia|].
    rewrite fmap_cons, concat_cons, plus_texts_app, Hrest.
    rewrite (plus_texts_opcode _ Hc). simpl. by apply slice_app.
Qed.

Lemma opcode_lines_body (c : Difflib.opcode) :
  Forall (λ line, Py.startswith line "@@" = false) (Difflib.opcode_lines a b c).
Proof.
  assert (H : ∀ (ch : ascii) (l : list string), Ascii.eqb "@" ch = false →
            Forall (λ line, Py.startswith line "@@" = false)
              ((λ line, String ch EmptyString +:+ line) <$> l)).
  { intros ch l Hc. apply Forall_fmap, Forall_forall. intros line _.
    unfold compose. by rewrite append_cons, startswith_cons, Hc. }
  destruct c as [[[[tg i1] i2] j1] j2]. destruct tg; simpl;
    rewrite ?Forall_app; repeat split; by apply H.
Qed.


End TruePositions.

(** ** Attributed lines are lines of the second sequence *)

Lemma elem_of_filter_bool {A : Type} (p : A → bool) (l : list A) (x : A) :
  x ∈ List.filter p l ↔ x ∈ l ∧ p x = true.
Proof. rewrite !list_elem_of_In. apply List.filter_In. Qed.


Lemma slice_subseteq (l : list string) (j0 j1 : nat) (x : string) :
  x ∈ Difflib.slice l j0 j1 → x ∈ l.
Proof.
  intros (m & Hm)%list_elem_of_lookup. apply slice_lookup in Hm as [Hm _].
  apply list_elem_of_lookup. by eexists.
Qed.



Section EndToEnd.

Variables a b : list string.




End EndToEnd.

(** ** What the hook reports *)

Lemma elem_of_report (filename : string) (pairs : list (Z * string)) (e : string) :
  e ∈ Spec.report filename pairs →
  ∃ n text, (n, text) ∈ pairs ∧ Hook.has_marker text = true
            ∧ e = Hook.message filename n.
Proof.
  induction pairs as [|[n text] pairs IH]; simpl.
  - by intros ?%elem_of_nil.
  - destruct (Hook.has_marker text) eqn:Hm.
    + intros [->|H]%elem_of_cons.
      * exists n, text. split; [by left | done].
      * destruct (IH H) as (n' & text' & Hin & Hm' & ->).
        exists n', text'. split; [by right | done].
    + intros H. destruct (IH H) as (n' & text' & Hin & Hm' & ->).
      exists n', text'. split; [by right | done].
Qed.


(** * Further properties *)

(** ** Headers: what [parse_line_number] reads *)

Lemma split_length (sep : ascii) (s : string) :
  length (Py.split sep s) = S (Further.count_char sep s).
Proof.
  induction s as [|c s IH]; [done|]. simpl.
  destruct (Ascii.eqb c sep); simpl; [by rewrite IH|].
  destruct (Py.split sep s); simpl in *; done.
Qed.

Lemma numeric_not_int_space (c : ascii) :
  numeric_char c = true → Py.int_space c = false.
Proof. destruct c as [[] [] [] [] [] [] [] []]; vm_compute; done. Qed.

Lemma int_digit_first (c : ascii) (s : string) :
  Py.is_digit c = true →
  Py.all_chars Py.is_digit s = true →
  Py.int (String c s)
  = match Py.int_literal (String c s) with
    | Some z => Ok z
    | None => Raise (ValueError "invalid literal for int() with base 10")
    end.
Proof.
  intros Hc Hs. unfold Py.int.
  assert (Hn : Py.all_chars (λ c, negb (Py.int_space c)) (String c s) = true).
  { apply (all_chars_impl Py.is_digit).
    - intros d Hd. by destruct (digit_char_facts d Hd) as [-> _].
    - simpl. by rewrite Hc. }
  rewrite lstrip_with_none by done. rewrite rstrip_with_none by done.
  destruct c as [[] [] [] [] [] [] [] []]; try done.
Qed.

(** [int] reads back what [str] prints. *)
Lemma int_str (z : Z) : Py.int (Py.str_of_int z) = Ok z.
Proof.
  destruct (Z.le_gt_cases 0 z) as [Hz|Hz].
  - destruct (str_of_int_nonneg z Hz) as (d & -> & Hd & <-).
    pose proof (string_of_uint_digits d) as Hdig.
    pose proof (int_literal_digits d Hd) as Hlit.
    destruct (NilEmpty.string_of_uint d) as [|c s] eqn:E; [by destruct d|].
    simpl in Hdig. apply andb_prop in Hdig as [Hc Hs].
    by rewrite int_digit_first, Hlit.
  - destruct z as [|p|p]; try lia.
    unfold Py.str_of_int. simpl.
    pose proof (DecimalPos.Unsigned.to_uint_nonnil p) as Hn.
    replace (NilZero.string_of_uint (Pos.to_uint p))
      with (NilEmpty.string_of_uint (Pos.to_uint p))
      by (by destruct (Pos.to_uint p)).
    unfold Py.int.
    assert (Hs : Py.all_chars (λ c, negb (Py.int_space c))
                   (String "-" (NilEmpty.string_of_uint (Pos.to_uint p))) = true).
    { simpl. apply (all_chars_impl Py.is_digit); [|apply string_of_uint_digits].
      intros c Hc. by destruct (digit_char_facts c Hc) as [-> _]. }
    rewrite lstrip_with_none by done. rewrite rstrip_with_none by done.
    rewrite int_literal_digits by done. simpl.
    unfold Z.of_uint. by rewrite DecimalPos.Unsigned.of_to.
Qed.

Lemma str_of_int_inj (x y : Z) : Py.str_of_int x = Py.str_of_int y → x = y.
Proof.
  intros H. pose proof (int_str x) as Hx. rewrite H, int_str in Hx. by injection Hx.
Qed.

(** X1: [parse_line_number] reads back any integer that [str] prints as the
    third token of a header, a negative one too; the second token may be
    any text without a space. *)
Theorem parse_line_number_reads_str (old : string) (z : Z) :
  Py.all_chars (differs " ") old = true →
  Hook.parse_line_number ("@@ " +:+ old +:+ " " +:+ Py.str_of_int z +:+ " @@") = Ok z.
Proof.
  intros Hold.
  set (line := "@@ " +:+ old +:+ " " +:+ Py.str_of_int z +:+ " @@").
  assert (Hsplit : Py.split " " line = ["@@"; old; Py.str_of_int z; "@@"]).
  { change line with
      ("@@" +:+ String " " (old +:+ String " " (Py.str_of_int z +:+ String " " "@@"))).
    rewrite split_app_sep by done.
    rewrite split_app_sep by done.
    rewrite split_app_sep by (apply str_no_sep; by left).
    by rewrite split_no_sep. }
  rewrite (parse_line_number_four line _ _ _ _ eq_refl Hsplit).
  unfold Spec.before_comma.
  rewrite split_no_sep by (apply str_no_sep; by right).
  apply int_str.
Qed.

(** X1 at the header ["@@ -3,2 -7 @@"]. *)
Lemma parse_line_number_reads_str_witness :
  Hook.parse_line_number ("@@ " +:+ "-3,2" +:+ " " +:+ Py.str_of_int (-7) +:+ " @@")
  = Ok (-7)%Z.
Proof. apply (parse_line_number_reads_str "-3,2" (-7)). reflexivity. Defined.

Lemma format_no_space (start stop : Z) :
  Py.all_chars (differs " ") (Difflib._format_range_unified start stop) = true.
Proof.
  unfold Difflib._format_range_unified.
  destruct (stop - start =? 1)%Z; [apply str_no_sep; by left|].
  rewrite !all_chars_app. rewrite !str_no_sep by by left. done.
Qed.

(** X2: [parse_line_number] reads the header that the diff engine formats
    for the ranges [a[i1:i2]] and [b[j1:j2]]: it returns [j1 + 1], the
    number of the first line of the range in [b], and [j1] when the range
    in [b] is empty. *)
Theorem parse_line_number_of_format (i1 i2 j1 j2 : Z) :
  (0 ≤ j1)%Z →
  Hook.parse_line_number
    ("@@ -" +:+ Difflib._format_range_unified i1 i2
     +:+ " +" +:+ Difflib._format_range_unified j1 j2 +:+ " @@")
  = Ok (if (j2 - j1 =? 0)%Z then j1 else (j1 + 1)%Z).
Proof.
  intros Hj.
  set (r1 := Difflib._format_range_unified i1 i2).
  set (r2 := Difflib._format_range_unified j1 j2).
  set (line := "@@ -" +:+ r1 +:+ " +" +:+ r2 +:+ " @@").
  assert (Hsplit : Py.split " " line = ["@@"; "-" +:+ r1; "+" +:+ r2; "@@"]).
  { change line with
      ("@@" +:+ String " " (("-" +:+ r1) +:+ String " "
                             (("+" +:+ r2) +:+ String " " "@@"))).
    rewrite split_app_sep by done.
    rewrite split_app_sep by (rewrite all_chars_app; unfold r1;
                              by rewrite format_no_space).
    rewrite split_app_sep by (rewrite all_chars_app; unfold r2;
                              by rewrite format_no_space).
    by rewrite split_no_sep. }
  rewrite (parse_line_number_four line _ _ _ _ eq_refl Hsplit).
  unfold Spec.before_comma, r2, Difflib._format_range_unified.
  assert (Hs : ∀ z, Py.all_chars (differs ",") ("+" +:+ Py.str_of_int z) = true).
  { intros z. rewrite all_chars_app, str_no_sep by by right. done. }
  destruct (Z.eqb_spec (j2 - j1) 1) as [H1|H1].
  - rewrite split_no_sep by apply Hs. simpl head. simpl default.
    destruct (Z.eqb_spec (j2 - j1) 0); [lia|]. apply int_plus_str. lia.
  - rewrite <- append_assoc.
    change ("," +:+ Py.str_of_int (j2 - j1))
      with (String "," (Py.str_of_int (j2 - j1))).
    rewrite (split_app_sep "," ("+" +:+ Py.str_of_int _)) by apply Hs.
    simpl head. simpl default.
    destruct (Z.eqb_spec (j2 - j1) 0).
    + replace (j1 + 1 - 1)%Z with j1 by lia. by apply int_plus_str.
    + apply int_plus_str. lia.
Qed.

(** X2 at the ranges [a[14:14]] and [b[19:22]], the header
    ["@@ -14,0 +20,3 @@"]. *)
Lemma parse_line_number_of_format_witness :
  Hook.parse_line_number
    ("@@ -" +:+ Difflib._format_range_unified 14 14
     +:+ " +" +:+ Difflib._format_range_unified 19 22 +:+ " @@")
  = Ok (if (22 - 19 =? 0)%Z then 19%Z else (19 + 1)%Z).
Proof. apply (parse_line_number_of_format 14 14 19 22). lia. Defined.

(** X3: a line that [parse_line_number] reads starts with ["@@"] and holds
    exactly three spaces; so a header followed by a section heading, as
    [git diff] prints it, is refused. *)
Theorem parse_line_number_three_spaces (line : string) (n : Z) :
  Hook.parse_line_number line = Ok n →
  Py.startswith line "@@" = true ∧ Further.count_char " " line = 3.
Proof.
  unfold Hook.parse_line_number.
  destruct (Py.startswith line "@@"); simpl; [|done].
  destruct (Nat.eqb_spec (length (Py.split " " line)) 4) as [H4|]; simpl; [|done].
  intros _. split; [done|]. rewrite split_length in H4. lia.
Qed.

(** X3 at the header ["@@ -1 +2 @@"]. *)
Lemma parse_line_number_three_spaces_witness :
  Py.startswith "@@ -1 +2 @@" "@@" = true
  ∧ Further.count_char " " "@@ -1 +2 @@" = 3.
Proof. apply (parse_line_number_three_spaces "@@ -1 +2 @@" 2). reflexivity. Defined.

(** ** The hunks of a diff follow one another *)

Lemma group_end_snoc (j0 : nat) (group : list Difflib.opcode) (c : Difflib.opcode) :
  group_end j0 (group ++ [c]) = c.2.
Proof.
  unfold group_end. rewrite last_snoc. by destruct c as [[[[tg i1] i2] j1] j2].
Qed.

Lemma group_loop_from (i0 j0 j : nat) (codes group : list Difflib.opcode) :
  op_linked i0 j0 (group ++ codes) → j ≤ j0 →
  Further.groups_from j (Difflib.group_loop 0 codes group).
Proof.
  revert i0 j0 j group.
  induction codes as [|[[[[tg i1] i2] j1] j2] codes IH]; intros i0 j0 j group H Hj.
  - rewrite app_nil_r in H. simpl.
    destruct group as [|[[[[tg i1] i2] j1] j2] group]; [done|].
    assert (Hg : Further.groups_from j [(tg, i1, i2, j1, j2) :: group]).
    { split; [done|]. by exists i0, j0. }
    destruct tg; try done. by destruct group.
  - cbn [Difflib.group_loop].
    destruct (Difflib.is_equal tg && (0 + 0 <? i2 - i1)) eqn:Hc.
    + apply op_linked_app in H as Hsplit. destruct Hsplit as [_ (i1' & j1' & Hs)].
      simpl in Hs. destruct Hs as (-> & -> & Hi & Hj' & Hs).
      split; [by destruct group|]. exists i0, j0. split; [done|]. split.
      * apply (op_linked_trim _ _ _ _ _ _ _ _ _ _ _ H); lia.
      * rewrite group_end_snoc. cbn [snd].
        apply (IH (max i1' (i2 - 0)) (max j1' (j2 - 0))); [|lia].
        simpl. repeat split; try lia. done.
    + apply (IH i0 j0); [|done]. by rewrite <- app_assoc.
Qed.

Section Follow.

Variables a b : list string.

Lemma get_grouped_opcodes_from (groups : list (list Difflib.opcode)) :
  Difflib.get_grouped_opcodes a b 0 = Some groups → Further.groups_from 0 groups.
Proof.
  unfold Difflib.get_grouped_opcodes, Difflib.get_opcodes.
  destruct (Difflib.get_matching_blocks a b) as [blocks|] eqn:Hb; [|done].
  simpl. intros [= <-].
  pose proof (opcodes_loop_linked 0 0 blocks (get_matching_blocks_chain a b blocks Hb))
    as Hl.
  set (codes := match Difflib.opcodes_loop 0 0 blocks [] with
                | [] => [(Difflib.equal, 0, 1, 0, 1)]
                | _ => Difflib.opcodes_loop 0 0 blocks []
                end).
  assert (Hcodes : op_linked 0 0 codes).
  { unfold codes. destruct (Difflib.opcodes_loop 0 0 blocks []); [|done].
    simpl. lia. }
  destruct (fix_first_linked 0 0 0 codes Hcodes) as (i0 & j0 & Hf).
  apply (group_loop_from i0 j0 0 _ []); [|lia]. simpl.
  by apply fix_last_linked.
Qed.

Lemma group_hunk_at (i0 j0 : nat) (group : list Difflib.opcode) :
  group ≠ [] → op_linked i0 j0 group → Forall op_bare group →
  ∃ h, Spec.hunk_lines h = Difflib.group_lines a b "" group
       ∧ Spec.hunk_ok h
       ∧ j0 ≤ group_end j0 group
       ∧ Spec.additions h = Difflib.slice b j0 (group_end j0 group)
       ∧ (j0 < group_end j0 group → Spec.new_start h = Z.of_nat (j0 + 1)).
Proof.
  intros Hne Hl Hb.
  destruct (plus_texts_group a b i0 j0 group Hl Hb) as [Hle Hplus].
  destruct group as [|c rest]; [done|].
  destruct (linked_last i0 j0 c rest Hl) as (tg' & a1 & a2 & b1 & b2 & Hlast & Hi & Hj).
  destruct c as [[[[tg i1] i2] j1] j2].
  assert (Hij : i1 = i0 ∧ j1 = j0) by (simpl in Hl; tauto).
  destruct Hij as [-> ->].
  unfold group_end in *. rewrite Hlast in *.
  unfold Difflib.group_lines. rewrite Hlast. cbn [head default].
  destruct (format_range_shape (Z.of_nat i0) (Z.of_nat a2)) as (x1 & H1 & _); [lia|].
  destruct (format_range_shape (Z.of_nat j0) (Z.of_nat b2)) as (x2 & H2 & Hx2); [lia|].
  destruct (header_line _ _ _ _ H1 H2) as (Hh & _ & _ & Hp).
  eexists (Spec.Hunk _ _). split; [reflexivity|]. split; [|split; [done|split]].
  - split; [exact Hh|]. split; [by eexists|]. cbn [Spec.lines].
    apply Forall_concat, Forall_fmap, Forall_forall.
    intros c _. apply opcode_lines_body.
  - exact Hplus.
  - intros Hlt. unfold Spec.new_start. simpl. rewrite Hp. rewrite Hx2; lia.
Qed.

Lemma groups_hunks_from (j : nat) (groups : list (list Difflib.opcode)) :
  Further.groups_from j groups → Forall (Forall op_bare) groups →
  ∃ hunks, concat (Spec.hunk_lines <$> hunks)
           = concat (Difflib.group_lines a b "" <$> groups)
           ∧ Forall Spec.hunk_ok hunks
           ∧ Further.hunks_from b j hunks
           ∧ Forall2 (Further.hunk_for b) groups hunks.
Proof.
  revert j. induction groups as [|g groups IH]; intros j Hg Hb.
  - exists []. repeat split; constructor.
  - apply Forall_cons in Hb as [Hgb Hb].
    destruct Hg as (Hne & i0 & j0 & Hj & Hl & Hg).
    destruct (IH _ Hg Hb) as (hunks & Hlines & Hok & Hof & Hfor).
    destruct (group_hunk_at i0 j0 g Hne Hl Hgb) as (h & Hh & Hhok & Hle & Hadd & Hstart).
    exists (h :: hunks). rewrite !fmap_cons, !concat_cons, Hlines, Hh.
    split; [done|]. split; [by apply Forall_cons|]. split.
    + by exists j0, (group_end j0 g).
    + constructor; [|done]. by exists i0, j0.
Qed.

(** The diff from [a] to [b], group by group and hunk by hunk. *)
Lemma diff_structure :
  ∃ groups hunks,
    Difflib.get_grouped_opcodes a b 0 = Some groups
    ∧ Difflib.unified_diff a b 0 ""
      = Some (match groups with
              | [] => []
              | _ => "--- " :: "+++ " :: concat (Spec.hunk_lines <$> hunks)
              end)
    ∧ Forall Spec.hunk_ok hunks
    ∧ Further.hunks_from b 0 hunks
    ∧ Forall2 (Further.hunk_for b) groups hunks.
Proof.
  destruct (unified_diff_total a b 0 "") as [diff_result Hd].
  unfold Difflib.unified_diff in *.
  destruct (Difflib.get_grouped_opcodes a b 0) as [groups|] eqn:Hg; [|done].
  pose proof (get_grouped_opcodes_from groups Hg) as Hfrom.
  pose proof (get_grouped_opcodes_bare a b groups Hg) as Hbare.
  destruct (groups_hunks_from 0 groups Hfrom Hbare)
    as (hunks & Hlines & Hhok & Hof & Hfor).
  exists groups, hunks. split; [done|]. split; [|done].
  cbn [mbind option_bind]. destruct groups as [|g groups]; [done|].
  by rewrite Hlines.
Qed.

End Follow.

(** ** What the loop attributes in a diff *)

Lemma attribute_counted (hunks : list Spec.hunk) (n : Z) (acc : list (Z * string)) :
  Forall Spec.hunk_ok hunks →
  ∃ n', for_each Hook.attribute_body (n, acc) (concat (Spec.hunk_lines <$> hunks))
        = Ok (n', acc ++ concat (Further.counted_pairs <$> hunks)).
Proof.
  intros Hok. revert n acc.
  induction Hok as [|h hunks (Hh & [m Hm] & Hl) _ IH]; intros n acc.
  - exists n. simpl. by rewrite app_nil_r.
  - rewrite !fmap_cons, !concat_cons. unfold Spec.hunk_lines at 1.
    simpl for_each.
    rewrite (attribute_body_header _ _ m Hh Hm). simpl bind.
    rewrite for_each_app, (attribute_hunk_lines _ _ _ Hl). simpl bind.
    destruct (IH (m + Z.of_nat (length (Spec.kept (Spec.lines h))))%Z
                 (acc ++ Spec.number_from m (Spec.kept (Spec.lines h))))
      as [n' ->].
    exists n'. rewrite <- app_assoc. do 3 f_equal.
    unfold Further.counted_pairs, Spec.new_start. by rewrite Hm.
Qed.

Lemma kept_sublist (lines : list string) :
  Spec.kept lines `sublist_of` plus_texts lines.
Proof.
  induction lines as [|line lines IH]; [constructor|].
  rewrite kept_cons. unfold plus_texts. cbn [List.filter].
  destruct (Py.startswith line "+"); [|done].
  destruct (Spec.skipped line); cbn [andb negb]; rewrite fmap_cons.
  - by apply sublist_cons.
  - by apply sublist_skip.
Qed.

Lemma number_from_fst (start : Z) (texts : list string) :
  StronglySorted Z.lt (Spec.number_from start texts).*1
  ∧ Forall (λ n, (start ≤ n < start + Z.of_nat (length texts))%Z)
      (Spec.number_from start texts).*1.
Proof.
  revert start. induction texts as [|text texts IH]; intros start.
  - split; constructor.
  - destruct (IH (start + 1)%Z) as [Hs Hb]. cbn [Spec.number_from].
    rewrite fmap_cons. cbn [fst]. split.
    + constructor; [done|]. eapply Forall_impl; [exact Hb|]. simpl. lia.
    + constructor; [simpl; lia|]. eapply Forall_impl; [exact Hb|]. simpl. lia.
Qed.

Lemma number_from_snd (start : Z) (texts : list string) :
  (Spec.number_from start texts).*2 = texts.
Proof.
  revert start. induction texts as [|text texts IH]; intros start; [done|].
  cbn [Spec.number_from]. by rewrite fmap_cons, IH.
Qed.

Lemma slice_length (l : list string) (j0 j1 : nat) :
  length (Difflib.slice l j0 j1) ≤ j1 - j0
  ∧ j0 + length (Difflib.slice l j0 j1) ≤ max j0 (length l).
Proof.
  unfold Difflib.slice. rewrite length_take, length_drop. lia.
Qed.

Lemma hunks_from_numbers (b : list string) (j : nat) (hunks : list Spec.hunk) :
  Further.hunks_from b j hunks →
  StronglySorted Z.lt (concat (Further.counted_pairs <$> hunks)).*1
  ∧ Forall (λ n, (Z.of_nat j < n ≤ Z.of_nat (length b))%Z)
      (concat (Further.counted_pairs <$> hunks)).*1.
Proof.
  revert j. induction hunks as [|h hunks IH]; intros j.
  - intros _. split; constructor.
  - intros (j0 & j1 & Hj & Hle & Hadd & Hstart & Hrest).
    destruct (IH j1 Hrest) as [Hs Hb].
    rewrite fmap_cons, concat_cons, fmap_app.
    destruct (number_from_fst (Spec.new_start h) (Spec.kept (Spec.lines h)))
      as [Hs1 Hb1].
    pose proof (sublist_length _ _ (kept_sublist (Spec.lines h))) as Hlen.
    change (plus_texts (Spec.lines h)) with (Spec.additions h) in Hlen.
    rewrite Hadd in Hlen.
    destruct (slice_length b j0 j1) as [Hl1 Hl2].
    assert (Hin : Forall (λ n, (Z.of_nat j < n ≤ Z.of_nat (length b))%Z
                               ∧ (n ≤ Z.of_nat j1)%Z)
                    (Further.counted_pairs h).*1).
    { eapply Forall_impl; [exact Hb1|]. simpl. intros n Hn.
      assert (Hlt : j0 < j1) by lia. specialize (Hstart Hlt). lia. }
    split.
    + apply StronglySorted_app_2; [|done|done].
      intros x1 x2 H1 H2. rewrite Forall_forall in Hin, Hb.
      specialize (Hin x1 H1). specialize (Hb x2 H2). lia.
    + apply Forall_app. split.
      * eapply Forall_impl; [exact Hin|]. simpl. lia.
      * eapply Forall_impl; [exact Hb|]. simpl. lia.
Qed.

Lemma hunks_from_texts (b : list string) (j : nat) (hunks : list Spec.hunk) :
  Further.hunks_from b j hunks →
  (concat (Further.counted_pairs <$> hunks)).*2 `sublist_of` drop j b.
Proof.
  revert j. induction hunks as [|h hunks IH]; intros j.
  - intros _. apply sublist_nil_l.
  - intros (j0 & j1 & Hj & Hle & Hadd & _ & Hrest).
    rewrite fmap_cons, concat_cons, fmap_app.
    unfold Further.counted_pairs at 1. rewrite number_from_snd.
    rewrite <- (take_drop (j0 - j) (drop j b)), drop_drop.
    replace (j + (j0 - j)) with j0 by lia.
    apply sublist_inserts_l.
    rewrite <- (take_drop (j1 - j0) (drop j0 b)), drop_drop.
    replace (j0 + (j1 - j0)) with j1 by lia.
    apply sublist_app; [|by apply IH].
    etrans; [apply kept_sublist|].
    change (plus_texts (Spec.lines h)) with (Spec.additions h). by rewrite Hadd.
Qed.

(** The lines attributed in the diff from [a] to [b]: their numbers grow
    strictly and lie in [b], and their texts are lines of [b] in the order
    of [b]. *)
Lemma attribute_diff (a b : list string) :
  ∃ diff_result pairs,
    Difflib.unified_diff a b 0 "" = Some diff_result
    ∧ Hook.attribute diff_result = Ok pairs
    ∧ StronglySorted Z.lt pairs.*1
    ∧ Forall (λ n, (1 ≤ n ≤ Z.of_nat (length b))%Z) pairs.*1
    ∧ pairs.*2 `sublist_of` b.
Proof.
  destruct (diff_structure a b) as (groups & hunks & _ & Hd & Hok & Hfrom & Hfor).
  destruct groups as [|g groups].
  { exists [], []. split; [done|]. split; [done|]. split; [constructor|].
    split; [constructor|]. apply sublist_nil_l. }
  exists ("--- " :: "+++ " :: concat (Spec.hunk_lines <$> hunks)),
         (concat (Further.counted_pairs <$> hunks)).
  destruct (hunks_from_numbers b 0 hunks Hfrom) as [Hs Hb].
  split; [done|]. split; [|split; [done|split]].
  - rewrite attribute_preamble.
    by destruct (attribute_counted hunks 1 [] Hok) as [n' ->].
  - eapply Forall_impl; [exact Hb|]. simpl. lia.
  - apply (hunks_from_texts b 0 hunks Hfrom).
Qed.

(** ** What [collect_errors] reports *)

Lemma report_marked (filename : string) (pairs : list (Z * string)) :
  Spec.report filename pairs = Hook.message filename <$> Further.marked pairs.
Proof.
  unfold Further.marked.
  induction pairs as [|[n text] pairs IH]; [done|]. cbn [Spec.report List.filter snd].
  destruct (Hook.has_marker text); [|done]. by rewrite !fmap_cons, IH.
Qed.

Lemma marked_sublist (pairs : list (Z * string)) :
  Further.marked pairs `sublist_of` pairs.*1.
Proof.
  unfold Further.marked.
  induction pairs as [|[n text] pairs IH]; [constructor|]. cbn [List.filter snd].
  destruct (Hook.has_marker text); rewrite !fmap_cons.
  - by apply sublist_skip.
  - by apply sublist_cons.
Qed.

Lemma report_length (filename : string) (pairs : list (Z * string)) :
  length (Spec.report filename pairs) = length (List.filter Hook.has_marker pairs.*2).
Proof.
  induction pairs as [|[n text] pairs IH]; [done|].
  rewrite fmap_cons. cbn [Spec.report List.filter snd].
  destruct (Hook.has_marker text); simpl; by rewrite IH.
Qed.

Lemma filter_sublist {A : Type} (p : A → bool) (l1 l2 : list A) :
  l1 `sublist_of` l2 → List.filter p l1 `sublist_of` List.filter p l2.
Proof.
  induction 1 as [|x l1 l2 _ IH|x l1 l2 _ IH]; [constructor| |];
    cbn [List.filter]; destruct (p x); try done.
  - by apply sublist_skip.
  - by apply sublist_cons.
Qed.

Lemma StronglySorted_sublist {A : Type} (R : relation A) (l1 l2 : list A) :
  l1 `sublist_of` l2 → StronglySorted R l2 → StronglySorted R l1.
Proof.
  induction 1 as [|x l1 l2 Hsub IH|x l1 l2 Hsub IH]; [done| |].
  - intros [Hx Hs]%StronglySorted_cons. apply StronglySorted_cons.
    split; [|by apply IH]. rewrite Forall_forall in *.
    intros y Hy. apply Hx. by eapply elem_of_sublist.
  - intros [_ Hs]%StronglySorted_cons. by apply IH.
Qed.

Lemma Forall_sublist {A : Type} (P : A → Prop) (l1 l2 : list A) :
  l1 `sublist_of` l2 → Forall P l2 → Forall P l1.
Proof.
  intros Hsub. rewrite !Forall_forall. intros H x Hx.
  apply H. by eapply elem_of_sublist.
Qed.

Lemma sorted_lt_NoDup (l : list Z) : StronglySorted Z.lt l → NoDup l.
Proof.
  induction l as [|x l IH]; [constructor|].
  intros [Hx Hs]%StronglySorted_cons. apply NoDup_cons. split; [|by apply IH].
  intros Hin. rewrite Forall_forall in Hx. specialize (Hx x Hin). lia.
Qed.

Lemma append_inv_l (s x y : string) : s +:+ x = s +:+ y → x = y.
Proof.
  induction s as [|c s IH]; [done|]. rewrite !append_cons. intros [= H]. by apply IH.
Qed.

Lemma message_inj (filename : string) (x y : Z) :
  Hook.message filename x = Hook.message filename y → x = y.
Proof.
  unfold Hook.message. intros H.
  do 3 apply append_inv_l in H. by apply str_of_int_inj.
Qed.

(** The lines [collect_errors] attributes, whatever the file name. *)
Lemma collect_errors_pairs (data_a data_b : string) :
  ∃ pairs,
    StronglySorted Z.lt pairs.*1
    ∧ Forall (λ n, (1 ≤ n ≤ Z.of_nat (length (Py.splitlines data_a)))%Z) pairs.*1
    ∧ pairs.*2 `sublist_of` Py.splitlines data_a
    ∧ ∀ filename,
        Hook.collect_errors filename data_a data_b = Ok (Spec.report filename pairs).
Proof.
  destruct (attribute_diff (Py.splitlines data_b) (Py.splitlines data_a))
    as (diff_result & pairs & Hd & Ha & Hs & Hb & Hsub).
  exists pairs. split; [done|]. split; [done|]. split; [done|].
  intros filename. unfold Hook.collect_errors. by rewrite Hd, scan_attribute, Ha.
Qed.

Lemma collect_errors_total (filename data_a data_b : string) :
  ∃ errors, Hook.collect_errors filename data_a data_b = Ok errors.
Proof.
  destruct (collect_errors_pairs data_a data_b) as (pairs & _ & _ & _ & H).
  by eexists.
Qed.

(** X4: the diagnostics of [collect_errors] carry line numbers that grow
    strictly and lie between 1 and the number of lines of [data_a]; the
    file name only fills the messages. *)
Theorem collect_errors_line_numbers (data_a data_b : string) :
  ∃ numbers,
    StronglySorted Z.lt numbers
    ∧ Forall (λ n, (1 ≤ n ≤ Z.of_nat (length (Py.splitlines data_a)))%Z) numbers
    ∧ ∀ filename,
        Hook.collect_errors filename data_a data_b
        = Ok (Hook.message filename <$> numbers).
Proof.
  destruct (collect_errors_pairs data_a data_b) as (pairs & Hs & Hb & _ & H).
  exists (Further.marked pairs).
  pose proof (marked_sublist pairs) as Hsub.
  split; [by eapply StronglySorted_sublist|].
  split; [by eapply Forall_sublist|].
  intros filename. by rewrite H, report_marked.
Qed.

(** X5: [collect_errors] never returns the same diagnostic twice. *)
Theorem collect_errors_no_duplicates (filename data_a data_b : string) :
  ∃ errors,
    Hook.collect_errors filename data_a data_b = Ok errors ∧ NoDup errors.
Proof.
  destruct (collect_errors_pairs data_a data_b) as (pairs & Hs & _ & _ & H).
  exists (Spec.report filename pairs). split; [done|].
  rewrite report_marked. apply NoDup_fmap_2_strong.
  - intros x y _ _. apply message_inj.
  - apply sorted_lt_NoDup. eapply StronglySorted_sublist; [apply marked_sublist|done].
Qed.

(** X6: [collect_errors] returns no more diagnostics than [data_a] has lines
    that hold the marker; none at all when [data_a] has no such line. *)
Theorem collect_errors_count (filename data_a data_b : string) :
  ∃ errors,
    Hook.collect_errors filename data_a data_b = Ok errors
    ∧ length errors ≤ length (List.filter Hook.has_marker (Py.splitlines data_a)).
Proof.
  destruct (collect_errors_pairs data_a data_b) as (pairs & _ & _ & Hsub & H).
  exists (Spec.report filename pairs). split; [done|].
  rewrite report_length. by apply sublist_length, filter_sublist.
Qed.

Lemma collect_errors_no_lines (filename data_a data_b : string) :
  Py.splitlines data_a = [] → Hook.collect_errors filename data_a data_b = Ok [].
Proof.
  intros Hnil.
  destruct (collect_errors_pairs data_a data_b) as (pairs & _ & _ & Hsub & H).
  rewrite H. rewrite Hnil in Hsub. apply sublist_nil_r in Hsub. by destruct pairs.
Qed.

(** X7: with the empty string as [data_a], [collect_errors] returns no
    diagnostic, whatever [data_b] is. *)
Theorem collect_errors_empty_original (filename data_b : string) :
  Hook.collect_errors filename "" data_b = Ok [].
Proof. by apply collect_errors_no_lines. Qed.

(** ** A text against the empty text *)

Lemma get_opcodes_from_nothing (b : list string) :
  Difflib.get_opcodes [] b
  = Some (match b with [] => [] | _ => [(Difflib.insert, 0, 0, 0, length b)] end).
Proof.
  unfold Difflib.get_opcodes, Difflib.get_matching_blocks, Difflib.matching_fuel.
  cbn.
  by destruct b.
Qed.

Lemma slice_all (l : list string) : Difflib.slice l 0 (length l) = l.
Proof. unfold Difflib.slice. by rewrite Nat.sub_0_r, drop_0, firstn_all. Qed.

Lemma unified_diff_from_nothing (x : string) (b : list string) :
  Difflib.unified_diff [] (x :: b) 0 ""
  = Some ("--- " :: "+++ "
          :: ("@@ -" +:+ Difflib._format_range_unified 0 0 +:+ " +"
              +:+ Difflib._format_range_unified 0 (Z.of_nat (length (x :: b)))
              +:+ " @@")
          :: (Spec.added <$> x :: b)).
Proof.
  unfold Difflib.unified_diff, Difflib.get_grouped_opcodes.
  rewrite get_opcodes_from_nothing.
  cbn [mbind option_bind Difflib.fix_first Difflib.fix_last Difflib.group_loop
       Difflib.is_equal andb fmap list_fmap concat Difflib.group_lines head last
       default Difflib.opcode_lines app].
  rewrite app_nil_r. unfold Difflib.group_lines.
  cbn [head last default Difflib.opcode_lines fmap list_fmap concat].
  rewrite slice_all, app_nil_r.
  reflexivity.
Qed.

Lemma attribute_from_nothing (b : list string) :
  ∃ diff_result,
    Difflib.unified_diff [] b 0 "" = Some diff_result
    ∧ Hook.attribute diff_result = Ok (Spec.number_from 1 (Further.counted b)).
Proof.
  destruct b as [|x b]; [by exists []|].
  eexists. split; [apply unified_diff_from_nothing|].
  rewrite attribute_preamble. cbn [for_each].
  rewrite (attribute_body_header _ _ 1%Z); [|done|].
  2: { destruct (format_range_shape 0 0) as (x1 & H1 & _); [lia|].
       destruct (format_range_shape 0 (Z.of_nat (length (x :: b))))
         as (x2 & H2 & Hx2); [lia|].
       destruct (header_line _ _ _ _ H1 H2) as (_ & _ & _ & Hp).
       rewrite Hx2 in Hp by (simpl; lia). exact Hp. }
  cbn [bind].
  rewrite attribute_hunk_lines.
  2: { apply Forall_fmap, Forall_forall. intros text _. apply added_not_header. }
  cbn [bind app snd]. by rewrite kept_added.
Qed.

(** X8: with the empty string as [data_b], [collect_errors] scans every line
    of [data_a]: it reports the lines that hold the marker, numbered by
    their place among the lines the loop counts (all but those that read
    ["++"] before trailing whitespace). *)
Theorem collect_errors_empty_new (filename data_a : string) :
  Hook.collect_errors filename data_a ""
  = Ok (Spec.report filename
          (Spec.number_from 1 (Further.counted (Py.splitlines data_a)))).
Proof.
  unfold Hook.collect_errors. change (Py.splitlines "") with (@nil string).
  destruct (attribute_from_nothing (Py.splitlines data_a)) as (d & -> & Ha).
  by rewrite scan_attribute, Ha.
Qed.

(** ** Line endings *)

Lemma splitlines_crlf (s : string) :
  Py.all_chars (differs "013") s = true →
  Py.splitlines (Further.crlf s) = Py.splitlines s.
Proof.
  induction s as [|c s IH]; [done|].
  intros [Hc Hs]%andb_prop. specialize (IH Hs).
  cbn [Further.crlf]. destruct (Ascii.eqb c "010") eqn:Hlf.
  - apply ascii_eqb_true in Hlf as ->.
    change (Py.splitlines (String "013" (String "010" (Further.crlf s))))
      with ("" :: Py.splitlines (Further.crlf s)).
    rewrite IH. by destruct s.
  - cbn [Py.splitlines]. rewrite IH.
    destruct (Py.is_linebreak c) eqn:Hbr; [|done].
    assert (H13 : (Py.ord c =? 13) = false).
    { unfold differs in Hc. apply negb_true_iff in Hc.
      destruct c as [[] [] [] [] [] [] [] []]; done. }
    rewrite H13. cbn [andb].
    destruct s as [|d s]; [done|].
    cbn [Further.crlf]. destruct (Ascii.eqb d "010"); by rewrite <- IH.
Qed.

Lemma collect_errors_same_lines (filename data_a data_b : string) :
  Py.splitlines data_a = Py.splitlines data_b →
  Hook.collect_errors filename data_a data_b = Ok [].
Proof.
  intros H. unfold Hook.collect_errors. by rewrite H, unified_diff_same.
Qed.

(** X9: in a text without carriage returns, turning every line feed into a
    carriage return and a line feed changes nothing of what
    [collect_errors] returns, on either side; and against the text itself
    nothing is reported. *)
Theorem collect_errors_line_endings (filename data_a data_b : string) :
  Py.all_chars (differs "013") data_a = true →
  Hook.collect_errors filename (Further.crlf data_a) data_b
  = Hook.collect_errors filename data_a data_b
  ∧ Hook.collect_errors filename data_b (Further.crlf data_a)
    = Hook.collect_errors filename data_b data_a
  ∧ Hook.collect_errors filename (Further.crlf data_a) data_a = Ok []
  ∧ Hook.collect_errors filename data_a (Further.crlf data_a) = Ok [].
Proof.
  intros H. apply splitlines_crlf in H.
  split; [|split; [|split]].
  - unfold Hook.collect_errors. by rewrite H.
  - unfold Hook.collect_errors. by rewrite H.
  - by apply collect_errors_same_lines.
  - by apply collect_errors_same_lines.
Qed.

(** X9 at the text of two lines ["a"] and ["# xxx"]. *)
Lemma collect_errors_line_endings_witness :
  Hook.collect_errors "f" (Further.crlf ("a" +:+ nl +:+ "# xxx" +:+ nl)) ""
  = Hook.collect_errors "f" ("a" +:+ nl +:+ "# xxx" +:+ nl) ""
  ∧ Hook.collect_errors "f" "" (Further.crlf ("a" +:+ nl +:+ "# xxx" +:+ nl))
    = Hook.collect_errors "f" "" ("a" +:+ nl +:+ "# xxx" +:+ nl)
  ∧ Hook.collect_errors "f" (Further.crlf ("a" +:+ nl +:+ "# xxx" +:+ nl))
      ("a" +:+ nl +:+ "# xxx" +:+ nl) = Ok []
  ∧ Hook.collect_errors "f" ("a" +:+ nl +:+ "# xxx" +:+ nl)
      (Further.crlf ("a" +:+ nl +:+ "# xxx" +:+ nl)) = Ok [].
Proof.
  apply (collect_errors_line_endings "f" ("a" +:+ nl +:+ "# xxx" +:+ nl) "").
  reflexivity.
Defined.

(** ** The loop of [main] *)

Lemma main_body_checked (errors : list string) (diff : Hook.Diff) :
  Hook.main_body errors diff
  = if Further.checked diff
    then (found ←! Further.entry_errors diff; Ok (errors ++ found))
    else Ok errors.
Proof.
  unfold Hook.main_body, Further.checked, Further.entry_errors.
  by destruct (_ || _).
Qed.

Lemma main_loop (diff_result : list Hook.Diff) (errors : list string) :
  ∃ founds,
    Forall2 (λ diff found, Further.entry_errors diff = Ok found)
      (List.filter Further.checked diff_result) founds
    ∧ for_each Hook.main_body errors diff_result = Ok (errors ++ concat founds).
Proof.
  revert errors. induction diff_result as [|diff diff_result IH]; intros errors.
  - exists []. split; [constructor|]. simpl. by rewrite app_nil_r.
  - cbn [for_each List.filter]. rewrite main_body_checked.
    destruct (Further.checked diff) eqn:Hc.
    + destruct (collect_errors_total (default "" (Hook.b_path diff))
                  (Hook.read_blob (Hook.a_blob diff))
                  (Hook.read_blob (Hook.b_blob diff))) as [found Hf].
      change (Further.entry_errors diff = Ok found) in Hf. rewrite Hf. cbn [bind].
      destruct (IH (errors ++ found)) as (founds & HF & ->).
      exists (found :: founds). split; [by constructor|].
      by rewrite concat_cons, app_assoc.
    + cbn [bind]. apply IH.
Qed.

Lemma main_no_b_blob (diff_result : list Hook.Diff) :
  Forall (λ diff, Hook.b_blob diff = None) diff_result →
  Hook.main diff_result = Ok ([], 0%Z).
Proof.
  intros Hall. unfold Hook.main.
  assert (Hloop : for_each Hook.main_body [] diff_result = Ok []); [|by rewrite Hloop].
  induction Hall as [|diff diff_result Hb _ IH]; [done|].
  cbn [for_each]. rewrite main_body_checked. unfold Further.checked.
  rewrite Hb. rewrite (bool_decide_eq_false_2 (is_Some None)) by by intros [? ?].
  by rewrite orb_true_r.
Qed.


(** X11: when the [a_blob] of every entry is missing or holds data that is
    no UTF-8 text, [read_blob] gives the empty string for it and [main]
    prints nothing and returns 0. *)
Theorem main_unreadable_original (diff_result : list Hook.Diff) :
  Forall (λ diff, Hook.a_blob diff = None
                  ∨ ∃ bl, Hook.a_blob diff = Some bl ∧ Hook.decoded bl = None)
    diff_result →
  Hook.main diff_result = Ok ([], 0%Z).
Proof.
  intros Hall.
  destruct (main_loop diff_result []) as (founds & HF & Hm).
  unfold Hook.main. rewrite Hm. cbn [bind app].
  assert (Hnil : concat founds = []); [|by rewrite Hnil].
  assert (Hin : Forall (λ diff, Hook.read_blob (Hook.a_blob diff) = "")
                  (List.filter Further.checked diff_result)).
  { apply Forall_forall. intros diff [Hd _]%elem_of_filter_bool.
    rewrite Forall_forall in Hall.
    destruct (Hall diff Hd) as [->|(bl & -> & Hdec)]; [done|].
    simpl. by rewrite Hdec. }
  clear Hm Hall. induction HF as [|diff found ds founds Hf _ IH]; [done|].
  apply Forall_cons in Hin as [Ha Hin].
  unfold Further.entry_errors in Hf.
  rewrite Ha, collect_errors_no_lines in Hf by done. injection Hf as <-.
  rewrite concat_cons. by apply IH.
Qed.

(** X11 at an entry without [a_blob] and an entry whose [a_blob] is
    binary, both with a marker in [b_blob]. *)
Lemma main_unreadable_original_witness :
  Hook.main [ {| Hook.a_blob := None;
                 Hook.b_blob := blob "b" "# xxx";
                 Hook.b_path := Some "new.py" |};
              {| Hook.a_blob := Further.binary_blob "a";
                 Hook.b_blob := blob "b" "# xxx";
                 Hook.b_path := Some "data.bin" |} ]
  = Ok ([], 0%Z).
Proof.
  apply main_unreadable_original.
  apply Forall_cons. split; [by left|].
  apply Forall_cons. split; [|constructor].
  right. eexists. split; reflexivity.
Defined.

(** X12: every line [main] prints is the message of [collect_errors] for
    the [b_path] of an entry it did not pass over, with a line number
    between 1 and the number of lines of what [read_blob] gives for the
    [a_blob] of that entry. *)
Theorem main_prints_paths (diff_result : list Hook.Diff) :
  ∃ printed code,
    Hook.main diff_result = Ok (printed, code)
    ∧ ∀ e, e ∈ printed →
           ∃ diff n,
             diff ∈ diff_result
             ∧ Further.checked diff = true
             ∧ (1 ≤ n ≤ Z.of_nat (length (Py.splitlines
                                            (Hook.read_blob (Hook.a_blob diff)))))%Z
             ∧ e = Hook.message (default "" (Hook.b_path diff)) n.
Proof.
  destruct (main_loop diff_result []) as (founds & HF & Hm).
  exists (concat founds), (if bool_decide (concat founds = []) then 0%Z else 1%Z).
  split.
  { unfold Hook.main. rewrite Hm. cbn [bind app]. by destruct (concat founds). }
  intros e (found & Hfound & He)%elem_of_concat.
  apply list_elem_of_lookup in Hfound as [i Hi].
  destruct (Forall2_lookup_r _ _ _ _ _ HF Hi) as (diff & Hdiff & Hf).
  apply list_elem_of_lookup_2, elem_of_filter_bool in Hdiff as [Hd Hc].
  destruct (collect_errors_pairs (Hook.read_blob (Hook.a_blob diff))
              (Hook.read_blob (Hook.b_blob diff))) as (pairs & _ & Hb & _ & Hn).
  unfold Further.entry_errors in Hf. rewrite Hn in Hf. injection Hf as <-.
  apply elem_of_report in He as (n & text & Hin & _ & ->).
  rewrite Forall_forall in Hb. exists diff, n. split; [done|]. split; [done|].
  split; [|done]. apply Hb. apply list_elem_of_fmap. by exists (n, text).
Qed.

(** ** The matching blocks pair equal lines *)

Section Matches.

Variables a b : list string.

#[local] Abbreviation matches := (Further.matches a b).
#[local] Abbreviation row_matches := (Further.row_matches a b).

Lemma candidates_match (i j : nat) :
  j ∈ Difflib.candidates a b i → ∃ e, a !! i = Some e ∧ b !! j = Some e.
Proof.
  unfold Difflib.candidates. destruct (a !! i) as [x|]; [|by intros ?%elem_of_nil].
  rewrite b2j_default. destruct (Inv.popular b x); [by intros ?%elem_of_nil|].
  intros [_ Hj]%elem_of_positions. rewrite Nat.sub_0_r in Hj. by exists x.
Qed.

Lemma j2lenget_pred_match (i j : nat) (j2len : gmap nat nat) :
  row_matches i j2len →
  Difflib.j2lenget_pred j2len j ≤ i
  ∧ Difflib.j2lenget_pred j2len j ≤ j
  ∧ matches (i - Difflib.j2lenget_pred j2len j,
             j - Difflib.j2lenget_pred j2len j,
             Difflib.j2lenget_pred j2len j).
Proof.
  intros Hrow. destruct j as [|j]; simpl.
  - split; [lia|]. split; [lia|]. intros m Hm. lia.
  - destruct (j2len !! j) as [k|] eqn:Hk; simpl.
    + destruct (Hrow j k Hk) as (H1 & H2 & H3).
      split; [done|]. split; [lia|].
      by replace (S j - k) with (j + 1 - k) by lia.
    + split; [lia|]. split; [lia|]. intros m Hm. lia.
Qed.

Lemma match_grow (i j k : nat) :
  k ≤ i → k ≤ j →
  matches (i - k, j - k, k) →
  (∃ e, a !! i = Some e ∧ b !! j = Some e) →
  matches (i + 1 - (k + 1), j + 1 - (k + 1), k + 1).
Proof.
  intros Hi Hj Hm He m Hlt.
  replace (i + 1 - (k + 1)) with (i - k) by lia.
  replace (j + 1 - (k + 1)) with (j - k) by lia.
  destruct (decide (m < k)) as [Hmk|Hmk]; [by apply Hm|].
  replace m with k by lia.
  replace (i - k + k) with i by lia. by replace (j - k + k) with j by lia.
Qed.

Lemma scan_row_matches (i blo bhi : nat) (j2len : gmap nat nat) (js : list nat)
    (newj2len : gmap nat nat) (best : Difflib.block) :
  (∀ j, j ∈ js → ∃ e, a !! i = Some e ∧ b !! j = Some e) →
  row_matches i j2len → row_matches (i + 1) newj2len → matches best →
  row_matches (i + 1) (Difflib.scan_row i blo bhi j2len js newj2len best).1
  ∧ matches (Difflib.scan_row i blo bhi j2len js newj2len best).2.
Proof.
  intros Hjs Hrow. revert newj2len best Hjs.
  induction js as [|j js IH]; intros newj2len best Hjs Hnew Hbest; simpl; [done|].
  assert (Hjs' : ∀ j', j' ∈ js → ∃ e, a !! i = Some e ∧ b !! j' = Some e).
  { intros j' Hj'. apply Hjs. by right. }
  destruct (j <? blo); [by apply IH|].
  destruct (bhi <=? j); [done|].
  destruct (j2lenget_pred_match i j j2len Hrow) as (H1 & H2 & H3).
  assert (He : ∃ e, a !! i = Some e ∧ b !! j = Some e) by (apply Hjs; by left).
  pose proof (match_grow i j _ H1 H2 H3 He) as Hg.
  apply IH; [done| |].
  - intros j' k'. rewrite lookup_insert.
    destruct (decide (j = j')) as [<-|]; simpl; [|apply Hnew].
    intros [= <-]. split; [lia|]. split; [lia|]. exact Hg.
  - destruct best as [[bi bj] bs]. cbn [snd].
    by destruct (bs <? Difflib.j2lenget_pred j2len j + 1).
Qed.

Lemma scan_rows_matches (n i blo bhi : nat) (j2len : gmap nat nat)
    (best : Difflib.block) :
  row_matches i j2len → matches best →
  matches (Difflib.scan_rows a b (seq i n) blo bhi j2len best).
Proof.
  revert i j2len best. induction n as [|n IH]; intros i j2len best Hrow Hbest.
  - done.
  - simpl.
    destruct (scan_row_matches i blo bhi j2len (Difflib.candidates a b i) ∅ best)
      as [Hrow' Hbest']; [apply candidates_match | done | | done |].
    { intros j k. by rewrite lookup_empty. }
    destruct (Difflib.scan_row _ _ _ _ _ _ _) as [new best'].
    apply IH; [|done]. by replace (S i) with (i + 1) by lia.
Qed.

Lemma same_at_match (p : string → bool) (i j : nat) :
  Difflib.same_at a b p i j = true → ∃ e, a !! i = Some e ∧ b !! j = Some e.
Proof.
  unfold Difflib.same_at. destruct (a !! i) as [x|], (b !! j) as [y|]; try done.
  intros [_ ->%bool_decide_eq_true]%andb_prop. by exists y.
Qed.

Lemma extend_left_matches (p : string → bool) (alo blo bi bj bs : nat) :
  matches (bi, bj, bs) → matches (Difflib.extend_left a b p alo blo bi bj bs).
Proof.
  revert bj bs. induction bi as [|bi IH]; intros bj bs Hm; simpl; [done|].
  destruct bj as [|bj]; [done|].
  destruct (_ && _ && _) eqn:Hc; [|done].
  apply andb_true_iff in Hc as [_ He%same_at_match].
  apply IH. intros [|m] Hlt.
  - by rewrite !Nat.add_0_r.
  - replace (bi + S m) with (S bi + m) by lia.
    replace (bj + S m) with (S bj + m) by lia. apply Hm. lia.
Qed.

Lemma extend_right_matches (p : string → bool) (ahi bhi bi bj steps bs : nat) :
  matches (bi, bj, bs) →
  matches (bi, bj, Difflib.extend_right a b p ahi bhi bi bj steps bs).
Proof.
  revert bs. induction steps as [|steps IH]; intros bs Hm; simpl; [done|].
  destruct (_ && _ && _) eqn:Hc; [|done].
  apply andb_true_iff in Hc as [_ He%same_at_match].
  apply IH. intros m Hlt.
  destruct (decide (m < bs)) as [Hmk|Hmk]; [by apply Hm|].
  by replace m with bs by lia.
Qed.

Lemma find_longest_match_matches (alo ahi blo bhi : nat) :
  matches (Difflib.find_longest_match a b alo ahi blo bhi).
Proof.
  unfold Difflib.find_longest_match.
  pose proof (scan_rows_matches (ahi - alo) alo blo bhi ∅ (alo, blo, 0)) as H0.
  destruct (Difflib.scan_rows a b _ blo bhi ∅ (alo, blo, 0)) as [[i0 j0] k0].
  assert (H1 : matches (i0, j0, k0)).
  { apply H0.
    - intros j k. by rewrite lookup_empty.
    - intros m Hm. lia. }
  clear H0.
  pose proof (extend_left_matches (λ y, negb (Difflib.isbjunk y)) alo blo i0 j0 k0 H1)
    as H2.
  destruct (Difflib.extend_left a b _ alo blo i0 j0 k0) as [[i1 j1] k1].
  pose proof (extend_right_matches (λ y, negb (Difflib.isbjunk y)) ahi bhi i1 j1
                (ahi - (i1 + k1)) k1 H2) as H3.
  set (k2 := Difflib.extend_right a b _ ahi bhi i1 j1 (ahi - (i1 + k1)) k1) in *.
  pose proof (extend_left_matches Difflib.isbjunk alo blo i1 j1 k2 H3) as H4.
  destruct (Difflib.extend_left a b Difflib.isbjunk alo blo i1 j1 k2) as [[i3 j3] k3].
  by apply extend_right_matches.
Qed.

Lemma matching_loop_matches (fuel : nat) (queue : list (nat * nat * nat * nat))
    (acc blocks : list Difflib.block) :
  Forall matches acc →
  Difflib.matching_loop a b fuel queue acc = Some blocks →
  Forall matches blocks.
Proof.
  revert queue acc. induction fuel as [|fuel IH]; intros queue acc Hacc.
  - destruct queue as [|[[[alo ahi] blo] bhi] queue]; simpl; [|done].
    by intros [= <-].
  - destruct queue as [|[[[alo ahi] blo] bhi] queue]; simpl; [by intros [= <-]|].
    pose proof (find_longest_match_matches alo ahi blo bhi) as Hm.
    destruct (Difflib.find_longest_match a b alo ahi blo bhi) as [[i j] k].
    destruct (k =? 0); [by apply IH|].
    apply IH. apply Forall_app. split; [done|]. by apply Forall_singleton.
Qed.

Lemma merge_adjacent_matches (i1 j1 k1 : nat) (blocks non_adjacent : list Difflib.block) :
  matches (i1, j1, k1) → Forall matches blocks → Forall matches non_adjacent →
  Forall matches (Difflib.merge_adjacent i1 j1 k1 blocks non_adjacent).
Proof.
  revert i1 j1 k1 non_adjacent.
  induction blocks as [|[[i2 j2] k2] blocks IH]; intros i1 j1 k1 non_adjacent H1 Hb Hn.
  - simpl. destruct (k1 =? 0); [done|].
    apply Forall_app. split; [done|]. by apply Forall_singleton.
  - apply Forall_cons in Hb as [H2 Hb]. simpl.
    destruct ((i1 + k1 =? i2) && (j1 + k1 =? j2)) eqn:Hadj.
    + apply andb_true_iff in Hadj as [Hi%Nat.eqb_eq Hj%Nat.eqb_eq].
      apply IH; [|done..]. intros m Hlt.
      destruct (decide (m < k1)) as [Hmk|Hmk]; [by apply H1|].
      replace (i1 + m) with (i2 + (m - k1)) by lia.
      replace (j1 + m) with (j2 + (m - k1)) by lia. apply H2. lia.
    + apply IH; [done..|]. destruct (k1 =? 0); [done|].
      apply Forall_app. split; [done|]. by apply Forall_singleton.
Qed.

Lemma get_matching_blocks_matches (blocks : list Difflib.block) :
  Difflib.get_matching_blocks a b = Some blocks → Forall matches blocks.
Proof.
  unfold Difflib.get_matching_blocks.
  destruct (Difflib.matching_loop a b _ _ _) as [mb|] eqn:Hloop; [|done].
  intros [= <-].
  apply matching_loop_matches in Hloop; [|done].
  apply Forall_app. split.
  - apply merge_adjacent_matches; [intros m Hm; lia | | done].
    by rewrite (merge_sort_Permutation Difflib.block_le mb).
  - apply Forall_singleton. intros m Hm. lia.
Qed.

End Matches.

(** ** Every line of [b] that is no line of [a] is added *)

Section Covered.

Variables a b : list string.

(** A line of [b] at or after [j] that is no line of [a] lies in the range
    of a replacement or of an insertion. *)
Lemma opcodes_loop_covers (i j : nat) (blocks : list Difflib.block)
    (jj : nat) (text : string) :
  chain_from i j blocks →
  Forall (Further.matches a b) blocks →
  (∃ i' k', last blocks = Some (i', length b, k')) →
  j ≤ jj → b !! jj = Some text → text ∉ a →
  ∃ tg i1 i2 j1 j2,
    (tg, i1, i2, j1, j2) ∈ Difflib.opcodes_loop i j blocks []
    ∧ (tg = Difflib.replace ∨ tg = Difflib.insert)
    ∧ j1 ≤ jj < j2.
Proof.
  intros Hch Hm Hlast Hj Hjj Hnot. revert i j Hch Hlast Hj.
  induction Hm as [|[[ai bj] size] blocks Hblk _ IH]; intros i j Hch Hlast Hj.
  { by destruct Hlast as (? & ? & ?). }
  destruct Hch as (Hi & Hjb & Hch). cbn [Difflib.opcodes_loop].
  rewrite opcodes_loop_acc.
  destruct (decide (jj < bj)) as [Hlt|Hge].
  - destruct (Nat.ltb_spec j bj); [|lia].
    destruct (Nat.ltb_spec i ai); cbn [andb app].
    + exists Difflib.replace, i, ai, j, bj. split; [|split; [by left | lia]].
      apply elem_of_app. left. destruct (size =? 0); simpl; by left.
    + exists Difflib.insert, i, ai, j, bj. split; [|split; [by right | lia]].
      apply elem_of_app. left. destruct (size =? 0); simpl; by left.
  - destruct (decide (jj < bj + size)) as [Hin|Hout].
    + exfalso. destruct (Hblk (jj - bj)) as (e & Ha & Hb); [lia|].
      replace (bj + (jj - bj)) with jj in Hb by lia.
      rewrite Hjj in Hb. injection Hb as <-.
      apply Hnot. by eapply list_elem_of_lookup_2.
    + destruct blocks as [|blk blocks].
      { destruct Hlast as (i' & k' & [= -> -> ->]).
        apply lookup_lt_Some in Hjj. lia. }
      destruct (IH (ai + size) (bj + size)) as (tg & i1 & i2 & j1 & j2 & Hc & Ht & Hr);
        [done | | lia |].
      { destruct Hlast as (i' & k' & Hl). by exists i', k'. }
      exists tg, i1, i2, j1, j2. split; [|done].
      apply elem_of_app. by right.
Qed.

Lemma get_opcodes_covers (codes : list Difflib.opcode) (jj : nat) (text : string) :
  Difflib.get_opcodes a b = Some codes →
  b !! jj = Some text → text ∉ a →
  ∃ tg i1 i2 j1 j2,
    (tg, i1, i2, j1, j2) ∈ codes
    ∧ (tg = Difflib.replace ∨ tg = Difflib.insert)
    ∧ j1 ≤ jj < j2.
Proof.
  unfold Difflib.get_opcodes.
  destruct (Difflib.get_matching_blocks a b) as [blocks|] eqn:Hb; [|done].
  simpl. intros [= <-] Hjj Hnot.
  apply (opcodes_loop_covers 0 0 blocks jj text); try done; try lia.
  - by apply (get_matching_blocks_chain a b).
  - by apply get_matching_blocks_matches.
  - unfold Difflib.get_matching_blocks in Hb.
    destruct (Difflib.matching_loop a b _ _ _) as [mb|]; [|done].
    injection Hb as <-. rewrite last_snoc. by eexists _, _.
Qed.

Lemma fix_first_keeps (n : nat) (codes : list Difflib.opcode) (c : Difflib.opcode) :
  c ∈ codes → Difflib.is_equal c.1.1.1.1 = false → c ∈ Difflib.fix_first n codes.
Proof.
  destruct codes as [|[[[[tg i1] i2] j1] j2] codes]; [done|].
  intros [->|Hin]%elem_of_cons Hne; simpl in *.
  - destruct tg; try done; by left.
  - destruct tg; by right.
Qed.

Lemma fix_last_keeps (n : nat) (codes : list Difflib.opcode) (c : Difflib.opcode) :
  c ∈ codes → Difflib.is_equal c.1.1.1.1 = false → c ∈ Difflib.fix_last n codes.
Proof.
  intros Hin Hne.
  induction codes as [|[[[[tg i1] i2] j1] j2] codes IH]; [done|].
  destruct codes as [|c' codes].
  - apply list_elem_of_singleton in Hin as ->. simpl in *.
    destruct tg; try done; by left.
  - change (Difflib.fix_last n ((tg, i1, i2, j1, j2) :: c' :: codes))
      with (match tg with
            | Difflib.equal => (tg, i1, i2, j1, j2) :: Difflib.fix_last n (c' :: codes)
            | _ => (tg, i1, i2, j1, j2) :: Difflib.fix_last n (c' :: codes)
            end).
    apply elem_of_cons in Hin as [->|Hin].
    + destruct tg; by left.
    + destruct tg; right; by apply IH.
Qed.

Lemma group_loop_keeps (n : nat) (codes group : list Difflib.opcode)
    (c : Difflib.opcode) :
  c ∈ group ++ codes → Difflib.is_equal c.1.1.1.1 = false →
  ∃ g, g ∈ Difflib.group_loop n codes group ∧ c ∈ g.
Proof.
  intros Hin Hne. revert group Hin.
  induction codes as [|[[[[tg i1] i2] j1] j2] codes IH]; intros group Hin.
  - rewrite app_nil_r in Hin. exists group. split; [|done]. simpl.
    destruct group as [|[[[[tg i1] i2] j1] j2] group]; [by apply elem_of_nil in Hin|].
    destruct tg; try by left.
    destruct group; [|by left].
    apply list_elem_of_singleton in Hin as ->. done.
  - cbn [Difflib.group_loop].
    destruct (Difflib.is_equal tg && (n + n <? i2 - i1)) eqn:Hc.
    + apply andb_true_iff in Hc as [Ht _].
      apply elem_of_app in Hin as [Hin|[->|Hin]%elem_of_cons].
      * eexists. split; [by left|]. apply elem_of_app. by left.
      * simpl in Hne. congruence.
      * destruct (IH [(tg, max i1 (i2 - n), i2, max j1 (j2 - n), j2)])
          as (g & Hg & Hcg); [by right|].
        exists g. split; [by right | done].
    + apply IH. rewrite <- app_assoc. done.
Qed.

Lemma get_grouped_opcodes_covers (groups : list (list Difflib.opcode))
    (jj : nat) (text : string) :
  Difflib.get_grouped_opcodes a b 0 = Some groups →
  b !! jj = Some text → text ∉ a →
  ∃ g tg i1 i2 j1 j2,
    g ∈ groups ∧ (tg, i1, i2, j1, j2) ∈ g
    ∧ (tg = Difflib.replace ∨ tg = Difflib.insert)
    ∧ j1 ≤ jj < j2.
Proof.
  unfold Difflib.get_grouped_opcodes.
  destruct (Difflib.get_opcodes a b) as [codes|] eqn:Hc; [|done].
  simpl. intros [= <-] Hjj Hnot.
  destruct (get_opcodes_covers codes jj text Hc Hjj Hnot)
    as (tg & i1 & i2 & j1 & j2 & Hin & Ht & Hr).
  assert (Hne : Difflib.is_equal (tg, i1, i2, j1, j2).1.1.1.1 = false).
  { by destruct Ht as [-> | ->]. }
  destruct codes as [|c codes]; [by apply elem_of_nil in Hin|].
  destruct (group_loop_keeps 0 (Difflib.fix_last 0 (Difflib.fix_first 0 (c :: codes)))
              [] (tg, i1, i2, j1, j2)) as (g & Hg & Hcg); [|done|].
  { cbn [app]. apply fix_last_keeps; [apply fix_first_keeps|]; done. }
  by exists g, tg, i1, i2, j1, j2.
Qed.

End Covered.

(** ** A new line that holds the marker is reported *)

Lemma group_end_ge (i0 j0 : nat) (group : list Difflib.opcode) :
  op_linked i0 j0 group → j0 ≤ group_end j0 group.
Proof.
  revert i0 j0. induction group as [|[[[[tg i1] i2] j1] j2] group IH]; intros i0 j0.
  - done.
  - intros (-> & -> & Hi & Hj & Hl). rewrite group_end_cons.
    specialize (IH _ _ Hl). lia.
Qed.

Lemma op_linked_range (i0 j0 : nat) (group : list Difflib.opcode)
    (tg : Difflib.tag) (i1 i2 j1 j2 : nat) :
  op_linked i0 j0 group → (tg, i1, i2, j1, j2) ∈ group →
  j0 ≤ j1 ∧ j2 ≤ group_end j0 group.
Proof.
  revert i0 j0.
  induction group as [|[[[[tg' i1'] i2'] j1'] j2'] group IH]; intros i0 j0.
  - by intros _ ?%elem_of_nil.
  - intros (-> & -> & Hi & Hj & Hl) Hin. rewrite group_end_cons.
    pose proof (group_end_ge _ _ _ Hl) as Hge.
    apply elem_of_cons in Hin as [[= -> -> -> -> ->]|Hin]; [lia|].
    specialize (IH _ _ Hl Hin). lia.
Qed.

Lemma slice_lookup_in (l : list string) (j0 j1 jj : nat) (x : string) :
  j0 ≤ jj < j1 → l !! jj = Some x → Difflib.slice l j0 j1 !! (jj - j0) = Some x.
Proof.
  intros Hr Hx. unfold Difflib.slice.
  rewrite lookup_take_lt by lia. rewrite lookup_drop.
  by replace (j0 + (jj - j0)) with jj by lia.
Qed.

Lemma kept_additions (lines : list string) :
  Spec.kept lines = Further.counted (plus_texts lines).
Proof.
  unfold Further.counted.
  induction lines as [|line lines IH]; [done|].
  rewrite kept_cons. unfold plus_texts. cbn [List.filter].
  destruct (Py.startswith line "+") eqn:Hp; [|done].
  rewrite fmap_cons. cbn [List.filter andb].
  rewrite (startswith_plus_inv line Hp) at 1.
  change (Spec.added (Hook.tail_of line)) with (String "+" (Hook.tail_of line)).
  destruct (Spec.skipped (String "+" (Hook.tail_of line))); cbn [negb]; by rewrite IH.
Qed.

Lemma marker_not_skipped (text : string) :
  Hook.has_marker text = true → Spec.skipped (Spec.added text) = false.
Proof.
  intros Hm. unfold Spec.skipped.
  destruct (String.eqb_spec (Py.strip (Spec.added text)) "+++") as [H3|]; [|done].
  apply plus3_no_marker in H3. unfold Spec.added in H3.
  rewrite marker_after_plus in H3. congruence.
Qed.

Lemma report_elem (filename : string) (pairs : list (Z * string)) (n : Z)
    (text : string) :
  (n, text) ∈ pairs → Hook.has_marker text = true →
  Hook.message filename n ∈ Spec.report filename pairs.
Proof.
  intros Hin Hm. induction pairs as [|[n' text'] pairs IH]; [by apply elem_of_nil in Hin|].
  cbn [Spec.report].
  apply elem_of_cons in Hin as [[= <- <-]|Hin].
  - rewrite Hm. by left.
  - destruct (Hook.has_marker text'); [right|]; by apply IH.
Qed.

Lemma filter_none {A : Type} (p : A → bool) (l : list A) :
  (∀ x, x ∈ l → p x = false) → List.filter p l = [].
Proof.
  induction l as [|y l IH]; [done|]. intros H. cbn [List.filter].
  rewrite (H y) by by left. apply IH. intros x Hx. apply H. by right.
Qed.

(** The line [jj] of [b], when it is no line of [a] and is not passed
    over, is attributed; its number is its number in [b] less the lines
    passed over before it in its hunk. *)
Lemma attribute_finds (a b : list string) (jj : nat) (text : string) :
  b !! jj = Some text → text ∉ a → Spec.skipped (Spec.added text) = false →
  ∃ diff_result pairs n,
    Difflib.unified_diff a b 0 "" = Some diff_result
    ∧ Hook.attribute diff_result = Ok pairs
    ∧ (n, text) ∈ pairs
    ∧ (1 ≤ n ≤ Z.of_nat (jj + 1))%Z
    ∧ ((∀ t, t ∈ b → Spec.skipped (Spec.added t) = false) → n = Z.of_nat (jj + 1)).
Proof.
  intros Hjj Hnot Hskip.
  destruct (diff_structure a b) as (groups & hunks & Hg & Hd & Hok & _ & Hfor).
  destruct (get_grouped_opcodes_covers a b groups jj text Hg Hjj Hnot)
    as (g & tg & i1 & i2 & j1 & j2 & Hgin & Hcin & _ & Hr).
  apply list_elem_of_lookup in Hgin as [ig Hig].
  destruct (Forall2_lookup_l _ _ _ _ _ Hfor Hig) as (h & Hh & i0 & j0 & Hl & Hadd & Hstart).
  destruct (op_linked_range _ _ _ _ _ _ _ _ Hl Hcin) as [Hlo Hhi].
  assert (Hlt : j0 < group_end j0 g) by lia. specialize (Hstart Hlt).
  set (texts := Difflib.slice b j0 (group_end j0 g)) in *.
  set (sk := length (List.filter
                       (λ y, negb (negb (Spec.skipped (Spec.added y))))
                       (take (jj - j0) texts))).
  assert (Hsk : sk ≤ jj - j0) by apply filter_take_length.
  assert (Hpair : (Z.of_nat (jj + 1 - sk), text) ∈ Further.counted_pairs h).
  { unfold Further.counted_pairs. rewrite kept_additions.
    change (plus_texts (Spec.lines h)) with (Spec.additions h). rewrite Hadd, Hstart.
    apply (list_elem_of_lookup_2 _ (jj - j0 - sk)).
    replace (Z.of_nat (jj + 1 - sk))
      with (Z.of_nat (j0 + 1) + Z.of_nat (jj - j0 - sk))%Z by lia.
    apply number_from_lookup.
    apply (filter_lookup_index (λ y, negb (Spec.skipped (Spec.added y)))).
    - apply slice_lookup_in; [lia | done].
    - by rewrite Hskip. }
  destruct groups as [|g0 groups]; [by rewrite lookup_nil in Hig|].
  exists ("--- " :: "+++ " :: concat (Spec.hunk_lines <$> hunks)),
         (concat (Further.counted_pairs <$> hunks)), (Z.of_nat (jj + 1 - sk)).
  split; [done|]. split; [|split; [|split]].
  - rewrite attribute_preamble.
    by destruct (attribute_counted hunks 1 [] Hok) as [n' ->].
  - apply elem_of_concat. exists (Further.counted_pairs h). split; [|done].
    apply list_elem_of_fmap. exists h. split; [done|].
    by eapply list_elem_of_lookup_2.
  - lia.
  - intros Hall. assert (Hz : sk = 0); [|lia].
    unfold sk. rewrite filter_none; [done|].
    intros t Ht. rewrite Hall; [done|].
    apply (slice_subseteq b j0 (group_end j0 g)).
    by eapply elem_of_sublist; [|apply sublist_take].
Qed.

Lemma collect_errors_finds (filename data_a data_b : string)
    (j : nat) (text : string) :
  Py.splitlines data_a !! j = Some text →
  Hook.has_marker text = true →
  text ∉ Py.splitlines data_b →
  ∃ errors n,
    Hook.collect_errors filename data_a data_b = Ok errors
    ∧ Hook.message filename n ∈ errors
    ∧ (1 ≤ n ≤ Z.of_nat (j + 1))%Z
    ∧ ((∀ t, t ∈ Py.splitlines data_a → Spec.skipped (Spec.added t) = false) →
       n = Z.of_nat (j + 1)).
Proof.
  intros Hj Hm Hnot.
  destruct (attribute_finds (Py.splitlines data_b) (Py.splitlines data_a) j text
              Hj Hnot (marker_not_skipped text Hm))
    as (diff_result & pairs & n & Hd & Ha & Hin & Hn & Hexact).
  exists (Spec.report filename pairs), n. split; [|split; [|done]].
  - unfold Hook.collect_errors. by rewrite Hd, scan_attribute, Ha.
  - by apply report_elem with text.
Qed.

(** X13: a line of [data_a] that holds the marker and is no line of
    [data_b] is reported: some diagnostic carries a number from 1 to the
    number of that line, and the number of that line itself when no line
    of [data_a] is passed over by the loop. *)
Theorem collect_errors_reports_new_marker (filename data_a data_b : string)
    (j : nat) (text : string) :
  Py.splitlines data_a !! j = Some text →
  Hook.has_marker text = true →
  text ∉ Py.splitlines data_b →
  ∃ errors n,
    Hook.collect_errors filename data_a data_b = Ok errors
    ∧ Hook.message filename n ∈ errors
    ∧ (1 ≤ n ≤ Z.of_nat (j + 1))%Z
    ∧ ((∀ t, t ∈ Py.splitlines data_a → Spec.skipped (Spec.added t) = false) →
       n = Z.of_nat (j + 1)).
Proof. apply collect_errors_finds. Qed.

(** X13 at the texts of two and of three lines, where line 2 holds the
    marker. *)
Lemma collect_errors_reports_new_marker_witness :
  ∃ errors n,
    Hook.collect_errors "path" new_ab old_ab = Ok errors
    ∧ Hook.message "path" n ∈ errors
    ∧ (1 ≤ n ≤ Z.of_nat (1 + 1))%Z
    ∧ ((∀ t, t ∈ Py.splitlines new_ab → Spec.skipped (Spec.added t) = false) →
       n = Z.of_nat (1 + 1)).
Proof.
  apply (collect_errors_reports_new_marker "path" new_ab old_ab 1 "# xxx debug").
  - reflexivity.
  - reflexivity.
  - intros Hin. apply list_elem_of_In in Hin. vm_compute in Hin.
    repeat destruct Hin as [Hin|Hin]; try discriminate Hin. exact Hin.
Defined.

(** X14: [main] returns 1 as soon as, for one entry it does not pass over,
    what [read_blob] gives for the [a_blob] has a line with the marker
    that is no line of what it gives for the [b_blob]; it prints a
    diagnostic for the [b_path] of that entry. *)
Theorem main_fails_on_new_marker (diff_result : list Hook.Diff) (diff : Hook.Diff)
    (j : nat) (text : string) :
  diff ∈ diff_result →
  Further.checked diff = true →
  Py.splitlines (Hook.read_blob (Hook.a_blob diff)) !! j = Some text →
  Hook.has_marker text = true →
  text ∉ Py.splitlines (Hook.read_blob (Hook.b_blob diff)) →
  ∃ printed n,
    Hook.main diff_result = Ok (printed, 1%Z)
    ∧ Hook.message (default "" (Hook.b_path diff)) n ∈ printed
    ∧ (1 ≤ n ≤ Z.of_nat (j + 1))%Z.
Proof.
  intros Hd Hc Hj Hm Hnot.
  destruct (main_loop diff_result []) as (founds & HF & Hloop).
  assert (Hin : diff ∈ List.filter Further.checked diff_result)
    by by apply elem_of_filter_bool.
  apply list_elem_of_lookup in Hin as [i Hi].
  destruct (Forall2_lookup_l _ _ _ _ _ HF Hi) as (found & Hfound & Hf).
  destruct (collect_errors_finds (default "" (Hook.b_path diff)) _ _ j text Hj Hm Hnot)
    as (errors & n & He & Hn & Hr & _).
  unfold Further.entry_errors in Hf. rewrite He in Hf. injection Hf as ->.
  assert (Hp : Hook.message (default "" (Hook.b_path diff)) n ∈ concat founds).
  { apply elem_of_concat. exists found. split; [|done].
    by eapply list_elem_of_lookup_2. }
  exists (concat founds), n. split; [|done].
  unfold Hook.main. rewrite Hloop. cbn [bind app].
  destruct (concat founds); [by apply elem_of_nil in Hp | done].
Qed.

(** X14 at the entry whose [a_blob] holds the three lines with the marker
    and whose [b_blob] holds the two lines without it. *)
Lemma main_fails_on_new_marker_witness :
  ∃ printed n,
    Hook.main [entry "path" new_ab old_ab] = Ok (printed, 1%Z)
    ∧ Hook.message (default "" (Hook.b_path (entry "path" new_ab old_ab))) n ∈ printed
    ∧ (1 ≤ n ≤ Z.of_nat (1 + 1))%Z.
Proof.
  apply (main_fails_on_new_marker [entry "path" new_ab old_ab]
           (entry "path" new_ab old_ab) 1 "# xxx debug").
  - by left.
  - reflexivity.
  - reflexivity.
  - reflexivity.
  - intros Hin. apply list_elem_of_In in Hin. vm_compute in Hin.
    repeat destruct Hin as [Hin|Hin]; try discriminate Hin. exact Hin.
Defined.

(** * The claims *)



(** C3, the code at a new file: [collect_errors], given the three lines as
    the staged text and the empty string as the other one, attributes
    the three lines their numbers and reports the marker of a second line
    at line 2.  [main] does not get that far: the entry of a file that
    the commit does not have has no [b_blob], and the loop passes over
    every such entry; it prints nothing and returns 0. *)
Theorem C3_new_file_passed_over :
  Hook.attributed_lines three_lines ""
  = Ok [(1%Z, "line1"); (2%Z, "line2"); (3%Z, "line3")]
  ∧ Hook.collect_errors "new.py" marked_lines ""
    = Ok ["Debug marker detected at new.py:2"]
  ∧ Hook.main [new_file "new.py" marked_lines] = Ok ([], 0%Z)
  ∧ (∀ diff_result,
       Forall (λ diff, Hook.b_blob diff = None) diff_result →
       Hook.main diff_result = Ok ([], 0%Z)).
Proof.
  do 3 (split; [vm_compute; reflexivity|]). apply main_no_b_blob.
Qed.

(** C4, the code at an added line ["++"]: with the line ["a"] in the
    commit and the lines ["a"], ["++"], ["# xxx"] staged, the diff has one
    hunk of two additions that starts at line 2.  The added line ["++"]
    is the diff line ["+++"], which the loop passes over without
    counting it: one line is attributed for two additions, and the
    marker of line 3 is reported at line 2.  The header of a hunk does
    set the counter, and an added line advances it by one unless it
    strips to ["+++"]; the additions of two hunks with new-starts 5 and
    50 are attributed lines 5 and 50. *)
Theorem C4_skipped_addition_shifts_numbers :
  Py.splitlines head_a = ["a"]
  ∧ Py.splitlines staged_pp = ["a"; "++"; "# xxx"]
  ∧ Difflib.unified_diff ["a"] ["a"; "++"; "# xxx"] 0 ""
    = Some ["--- "; "+++ "; "@@ -1,0 +2,2 @@"; "+++"; "+# xxx"]
  ∧ Hook.attributed_lines staged_pp head_a = Ok [(2%Z, "# xxx")]
  ∧ Hook.collect_errors "path" staged_pp head_a
    = Ok ["Debug marker detected at path:2"]
  ∧ Hook.main [entry "path" staged_pp head_a]
    = Ok (["Debug marker detected at path:2"], 1%Z)
  ∧ (∀ st line n,
       Py.startswith line "@@" = true →
       Hook.parse_line_number line = Ok n →
       Hook.attribute_body st line = Ok (n, st.2))
  ∧ (∀ st text,
       Hook.attribute_body st (Spec.added text)
       = Ok (if Spec.skipped (Spec.added text)
             then st else ((st.1 + 1)%Z, st.2 ++ [(st.1, text)])))
  ∧ Difflib.unified_diff old_52 new_54 0 ""
    = Some ("--- " :: "+++ " :: concat (Spec.hunk_lines <$> two_hunks))
  ∧ Hook.attribute ("--- " :: "+++ " :: concat (Spec.hunk_lines <$> two_hunks))
    = Ok [(5%Z, "X"); (50%Z, "Y")].
Proof.
  do 6 (split; [vm_compute; reflexivity|]).
  split; [apply attribute_body_header|].
  split; [apply attribute_body_added|].
  split; vm_compute; reflexivity.
Qed.

(** C5, as stated, fails: a third token without the leading ["+"], and one
    whose part after the comma is no integer, are both read as 20. *)
Lemma C5_counterexample :
  (Py.split " " "@@ -1 20 @@" = ["@@"; "-1"; "20"; "@@"]
   ∧ Spec.plus_int_form "20" = false
   ∧ Hook.parse_line_number "@@ -1 20 @@" = Ok 20%Z)
  ∧ (Py.split " " "@@ -1 +20,abc @@" = ["@@"; "-1"; "+20,abc"; "@@"]
     ∧ Spec.plus_int_form "+20,abc" = false
     ∧ Hook.parse_line_number "@@ -1 +20,abc @@" = Ok 20%Z).
Proof. repeat split; vm_compute; reflexivity. Qed.

(** C5, amended: [parse_line_number] raises the header error for every
    line that does not start with ["@@"] or does not split into exactly
    four space-separated tokens; for the other lines it is [int] applied to
    the part of the third token before its first comma, so it raises exactly
    when [int] rejects that part. *)
Theorem C5_parse_line_number_raises (line : string) :
  (Py.startswith line "@@" = false ∨ length (Py.split " " line) ≠ 4 →
   Hook.parse_line_number line = Raise (ValueError "Not a unified-diff header"))
  ∧ (∀ t0 t1 t2 t3,
       Py.startswith line "@@" = true →
       Py.split " " line = [t0; t1; t2; t3] →
       Hook.parse_line_number line = Py.int (Spec.before_comma t2)).
Proof.
  split.
  - unfold Hook.parse_line_number. intros [-> | Hn]; [done|].
    destruct (Py.startswith line "@@"); simpl; [|done].
    destruct (Nat.eqb_spec (length (Py.split " " line)) 4); [lia | done].
  - apply parse_line_number_four.
Qed.

(** C5 at a line of three tokens and at a header whose third token does
    not hold a number. *)
Lemma C5_parse_line_number_raises_witness :
  Hook.parse_line_number "@@ -1 +2"
  = Raise (ValueError "Not a unified-diff header")
  ∧ Hook.parse_line_number "@@ -1 +x,3 @@" = Py.int "+x".
Proof.
  split.
  - apply (proj1 (C5_parse_line_number_raises "@@ -1 +2")).
    right. vm_compute. lia.
  - apply (proj2 (C5_parse_line_number_raises "@@ -1 +x,3 @@") "@@" "-1" "+x,3" "@@");
      reflexivity.
Defined.

(** C6: on an added line the loop appends a diagnostic exactly when the
    text holds ["# xxx"] in some mix of cases, and the diagnostic is
    ["Debug marker detected at {path}:{line_number}"]; the diagnostics of a
    diff are those of its attributed lines; ["# XXX fix me"] and ["# xxx"]
    are flagged, ["xxx"] and ["#xxx"] are not. *)
Theorem C6_marker_scan :
  (∀ text, Hook.has_marker text = true ↔ Spec.marker_occurs text)
  ∧ (∀ filename st text,
       ∃ n, Hook.body filename st (Spec.added text)
            = Ok (Hook.State n
                    (if Hook.has_marker text
                     then Hook.errors st
                          ++ ["Debug marker detected at " +:+ filename +:+ ":"
                              +:+ Py.str_of_int (Hook.line_number st)]
                     else Hook.errors st)))
  ∧ (∀ filename diff_result,
       Hook.scan filename diff_result
       = (pairs ←! Hook.attribute diff_result; Ok (Spec.report filename pairs)))
  ∧ Hook.has_marker "# XXX fix me" = true
  ∧ Hook.has_marker "# xxx" = true
  ∧ Hook.has_marker "xxx" = false
  ∧ Hook.has_marker "#xxx" = false.
Proof.
  split; [apply has_marker_occurs|].
  split; [|split; [apply scan_attribute | repeat split; vm_compute; reflexivity]].
  intros filename st text. eexists. unfold Spec.added. by rewrite body_added.
Qed.

(** C7: for every file name and every text, [collect_errors] on the text
    and itself returns the empty list. *)
Theorem C7_identical_texts (filename text : string) :
  Hook.collect_errors filename text text = Ok [].
Proof.
  unfold Hook.collect_errors. by rewrite unified_diff_same.
Qed.

(** C8: [parse_line_number("@@ -14,0 +20,3 @@")] returns 20 and
    [parse_line_number("@@ -0,0 +1 @@")] returns 1. *)
Theorem C8_parse_line_number_examples :
  Hook.parse_line_number "@@ -14,0 +20,3 @@" = Ok 20%Z
  ∧ Hook.parse_line_number "@@ -0,0 +1 @@" = Ok 1%Z.
Proof. split; vm_compute; reflexivity. Qed.

(** C9, as stated, fails twice: the text [" ++"] strips to ["++"], yet
    its diff line is not passed over and the addition after it keeps its
    true number; and after two lines ["++"] the next addition, line 3 of
    the new text, is attributed line 1, two less. *)
Lemma C9_counterexample :
  (Py.strip " ++" = "++"
   ∧ Spec.skipped (Spec.added " ++") = false
   ∧ Difflib.unified_diff [] [" ++"; "# xxx"] 0 ""
     = Some ["--- "; "+++ "; "@@ -0,0 +1,2 @@"; "+ ++"; "+# xxx"]
   ∧ Hook.attribute ["--- "; "+++ "; "@@ -0,0 +1,2 @@"; "+ ++"; "+# xxx"]
     = Ok [(1%Z, " ++"); (2%Z, "# xxx")])
  ∧ (Difflib.unified_diff [] ["++"; "++"; "# xxx"] 0 ""
     = Some ["--- "; "+++ "; "@@ -0,0 +1,3 @@"; "+++"; "+++"; "+# xxx"]
     ∧ Hook.attribute ["--- "; "+++ "; "@@ -0,0 +1,3 @@"; "+++"; "+++"; "+# xxx"]
       = Ok [(1%Z, "# xxx")]).
Proof. repeat split; vm_compute; reflexivity. Qed.

(** C9, amended: a diff line that strips to ["+++"] leaves the counter and
    the diagnostics as they are; besides the file header ["+++ "] these are
    the added lines whose text is ["++"] followed by whitespace only, which
    hold no marker; and in a run of added lines each line that is kept is
    attributed its place in the run less the number of lines passed over
    before it. *)
Theorem C9_plus3_lines_passed_over :
  (∀ filename st line, Py.strip line = "+++" → Hook.body filename st line = Ok st)
  ∧ Py.strip "+++ " = "+++"
  ∧ (∀ text, Spec.skipped (Spec.added text) = true
             ↔ ∃ ws, text = "++" +:+ ws ∧ Py.all_chars Py.isspace ws = true)
  ∧ (∀ text, Spec.skipped (Spec.added text) = true → Hook.has_marker text = false)
  ∧ (∀ start acc texts,
       ∃ pairs,
         for_each Hook.attribute_body (start, acc) (Spec.added <$> texts)
         = Ok ((start + Z.of_nat (length pairs))%Z, acc ++ pairs)
         ∧ ∀ i text,
             texts !! i = Some text →
             Spec.skipped (Spec.added text) = false →
             pairs !! (i - Spec.skipped_before i texts)
             = Some ((start + Z.of_nat i - Z.of_nat (Spec.skipped_before i texts))%Z,
                     text)).
Proof.
  split; [apply body_skipped|]. split; [done|].
  split; [apply skipped_added_iff|]. split; [|apply attribute_added_run].
  intros text H. apply String.eqb_eq, plus3_no_marker in H.
  unfold Spec.added in H. by rewrite marker_after_plus in H.
Qed.

(** C9 at the file header of the diff and at an added line ["++ "]. *)
Lemma C9_plus3_lines_passed_over_witness :
  Hook.body "f" (Hook.State 7 []) "+++ " = Ok (Hook.State 7 [])
  ∧ Hook.has_marker "++ " = false.
Proof.
  split.
  - apply (proj1 C9_plus3_lines_passed_over "f" (Hook.State 7 []) "+++ ").
    reflexivity.
  - apply (proj1 (proj2 (proj2 (proj2 C9_plus3_lines_passed_over))) "++ ").
    reflexivity.
Defined.

(** C10: [collect_errors] returns a list for every pair of texts, and
    every line of the diff that starts with ["@@"] splits into the four
    tokens ["@@"], a second one, a third one of the shape [+<int>] or
    [+<int>,<int>], and ["@@"], and is read by [parse_line_number]. *)
Theorem C10_collect_errors_never_raises :
  (∀ filename data_a data_b,
     ∃ errors, Hook.collect_errors filename data_a data_b = Ok errors)
  ∧ (∀ a b,
       ∃ diff_result,
         Difflib.unified_diff a b 0 "" = Some diff_result
         ∧ ∀ line,
             line ∈ diff_result →
             Py.startswith line "@@" = true →
             ∃ t1 t2 n,
               Py.split " " line = ["@@"; t1; t2; "@@"]
               ∧ Spec.plus_int_form t2 = true
               ∧ Hook.parse_line_number line = Ok n).
Proof.
  split.
  - intros filename data_a data_b. unfold Hook.collect_errors.
    destruct (unified_diff_total (Py.splitlines data_b) (Py.splitlines data_a) 0 "")
      as [diff_result Hd].
    rewrite Hd. apply scan_total. by apply unified_diff_lines_ok in Hd.
  - intros a b. destruct (unified_diff_total a b 0 "") as [diff_result Hd].
    exists diff_result. split; [done|].
    apply unified_diff_lines_ok in Hd. rewrite Forall_forall in Hd.
    intros line Hin. by apply Hd.
Qed.
